(** * libdeep: the convolution layers of [deeplearn_conv.c]

    A shallow embedding of [src/deeplearn_conv.c]: the layer geometry
    computed by [conv_init], the convolution of [convolve_image], the
    pipeline of [conv_feed_forward] and the training step of
    [conv_learn], followed by the properties of the specification that
    are settled on them.

    Conventions of the embedding.
    - A C [int] is a [Z].  [conv_init] computes the widths and the
      sizes of the buffers from its arguments: there the arithmetic is
      the one of the machine, 32 bits in two's complement, and a result
      that leaves the range wraps around ([to_int]).  In the other
      functions the [int]s are counters and indices into buffers that
      exist; the model computes them in [Z] and so describes the
      executions in which no index overflows.  [/] on [int] truncates
      towards zero: [Z.quot].
    - A C [float] is an IEEE 754 binary32 number: a [spec_float] with
      the operations of the standard library at precision 24 and
      maximal exponent 128, every operation rounded to nearest even.
    - A [float *] is a buffer, a [list float32]; a read or a write outside
      of it is undefined behaviour, which the model reports as [None].
      A pointer stored in a structure is an [option]: [None] is [NULL]
      (or a pointer that has been freed).
    - A function that can run into undefined behaviour returns an
      [option]; [None] means that C gives the execution no meaning. *)

From Stdlib Require Import ZArith Bool List Lia.
From Stdlib Require Import Floats.SpecFloat.
From Stdlib Require Import Strings.Byte.
From Stdlib Require QArith.
From Stdlib Require Strings.String Strings.Ascii.
From stdpp Require Import base option list relations.

Local Open Scope Z_scope.

(** ** Single precision numbers *)

Module F32.

Definition prec : Z := 24.
Definition emax : Z := 128.

Definition float32 : Type := spec_float.

Definition add : float32 -> float32 -> float32 := SFadd prec emax.
Definition sub : float32 -> float32 -> float32 := SFsub prec emax.
Definition mul : float32 -> float32 -> float32 := SFmul prec emax.
Definition div : float32 -> float32 -> float32 := SFdiv prec emax.
Definition ltb : float32 -> float32 -> bool := SFltb.

(** The conversion [(float)i] of an integer. *)
Definition of_Z (i : Z) : float32 := binary_normalize prec emax i 0 false.

(** The constants [0.0f] and [1.0f]. *)
Definition zero : float32 := S754_zero false.
Definition one : float32 := S754_finite false 8388608 (-23).





End F32.

Abbreviation float32 := F32.float32.

(** ** Buffers *)

(** [b[i]] as an rvalue. *)
Definition rd {A : Type} (b : list A) (i : Z) : option A :=
  if i <? 0 then None else b !! Z.to_nat i.

(** [b[i] = v]. *)
Definition wr {A : Type} (b : list A) (i : Z) (v : A) : option (list A) :=
  if (0 <=? i) && (i <? Z.of_nat (length b))
  then Some (<[Z.to_nat i := v]> b) else None.

(** ** Loops *)

(** Modelled from the spec: the macros [COUNTUP] and [COUNTDOWN] are
    declared in a header that is not among the sources.  The
    specification reads a loop over [n] as "for [l] in [[0, n)]":
    [COUNTUP(l, n)] visits these indices in increasing order, and
    [COUNTDOWN(i, n)], as it is named, from [n-1] down to [0].  A bound
    that is not positive leaves no index to visit.  The body works on a
    state [S] and may be undefined. *)
Fixpoint countdown_loop {S : Type} (n : nat) (body : Z -> S -> option S)
    (s : S) : option S :=
  match n with
  | O => Some s
  | S k =>
      match body (Z.of_nat k) s with
      | Some s' => countdown_loop k body s'
      | None => None
      end
  end.

Definition COUNTDOWN {S : Type} (n : Z) (body : Z -> S -> option S)
    (s : S) : option S :=
  countdown_loop (Z.to_nat n) body s.

Fixpoint countup_loop {S : Type} (i : Z) (n : nat)
    (body : Z -> S -> option S) (s : S) : option S :=
  match n with
  | O => Some s
  | S k =>
      match body i s with
      | Some s' => countup_loop (i + 1) k body s'
      | None => None
      end
  end.

Definition COUNTUP {S : Type} (n : Z) (body : Z -> S -> option S)
    (s : S) : option S :=
  countup_loop 0 (Z.to_nat n) body s.

(** ** The convolution engine *)

(** The three innermost loops of [convolve_image]: the squared
    difference between the resampled region of the image and the feature
    that starts at [curr_feature], accumulated into [match]. *)
Definition feature_match (img : list float32)
    (img_width img_depth feature_width : Z)
    (feature : list float32) (curr_feature : Z)
    (ty by_ tx bx : Z) : option float32 :=
  COUNTDOWN feature_width (fun yy match_ =>
    let tyy := ty + (yy * (by_ - ty)) ÷ feature_width in
    COUNTDOWN feature_width (fun xx match_ =>
      let txx := tx + (xx * (bx - tx)) ÷ feature_width in
      let n0 := ((tyy * img_width) + txx) * img_depth in
      let n1 := ((yy * feature_width) + xx) * img_depth in
      COUNTDOWN img_depth (fun d match_ =>
        a ← rd img (n0 + d);
        b ← rd feature (curr_feature + (n1 + d));
        Some (F32.add match_ (F32.mul (F32.sub a b) (F32.sub a b))))
      match_)
    match_)
  F32.zero.

Definition convolve_image (img : list float32)
    (img_width img_height img_depth : Z)
    (feature_width no_of_features : Z)
    (feature : list float32)
    (layer : list float32) (layer_width : Z) : option (list float32) :=
  let feature_pixels :=
    F32.div F32.one (F32.of_Z (feature_width * feature_width * img_depth)) in
  COUNTDOWN layer_width (fun layer_y layer =>
    let ty := (layer_y * img_height) ÷ layer_width in
    let by_ := ((layer_y + 1) * img_height) ÷ layer_width in
    COUNTDOWN layer_width (fun layer_x layer =>
      let tx := (layer_x * img_width) ÷ layer_width in
      let bx := ((layer_x + 1) * img_width) ÷ layer_width in
      COUNTDOWN no_of_features (fun f layer =>
        let curr_feature := f * feature_width * feature_width * img_depth in
        match_ ← feature_match img img_width img_depth feature_width
                   feature curr_feature ty by_ tx bx;
        wr layer (((layer_y * layer_width) + layer_x) * no_of_features + f)
           (F32.sub F32.one (F32.mul match_ feature_pixels)))
      layer)
    layer)
  layer.

(** ** The network *)

(** Modelled from the spec: the structures [deeplearn_conv_layer] and
    [deeplearn_conv] are declared in [deeplearn_conv.h], which is not
    among the sources.  The fields are the ones that the code reads and
    writes, with the types of section 3 of the specification.  The array
    [layer] of [deeplearn_conv] is called [conv_layers] here, since the
    buffer of a layer has the same name in C. *)
Record deeplearn_conv_layer : Type := mk_layer {
  width : Z;
  height : Z;
  depth : Z;
  no_of_features : Z;
  feature_width : Z;
  layer : option (list float32);
  feature : option (list float32)
}.

Record deeplearn_conv : Type := mk_conv {
  no_of_layers : Z;
  current_layer : Z;
  learning_rate : float32;
  itterations : Z;
  training_ctr : Z;
  conv_layers : list deeplearn_conv_layer;
  outputs_width : Z;
  no_of_outputs : Z;
  outputs : option (list float32);
  match_threshold : option (list float32);
  history : list float32;
  history_index : Z;
  history_step : Z
}.

(** The buffer behind a pointer: nothing can be read or written through
    [NULL]. *)
Definition buf_of (p : option (list float32)) : list float32 :=
  match p with Some b => b | None => [] end.

(** The contents of the buffer behind [p] become [b]; the pointer
    itself does not change. *)
Definition store_buf (p : option (list float32)) (b : list float32)
    : option (list float32) :=
  match p with Some _ => Some b | None => None end.

Definition set_layer_buf (lay : deeplearn_conv_layer)
    (p : option (list float32)) : deeplearn_conv_layer :=
  mk_layer (width lay) (height lay) (depth lay) (no_of_features lay)
    (feature_width lay) p (feature lay).

Definition set_feature_buf (lay : deeplearn_conv_layer)
    (p : option (list float32)) : deeplearn_conv_layer :=
  mk_layer (width lay) (height lay) (depth lay) (no_of_features lay)
    (feature_width lay) (layer lay) p.

Definition set_conv_layers (conv : deeplearn_conv)
    (ls : list deeplearn_conv_layer) : deeplearn_conv :=
  mk_conv (no_of_layers conv) (current_layer conv) (learning_rate conv)
    (itterations conv) (training_ctr conv) ls (outputs_width conv)
    (no_of_outputs conv) (outputs conv) (match_threshold conv)
    (history conv) (history_index conv) (history_step conv).

Definition set_outputs (conv : deeplearn_conv)
    (p : option (list float32)) : deeplearn_conv :=
  mk_conv (no_of_layers conv) (current_layer conv) (learning_rate conv)
    (itterations conv) (training_ctr conv) (conv_layers conv)
    (outputs_width conv) (no_of_outputs conv) p (match_threshold conv)
    (history conv) (history_index conv) (history_step conv).

Definition set_match_threshold (conv : deeplearn_conv)
    (p : option (list float32)) : deeplearn_conv :=
  mk_conv (no_of_layers conv) (current_layer conv) (learning_rate conv)
    (itterations conv) (training_ctr conv) (conv_layers conv)
    (outputs_width conv) (no_of_outputs conv) (outputs conv) p
    (history conv) (history_index conv) (history_step conv).

Definition set_current_layer (conv : deeplearn_conv) (l : Z)
    : deeplearn_conv :=
  mk_conv (no_of_layers conv) l (learning_rate conv)
    (itterations conv) (training_ctr conv) (conv_layers conv)
    (outputs_width conv) (no_of_outputs conv) (outputs conv)
    (match_threshold conv)
    (history conv) (history_index conv) (history_step conv).

Definition set_itterations (conv : deeplearn_conv) (i : Z)
    : deeplearn_conv :=
  mk_conv (no_of_layers conv) (current_layer conv) (learning_rate conv)
    i (training_ctr conv) (conv_layers conv)
    (outputs_width conv) (no_of_outputs conv) (outputs conv)
    (match_threshold conv)
    (history conv) (history_index conv) (history_step conv).

(** [conv->layer[l]] as an rvalue, and the assignment to it.  The list
    [conv_layers] is the array of the structure: an index outside of it
    is undefined. *)
Definition get_layer (conv : deeplearn_conv) (l : Z)
    : option deeplearn_conv_layer :=
  rd (conv_layers conv) l.

Definition put_layer (conv : deeplearn_conv) (l : Z)
    (lay : deeplearn_conv_layer) : option deeplearn_conv :=
  ls ← wr (conv_layers conv) l lay;
  Some (set_conv_layers conv ls).

(** ** Allocation *)

(** Modelled from the spec: the macro [FLOATALLOC(p, n)] is declared in
    a header that is not among the sources; the specification describes
    it as the allocation of a buffer of [n] numbers that can fail, after
    which the pointer is [NULL].  Whether the [k]-th allocation of an
    execution succeeds, and what the fresh memory holds, is not decided
    by the program: an [allocator] fixes both. *)
Record allocator : Type := mk_allocator {
  alloc_ok : nat -> bool;
  alloc_fill : nat -> nat -> float32
}.

Definition FLOATALLOC (M : allocator) (k : nat) (n : Z)
    : option (list float32) :=
  if alloc_ok M k
  then Some (map (alloc_fill M k) (seq 0 (Z.to_nat n)))
  else None.

(** [memcpy(dst, src, n * sizeof(float))]. *)
Definition memcpy (dst src : list float32) (n : Z)
    : option (list float32) :=
  if (Z.of_nat (length src) <? n) || (Z.of_nat (length dst) <? n)
  then None
  else Some (take (Z.to_nat n) src ++ drop (Z.to_nat n) dst).

(** ** The type [int] *)

(** An [int] has 32 bits.  The result of an operation is reduced to
    this range: it wraps around, as two's complement does. *)
Definition int_min : Z := -2147483648.
Definition int_max : Z := 2147483647.

Definition in_int (z : Z) : Prop := int_min <= z <= int_max.

Definition to_int (z : Z) : Z :=
  (z + 2147483648) mod 4294967296 - 2147483648.

Definition int_sub (a b : Z) : Z := to_int (a - b).
Definition int_mul (a b : Z) : Z := to_int (a * b).

(** Division of [int]s; dividing by zero is undefined. *)
Definition int_div (a b : Z) : option Z :=
  if b =? 0 then None else Some (to_int (a ÷ b)).

(** ** Construction *)

(** The constant [0.1f]. *)
Definition f32_0_1 : float32 := S754_finite false 13421773 (-27).

(** What an iteration of a loop with a [return] in its body does. *)
Inductive flow (S R : Type) : Type :=
  | Next (s : S)
  | Return (r : R).
Arguments Next {S R} s.
Arguments Return {S R} r.

Fixpoint countup_return {S R : Type} (i : Z) (n : nat)
    (body : Z -> S -> option (flow S R)) (s : S) : option (flow S R) :=
  match n with
  | O => Some (Next s)
  | S k =>
      match body i s with
      | Some (Next s') => countup_return (i + 1) k body s'
      | other => other
      end
  end.

(** The body of the loop of [conv_init] for layer [l]; the state is the
    network and the number of allocations made so far. *)
Definition conv_init_layer (M : allocator)
    (no_of_layers image_width image_height image_depth : Z)
    (no_of_features_ feature_width_ : Z)
    (final_image_width final_image_height : Z)
    (l : Z) (st : deeplearn_conv * nat)
    : option (flow (deeplearn_conv * nat) (Z * deeplearn_conv * nat)) :=
  let '(conv, k) := st in
  old ← get_layer conv l;
  let w :=
    int_sub image_width
      (int_mul (int_sub image_width final_image_width) l ÷ no_of_layers) in
  let h :=
    if l =? 0
    then int_sub image_height
           (int_mul (int_sub image_height final_image_height) l ÷ no_of_layers)
    else w in
  d ← (if l =? 0 then Some image_depth
       else no_of_features <$> get_layer conv (l - 1));
  fw ← int_div (int_mul feature_width_ w) image_width;
  let fw := if fw <? 3 then 3 else fw in
  let p := FLOATALLOC M k (int_mul (int_mul w h) d) in
  let lay := mk_layer w h d no_of_features_ fw p (feature old) in
  conv ← put_layer conv l lay;
  if bool_decide (p = None) then Some (Return (1, conv, S k))
  else
    let q :=
      FLOATALLOC M (S k)
        (int_mul (int_mul (int_mul no_of_features_ fw) fw) d) in
    conv ← put_layer conv l (set_feature_buf lay q);
    if bool_decide (q = None) then Some (Return (2, conv, S (S k)))
    else Some (Next (conv, S (S k))).

Definition conv_init (M : allocator) (k : nat)
    (no_of_layers_ image_width image_height image_depth : Z)
    (no_of_features_ feature_width_ : Z)
    (final_image_width final_image_height : Z)
    (match_threshold_ : list float32)
    (conv : deeplearn_conv) : option (Z * deeplearn_conv * nat) :=
  let conv :=
    mk_conv no_of_layers_ 0 f32_0_1 0 0 (conv_layers conv)
      (outputs_width conv) (no_of_outputs conv) (outputs conv)
      (match_threshold conv)
      (history conv) (history_index conv) (history_step conv) in
  r ← countup_return 0 (Z.to_nat no_of_layers_)
        (conv_init_layer M no_of_layers_ image_width image_height image_depth
           no_of_features_ feature_width_ final_image_width final_image_height)
        (conv, k);
  match r with
  | Return r => Some r
  | Next (conv, k) =>
      last ← get_layer conv (no_of_layers_ - 1);
      let n_out :=
        int_mul (int_mul final_image_width final_image_width) (depth last) in
      let p := FLOATALLOC M k n_out in
      let conv :=
        mk_conv (no_of_layers conv) (current_layer conv) (learning_rate conv)
          (itterations conv) (training_ctr conv) (conv_layers conv)
          final_image_width n_out p (match_threshold conv)
          (history conv) (history_index conv) (history_step conv) in
      if bool_decide (p = None) then Some (3, conv, S k)
      else
        match FLOATALLOC M (S k) (no_of_layers conv) with
        | None => Some (4, set_match_threshold conv None, S (S k))
        | Some dst =>
            thr ← memcpy dst match_threshold_ (no_of_layers conv);
            Some (0, set_match_threshold conv (Some thr), S (S k))
        end
  end.

(** ** Teardown and persistence *)

Definition conv_free (conv : deeplearn_conv) : option deeplearn_conv :=
  conv ← COUNTDOWN (no_of_layers conv) (fun l conv =>
            lay ← get_layer conv l;
            put_layer conv l (set_feature_buf (set_layer_buf lay None) None))
          conv;
  Some (set_match_threshold (set_outputs conv None) None).

(** [conv_save] and [conv_load] have an empty body: they return zero and
    touch neither the file nor the network. *)
Definition conv_save (conv : deeplearn_conv) : Z * deeplearn_conv := (0, conv).
Definition conv_load (conv : deeplearn_conv) : Z * deeplearn_conv := (0, conv).

(** ** The feed-forward pipeline *)

(** [(float)b] for an [unsigned char]. *)
Definition f32_of_byte (b : byte) : float32 := F32.of_Z (Z.of_N (Byte.to_N b)).

(** One round of the loop of [conv_feed_forward]. *)
Definition feed_forward_layer (l : Z) (conv : deeplearn_conv)
    : option deeplearn_conv :=
  cur ← get_layer conv l;
  if l <? no_of_layers conv - 1 then
    nxt ← get_layer conv (l + 1);
    out ← convolve_image (buf_of (layer cur))
            (width cur) (height cur) (depth cur)
            (feature_width cur) (no_of_features cur)
            (buf_of (feature cur))
            (buf_of (layer nxt)) (width nxt);
    put_layer conv (l + 1) (set_layer_buf nxt (store_buf (layer nxt) out))
  else
    out ← convolve_image (buf_of (layer cur))
            (width cur) (height cur) (depth cur)
            (feature_width cur) (no_of_features cur)
            (buf_of (feature cur))
            (buf_of (outputs conv)) (outputs_width conv);
    Some (set_outputs conv (store_buf (outputs conv) out)).

Definition conv_feed_forward (img : list byte) (conv : deeplearn_conv)
    (layer_ : Z) : option deeplearn_conv :=
  l0 ← get_layer conv 0;
  b0 ← COUNTDOWN (width l0 * height l0 * depth l0) (fun i b =>
          x ← rd img i;
          wr b i (F32.div (f32_of_byte x) (F32.of_Z 255)))
        (buf_of (layer l0));
  conv ← put_layer conv 0 (set_layer_buf l0 (store_buf (layer l0) b0));
  COUNTUP layer_ feed_forward_layer conv.

(** ** The training step *)

(** Modelled from the spec: [learn_features] is an external operation,
    declared in a header that is not among the sources.  It consumes the
    activation buffer of a layer, its geometry, its feature bank, the
    scratch buffer of scores, the number of samples, a learning rate and
    a random seed; it returns a score, and updates the feature bank, the
    scratch buffer and the seed in place. *)
Definition learner : Type :=
  list float32 -> Z -> Z -> Z -> Z -> Z -> list float32 -> list float32 ->
  Z -> float32 -> Z -> float32 * list float32 * list float32 * Z.

(** The state of the loop over the samples: the score, the network, the
    scratch buffer and the seed. *)
Definition learn_sample (learn_features : learner) (layer_ samples : Z)
    (st : float32 * deeplearn_conv * list float32 * Z)
    : option (float32 * deeplearn_conv * list float32 * Z) :=
  let '(matching_score, conv, feature_score, random_seed) := st in
  cur ← get_layer conv layer_;
  let '(r, feature', feature_score', random_seed') :=
    learn_features (buf_of (layer cur))
      (width cur) (height cur) (depth cur)
      (feature_width cur) (no_of_features cur)
      (buf_of (feature cur)) feature_score
      samples (learning_rate conv) random_seed in
  conv ← put_layer conv layer_
           (set_feature_buf cur (store_buf (feature cur) feature'));
  Some (F32.add matching_score r,
        set_itterations conv (itterations conv + 1),
        feature_score', random_seed').

Definition conv_learn (M : allocator) (learn_features : learner) (k : nat)
    (img : list byte) (conv : deeplearn_conv)
    (samples : Z) (random_seed : Z)
    : option (float32 * deeplearn_conv * Z * nat) :=
  let matching_score := F32.of_Z 0 in
  let layer_ := current_layer conv in
  if layer_ >=? no_of_layers conv then
    Some (F32.of_Z 0, conv, random_seed, k)
  else
    cur ← get_layer conv layer_;
    match FLOATALLOC M k (no_of_features cur) with
    | None => Some (F32.of_Z (-1), conv, random_seed, S k)
    | Some feature_score =>
        conv ← conv_feed_forward img conv layer_;
        st ← COUNTDOWN samples
               (fun _ st => learn_sample learn_features layer_ samples st)
               (matching_score, conv, feature_score, random_seed);
        let '(matching_score, conv, _, random_seed) := st in
        thr ← rd (buf_of (match_threshold conv)) layer_;
        let conv :=
          if F32.ltb matching_score thr
          then set_current_layer conv (current_layer conv + 1)
          else conv in
        Some (matching_score, conv, random_seed, S k)
    end.

(** ** The convolution, as the specification words it *)

(** The indices [n-1], ..., [0], in the order in which the loops of
    [convolve_image] visit them: sums of single precision numbers depend
    on the order of the terms. *)
Fixpoint descending (n : nat) : list Z :=
  match n with
  | O => []
  | S k => Z.of_nat k :: descending k
  end.

(** A left fold whose step may be undefined. *)
Fixpoint fold_opt {A S : Type} (step : A -> S -> option S) (l : list A)
    (s : S) : option S :=
  match l with
  | [] => Some s
  | a :: l' =>
      match step a s with
      | Some s' => fold_opt step l' s'
      | None => None
      end
  end.

(** The source volume is row-major and channel-minor; the feature bank
    holds [no_of_features] patches of [feature_width] rows of
    [feature_width] pixels of [depth] channels. *)
Definition source_pixel (img : list float32) (img_width img_depth : Z)
    (y x c : Z) : option float32 :=
  rd img ((y * img_width + x) * img_depth + c).

Definition feature_pixel (feature : list float32) (feature_width img_depth : Z)
    (f yy xx c : Z) : option float32 :=
  rd feature ((((f * feature_width + yy) * feature_width) + xx) * img_depth + c).

(** The proportional mapping of an output cell to a region of the source,
    and the nearest-neighbour mapping of the [k]-th row or column of a
    patch into the region from [lo] to [hi]. *)
Definition region_start (extent layer_width cell : Z) : Z :=
  (cell * extent) ÷ layer_width.

Definition region_end (extent layer_width cell : Z) : Z :=
  ((cell + 1) * extent) ÷ layer_width.

Definition resample (lo hi feature_width k : Z) : Z :=
  lo + (k * (hi - lo)) ÷ feature_width.

(** The positions of a patch: rows, columns and channels. *)
Definition patch_positions (feature_width img_depth : Z) : list (Z * Z * Z) :=
  yy ← descending (Z.to_nat feature_width);
  xx ← descending (Z.to_nat feature_width);
  c ← descending (Z.to_nat img_depth);
  [(yy, xx, c)].

Definition squared_difference (a b : float32) : float32 :=
  F32.mul (F32.sub a b) (F32.sub a b).

(** The sum of the squared differences between the resampled region of
    cell [(layer_y, layer_x)] and feature [f]. *)
Definition sum_squared_differences (img : list float32)
    (img_width img_height img_depth feature_width : Z)
    (feature : list float32) (layer_width layer_y layer_x f : Z)
    : option float32 :=
  let top := region_start img_height layer_width layer_y in
  let bottom := region_end img_height layer_width layer_y in
  let left := region_start img_width layer_width layer_x in
  let right := region_end img_width layer_width layer_x in
  fold_opt (fun '(yy, xx, c) acc =>
      a ← source_pixel img img_width img_depth
            (resample top bottom feature_width yy)
            (resample left right feature_width xx) c;
      b ← feature_pixel feature feature_width img_depth f yy xx c;
      Some (F32.add acc (squared_difference a b)))
    (patch_positions feature_width img_depth) F32.zero.

(** The similarity that the code writes: the sum is scaled by the
    reciprocal of the number of values of a patch, itself a single
    precision number. *)
Definition similarity (img : list float32)
    (img_width img_height img_depth feature_width : Z)
    (feature : list float32) (layer_width layer_y layer_x f : Z)
    : option float32 :=
  m ← sum_squared_differences img img_width img_height img_depth
         feature_width feature layer_width layer_y layer_x f;
  Some (F32.sub F32.one
          (F32.mul m
             (F32.div F32.one
                (F32.of_Z (feature_width * feature_width * img_depth))))).


(** The index of cell [(layer_y, layer_x)] and feature [f] in the output. *)
Definition output_index (layer_width no_of_features_ layer_y layer_x f : Z) : Z :=
  ((layer_y * layer_width) + layer_x) * no_of_features_ + f.

(** ** What a loop writes *)

(** Between the buffers [s] and [s'], the entries from [lo] up to [hi]
    have been given values that satisfy [R], and no other entry has
    changed. *)
Definition block_written {A : Type} (R : Z -> A -> Prop) (lo hi : Z)
    (s s' : list A) : Prop :=
  length s' = length s /\
  (forall j, lo <= j < hi -> exists x, rd s' j = Some x /\ R j x) /\
  (forall j, ~ (lo <= j < hi) -> rd s' j = rd s j).

(** The value that [convolve_image] is to leave at index [j] of its
    output. *)
Definition convolved (img : list float32)
    (img_width img_height img_depth feature_width no_of_features_ : Z)
    (feature : list float32) (layer_width : Z) (j : Z) (x : float32) : Prop :=
  exists layer_y layer_x f,
    0 <= layer_y < layer_width /\ 0 <= layer_x < layer_width /\
    0 <= f < no_of_features_ /\
    j = output_index layer_width no_of_features_ layer_y layer_x f /\
    similarity img img_width img_height img_depth feature_width feature
      layer_width layer_y layer_x f = Some x.

(** ** Networks whose buffers fit their geometry *)

(** The activation buffer of a layer holds [width*height*depth] numbers
    and its feature bank at least
    [no_of_features*feature_width^2*depth]. *)
Definition layer_okb (lay : deeplearn_conv_layer) : bool :=
  (0 <? width lay) && (0 <? height lay) && (0 <=? no_of_features lay) &&
  (Z.of_nat (length (buf_of (layer lay)))
     =? width lay * height lay * depth lay) &&
  (no_of_features lay * feature_width lay * feature_width lay * depth lay
     <=? Z.of_nat (length (buf_of (feature lay)))).

(** Every layer but the first is square and as deep as the layer before
    it has features. *)
Fixpoint chain_okb (ls : list deeplearn_conv_layer) : bool :=
  match ls with
  | prev :: ((lay :: _) as rest) =>
      (height lay =? width lay) && (depth lay =? no_of_features prev) &&
      chain_okb rest
  | _ => true
  end.

(** The layers of a network fit their geometry: there is at least one
    layer, every layer is in the array, its buffers have the sizes above,
    and the layers chain. *)
Definition layers_okb (conv : deeplearn_conv) : bool :=
  let ls := take (Z.to_nat (no_of_layers conv)) (conv_layers conv) in
  (0 <? no_of_layers conv) &&
  (no_of_layers conv <=? Z.of_nat (length (conv_layers conv))) &&
  forallb layer_okb ls && chain_okb ls.

(** The outputs have room for what the convolution of the last layer
    writes: [outputs_width^2 * no_of_features] numbers, the size that the
    documentation of [convolve_image] asks of its output. *)
Definition outputs_okb (conv : deeplearn_conv) : bool :=
  (0 <=? outputs_width conv) &&
  match rd (conv_layers conv) (no_of_layers conv - 1) with
  | Some lst =>
      outputs_width conv * outputs_width conv * no_of_features lst
        <=? Z.of_nat (length (buf_of (outputs conv)))
  | None => false
  end.


Definition layer_ok (lay : deeplearn_conv_layer) : Prop :=
  0 < width lay /\ 0 < height lay /\ 0 <= no_of_features lay /\
  Z.of_nat (length (buf_of (layer lay)))
    = width lay * height lay * depth lay /\
  no_of_features lay * feature_width lay * feature_width lay * depth lay
    <= Z.of_nat (length (buf_of (feature lay))).

Definition layers_ok (conv : deeplearn_conv) : Prop :=
  0 < no_of_layers conv <= Z.of_nat (length (conv_layers conv)) /\
  (forall l, 0 <= l < no_of_layers conv ->
     exists lay, get_layer conv l = Some lay /\ layer_ok lay) /\
  (forall l prev lay, 0 < l < no_of_layers conv ->
     get_layer conv (l - 1) = Some prev -> get_layer conv l = Some lay ->
     height lay = width lay /\ depth lay = no_of_features prev).

Definition outputs_ok (conv : deeplearn_conv) : Prop :=
  0 <= outputs_width conv /\
  (forall lst, get_layer conv (no_of_layers conv - 1) = Some lst ->
     outputs_width conv * outputs_width conv * no_of_features lst
       <= Z.of_nat (length (buf_of (outputs conv)))).

(** The number that [conv_feed_forward] stores for a byte of the image. *)
Definition normalised (x : byte) : float32 :=
  F32.div (f32_of_byte x) (F32.of_Z 255).

(** Two layers that differ at most in the contents of their activation
    buffer. *)
Definition same_layer_but_activation (lay lay' : deeplearn_conv_layer) : Prop :=
  lay' = set_layer_buf lay (layer lay').

(** [conv'] is [conv] after a forward pass of the image through the first
    [k] layers. *)
Definition fed_forward (img : list byte) (conv : deeplearn_conv) (k : Z)
    (conv' : deeplearn_conv) : Prop :=
  (* only the layers and the outputs can differ *)
  conv' = set_outputs (set_conv_layers conv (conv_layers conv')) (outputs conv') /\
  length (conv_layers conv') = length (conv_layers conv) /\
  (forall l lay', get_layer conv' l = Some lay' ->
     exists lay, get_layer conv l = Some lay /\
       same_layer_but_activation lay lay') /\
  (* layer 0 holds the image *)
  (exists l0', get_layer conv' 0 = Some l0' /\
     forall i, 0 <= i < width l0' * height l0' * depth l0' ->
       rd (buf_of (layer l0')) i = normalised <$> rd img i) /\
  (* layers 1 to min k (no_of_layers - 1) hold the convolution of the
     layer before them *)
  (forall l, 1 <= l <= Z.min k (no_of_layers conv - 1) ->
     exists prev' cur cur',
       get_layer conv' (l - 1) = Some prev' /\
       get_layer conv l = Some cur /\
       get_layer conv' l = Some cur' /\
       convolve_image (buf_of (layer prev'))
         (width prev') (height prev') (depth prev')
         (feature_width prev') (no_of_features prev')
         (buf_of (feature prev'))
         (buf_of (layer cur)) (width cur) = Some (buf_of (layer cur'))) /\
  (* the outputs are written by the last layer only *)
  (k = no_of_layers conv ->
     exists lst',
       get_layer conv' (no_of_layers conv - 1) = Some lst' /\
       convolve_image (buf_of (layer lst'))
         (width lst') (height lst') (depth lst')
         (feature_width lst') (no_of_features lst')
         (buf_of (feature lst'))
         (buf_of (outputs conv)) (outputs_width conv)
       = Some (buf_of (outputs conv'))) /\
  (k < no_of_layers conv -> outputs conv' = outputs conv) /\
  (* the layers after [k] are as they were *)
  (forall l, k < l -> get_layer conv' l = get_layer conv l).

(** The number of bytes that [conv_feed_forward] reads from the image. *)
Definition image_size (conv : deeplearn_conv) : Z :=
  match get_layer conv 0 with
  | Some l0 => width l0 * height l0 * depth l0
  | None => 0
  end.

(** ** The geometry of the layers, as the specification words it *)

(** The width of layer [l]: the linear interpolation, with a truncating
    division, between the width of the image and the final width. *)
Definition interpolated_width (image_width final_image_width no_of_layers_ l : Z)
    : Z :=
  image_width - ((image_width - final_image_width) * l) ÷ no_of_layers_.

(** The base feature width scaled by [w/image_width], and at least 3. *)
Definition scaled_feature_width (feature_width_ image_width w : Z) : Z :=
  Z.max 3 ((feature_width_ * w) ÷ image_width).

(** Layer 0 has the height of the image; the other layers are square. *)
Definition layer_height (image_width image_height final_image_width
    no_of_layers_ l : Z) : Z :=
  if l =? 0 then image_height
  else interpolated_width image_width final_image_width no_of_layers_ l.

(** Layer 0 has the depth of the image; the other layers are as deep as
    the layer before them has features. *)
Definition layer_depth (image_depth no_of_features_ l : Z) : Z :=
  if l =? 0 then image_depth else no_of_features_.

(** ** The geometry of the layers, as [conv_init] computes it *)

(** The same quantities in the arithmetic of [int]. *)
Definition int_width (image_width final_image_width no_of_layers_ l : Z) : Z :=
  int_sub image_width
    (int_mul (int_sub image_width final_image_width) l ÷ no_of_layers_).

Definition int_feature_width (feature_width_ image_width w : Z) : Z :=
  Z.max 3 (to_int (int_mul feature_width_ w ÷ image_width)).

Definition int_height (image_width image_height final_image_width
    no_of_layers_ l : Z) : Z :=
  if l =? 0 then to_int image_height
  else int_width image_width final_image_width no_of_layers_ l.

(** Layer [l] as [conv_init] leaves it when its two allocations succeed;
    [k] allocations had been made when [conv_init] was called. *)
Definition built_layer (M : allocator) (k : nat)
    (no_of_layers_ image_width image_height image_depth : Z)
    (no_of_features_ feature_width_ final_image_width : Z) (l : Z)
    : deeplearn_conv_layer :=
  let w := int_width image_width final_image_width no_of_layers_ l in
  let h := int_height image_width image_height final_image_width
             no_of_layers_ l in
  let d := layer_depth image_depth no_of_features_ l in
  let fw := int_feature_width feature_width_ image_width w in
  mk_layer w h d no_of_features_ fw
    (FLOATALLOC M (k + 2 * Z.to_nat l) (int_mul (int_mul w h) d))
    (FLOATALLOC M (k + 2 * Z.to_nat l + 1)
       (int_mul (int_mul (int_mul no_of_features_ fw) fw) d)).

(** The [j]-th allocation after the first [k] is the first one to fail. *)
Definition first_failure (M : allocator) (k j : nat) : Prop :=
  alloc_ok M (k + j) = false /\
  forall i, (i < j)%nat -> alloc_ok M (k + i) = true.

(** What the loop of [conv_init] has done when it is left, after [m]
    rounds from layer [l] on: either every layer has been built, or the
    allocation number [J] has failed in the round of some layer [t]. *)
Definition loop_outcome (M : allocator) (k : nat)
    (built : Z -> deeplearn_conv_layer)
    (l : Z) (m : nat) (c : deeplearn_conv)
    (r : flow (deeplearn_conv * nat) (Z * deeplearn_conv * nat)) : Prop :=
  match r with
  | Next (c', k') =>
      k' = (k + 2 * Z.to_nat l + 2 * m)%nat /\
      (forall j, (2 * Z.to_nat l <= j < 2 * Z.to_nat l + 2 * m)%nat ->
         alloc_ok M (k + j) = true) /\
      c' = set_conv_layers c (conv_layers c') /\
      length (conv_layers c') = length (conv_layers c) /\
      (forall j, l <= j < l + Z.of_nat m -> get_layer c' j = Some (built j)) /\
      (forall j, ~ (l <= j < l + Z.of_nat m) -> get_layer c' j = get_layer c j)
  | Return (rc, c', k') =>
      exists t J,
        l <= t < l + Z.of_nat m /\
        (forall j, (2 * Z.to_nat l <= j < J)%nat -> alloc_ok M (k + j) = true) /\
        alloc_ok M (k + J) = false /\
        ((rc = 1 /\ J = (2 * Z.to_nat t)%nat) \/
         (rc = 2 /\ J = (2 * Z.to_nat t + 1)%nat))
  end.

(** The network that [conv_init] leaves in [conv'] when it returns zero:
    every layer is built, the outputs are allocated, and the thresholds
    of the caller have been copied. *)
Definition constructed (M : allocator) (k : nat)
    (no_of_layers_ image_width image_height image_depth : Z)
    (no_of_features_ feature_width_ final_image_width : Z)
    (match_threshold_ : list float32)
    (conv conv' : deeplearn_conv) : Prop :=
  let n_out :=
    int_mul (int_mul final_image_width final_image_width)
      (layer_depth image_depth no_of_features_ (no_of_layers_ - 1)) in
  conv' =
    mk_conv no_of_layers_ 0 f32_0_1 0 0 (conv_layers conv')
      final_image_width n_out
      (FLOATALLOC M (k + 2 * Z.to_nat no_of_layers_) n_out)
      (Some (take (Z.to_nat no_of_layers_) match_threshold_))
      (history conv) (history_index conv) (history_step conv) /\
  length (conv_layers conv') = length (conv_layers conv) /\
  (forall l, 0 <= l < no_of_layers_ ->
     get_layer conv' l =
     Some (built_layer M k no_of_layers_ image_width image_height image_depth
             no_of_features_ feature_width_ final_image_width l)) /\
  (forall l, ~ (0 <= l < no_of_layers_) -> get_layer conv' l = get_layer conv l).

(** The result of [conv_init] against the allocations: zero when the
    [2*no_of_layers + 2] allocations all succeed, and otherwise the code
    of the site of the first allocation that fails. *)
Definition init_outcome (M : allocator) (k : nat)
    (no_of_layers_ image_width image_height image_depth : Z)
    (no_of_features_ feature_width_ final_image_width : Z)
    (match_threshold_ : list float32)
    (conv : deeplearn_conv) (rc : Z) (conv' : deeplearn_conv) : Prop :=
  (rc = 0 /\
   (forall j, (j < 2 * Z.to_nat no_of_layers_ + 2)%nat ->
      alloc_ok M (k + j) = true) /\
   constructed M k no_of_layers_ image_width image_height image_depth
     no_of_features_ feature_width_ final_image_width match_threshold_
     conv conv') \/
  (rc = 1 /\ exists l, 0 <= l < no_of_layers_ /\
     first_failure M k (2 * Z.to_nat l)) \/
  (rc = 2 /\ exists l, 0 <= l < no_of_layers_ /\
     first_failure M k (2 * Z.to_nat l + 1)) \/
  (rc = 3 /\ first_failure M k (2 * Z.to_nat no_of_layers_)) \/
  (rc = 4 /\ first_failure M k (2 * Z.to_nat no_of_layers_ + 1)).

(** ** What no operation changes *)

Definition geometry (lay : deeplearn_conv_layer) : Z * Z * Z * Z * Z :=
  (width lay, height lay, depth lay, no_of_features lay, feature_width lay).

(** [conv'] has the layers of [conv], with the same geometry, and the
    same error history. *)
Definition same_shape (conv conv' : deeplearn_conv) : Prop :=
  no_of_layers conv' = no_of_layers conv /\
  (forall l, geometry <$> get_layer conv' l = geometry <$> get_layer conv l) /\
  history conv' = history conv /\
  history_index conv' = history_index conv /\
  history_step conv' = history_step conv.

(** The depths chain: layer 0 is as deep as the image, and every other
    layer as deep as the layer before it has features. *)
Definition depths_chain (image_depth : Z) (conv : deeplearn_conv) : Prop :=
  (exists l0, get_layer conv 0 = Some l0 /\ depth l0 = image_depth) /\
  (forall l, 0 < l < no_of_layers conv ->
     exists prev lay,
       get_layer conv (l - 1) = Some prev /\ get_layer conv l = Some lay /\
       depth lay = no_of_features prev).

(** The scores that the calls of the learner return, in the order of
    the calls; [p] is the pointer to the feature bank, which every call
    updates. *)
Fixpoint learner_scores (learn_features : learner) (n : nat)
    (act : list float32) (w h d fw nf : Z)
    (p : option (list float32)) (feature_score : list float32)
    (samples : Z) (rate : float32) (random_seed : Z) : list float32 :=
  match n with
  | O => []
  | S n' =>
      let '(r, feature', feature_score', random_seed') :=
        learn_features act w h d fw nf (buf_of p) feature_score
          samples rate random_seed in
      r :: learner_scores learn_features n' act w h d fw nf
             (store_buf p feature') feature_score' samples rate random_seed'
  end.

(** A running sum in single precision, from [0.0f]. *)
Definition accumulate (scores : list float32) : float32 :=
  fold_left F32.add scores (F32.of_Z 0).

(** An operation on a network that has been constructed. *)
Definition later_operation (conv conv' : deeplearn_conv) : Prop :=
  (exists img layer_, conv_feed_forward img conv layer_ = Some conv') \/
  (exists M learn_features k img samples seed r seed' k',
     conv_learn M learn_features k img conv samples seed
       = Some (r, conv', seed', k')) \/
  conv_free conv = Some conv' \/
  conv_save conv = (0, conv') \/
  conv_load conv = (0, conv').

(** ** Concrete inputs *)

(** An allocator that never fails; the buffers that it returns hold
    [0.0] at the odd allocations (the feature banks and the thresholds)
    and a NaN at the even ones (the activation buffers and the outputs). *)
Definition all_fit : allocator :=
  mk_allocator (fun _ => true)
    (fun k _ => if Nat.odd k then F32.zero else S754_nan).

(** A network that has not been initialised, with room for two layers. *)
Definition blank_layer : deeplearn_conv_layer := mk_layer 0 0 0 0 0 None None.
Definition blank_conv : deeplearn_conv :=
  mk_conv 0 0 F32.zero 0 0 [blank_layer; blank_layer] 0 0 None None [] 0 0.

(** The constant [0.5f]. *)
Definition f32_0_5 : float32 := S754_finite false 8388608 (-24).

(** The network of the scenario of the specification: two layers on an
    image of 8x8 pixels of one channel, two features of width 4, a final
    size of 4x4 and the thresholds 0.5 and 0.5; its feature banks hold
    [0.0] everywhere. *)
Definition scenario_with (threshold : float32) : deeplearn_conv :=
  match conv_init all_fit 0 2 8 8 1 2 4 4 4 [threshold; threshold]
          blank_conv with
  | Some (_, conv, _) => conv
  | None => blank_conv
  end.

Definition scenario : deeplearn_conv := scenario_with f32_0_5.

(** A network of one layer on the image of the scenario, with two
    features. *)
Definition single_layer : deeplearn_conv :=
  match conv_init all_fit 0 1 8 8 1 2 4 4 4 [f32_0_5] blank_conv with
  | Some (_, conv, _) => conv
  | None => blank_conv
  end.


(** A network of three layers that narrows an image of 32x24 pixels
    down towards 8x8, with features that are 16 wide on the image. *)
Definition tapering : deeplearn_conv :=
  match conv_init all_fit 0 3 32 24 1 2 16 8 8 [f32_0_5; f32_0_5; f32_0_5]
          (set_conv_layers blank_conv [blank_layer; blank_layer; blank_layer])
  with
  | Some (_, conv, _) => conv
  | None => blank_conv
  end.


(** An allocator whose allocation number [j] fails, and no other. *)
Definition fails_at (j : nat) : allocator :=
  mk_allocator (fun k => negb (Nat.eqb k j)) (fun _ _ => F32.zero).

(** A learner that returns the score [score] at every call and changes
    nothing. *)
Definition stub (score : float32) : learner :=
  fun _ _ _ _ _ _ feature_ feature_score _ _ random_seed =>
    (score, feature_, feature_score, random_seed).

(** The images of the scenario: 64 bytes, all 0 or all 255. *)
Definition image_of_zeros : list byte := repeat x00 64.
Definition image_of_255 : list byte := repeat xff 64.


(** ** Learners that work in place *)



(** ** Plotting the history *)

Module Plot.

Import Stdlib.Strings.String.

(** An argument of [fprintf]. *)
Inductive arg : Type :=
  | Aint (i : Z)
  | Afloat (x : float32)
  | Astring (s : string).

(** What [conv_plot_history] does to the world, call by call: the files
    are known by their paths, and a [fprintf] by its format and its
    arguments. *)
Inductive event : Type :=
  | Efopen (path mode : string) (opened : bool)
  | Efprintf (path format : string) (args : list arg)
  | Efclose (path : string)
  | Esystem (command : string) (status : Z).

(** The C library: whether a [fopen] succeeds and what a [system]
    returns is not decided by the program; both may depend on what has
    been done so far. *)
Record libc : Type := mk_libc {
  fopen_opens : list event -> string -> string -> bool;
  system_returns : list event -> string -> Z
}.

(** The newline and the double quote of the formats. *)
Definition nl : string := String (Ascii.ascii_of_nat 10) EmptyString.
Definition dq : string := String (Ascii.ascii_of_nat 34) EmptyString.

(** [sprintf] into an array of 256 characters: the text and its final
    null character have to fit, or the write runs past the array. *)
Definition sprintf_256 (text : string) : option string :=
  if (Z.of_nat (String.length text) <? 256) then Some text else None.

(** The constant [0.01f]. *)
Definition f32_0_01 : float32 := S754_finite false 10737418 (-30).

(** A round of the loop over the history; the state is the trace and
    [max_value]. *)
Definition plot_history_line (conv : deeplearn_conv) (data_filename : string)
    (index : Z) (st : list event * float32) : option (list event * float32) :=
  let '(tr, max_value) := st in
  value ← rd (history conv) index;
  Some (tr ++ [Efprintf data_filename ("%d    %.10f" ++ nl)%string
                 [Aint (index * history_step conv); Afloat value]],
        if F32.ltb max_value value then value else max_value).

(** The lines of the plot file. *)
Definition plot_file_lines (conv : deeplearn_conv)
    (plot_filename data_filename filename title : string)
    (img_width img_height : Z) (max_value : float32) : list event :=
  [ Efprintf plot_filename "%s" [Astring ("reset" ++ nl)%string];
    Efprintf plot_filename ("set title " ++ dq ++ "%s" ++ dq ++ nl)%string
      [Astring title];
    Efprintf plot_filename ("set xrange [0:%d]" ++ nl)%string
      [Aint (history_index conv * history_step conv)];
    Efprintf plot_filename ("set yrange [0:%f]" ++ nl)%string
      [Afloat (F32.div (F32.mul max_value (F32.of_Z 102)) (F32.of_Z 100))];
    Efprintf plot_filename "%s" [Astring ("set lmargin 9" ++ nl)%string];
    Efprintf plot_filename "%s" [Astring ("set rmargin 2" ++ nl)%string];
    Efprintf plot_filename "%s"
      [Astring ("set xlabel " ++ dq ++ "Time Step" ++ dq ++ nl)%string];
    Efprintf plot_filename "%s"
      [Astring ("set ylabel " ++ dq ++ "Training Error Percent" ++ dq
                ++ nl)%string];
    Efprintf plot_filename "%s" [Astring ("set grid" ++ nl)%string];
    Efprintf plot_filename "%s" [Astring ("set key right top" ++ nl)%string];
    Efprintf plot_filename ("set terminal png size %d,%d" ++ nl)%string
      [Aint img_width; Aint img_height];
    Efprintf plot_filename ("set output " ++ dq ++ "%s" ++ dq ++ nl)%string
      [Astring filename];
    Efprintf plot_filename
      ("plot " ++ dq ++ "%s" ++ dq ++ " using 1:2 notitle with lines"
       ++ nl)%string
      [Astring data_filename];
    Efclose plot_filename ].

(** [temp_directory] is the macro [DEEPLEARN_TEMP_DIRECTORY], which is
    declared in a header that is not among the sources; [tr] is what has
    been done before the call. *)
Definition conv_plot_history (C : libc) (temp_directory : string)
    (conv : deeplearn_conv) (filename title : string)
    (img_width img_height : Z) (tr : list event)
    : option (Z * list event) :=
  data_filename ← sprintf_256 (temp_directory ++ "libdeep_conv_data.dat")%string;
  plot_filename ← sprintf_256 (temp_directory ++ "libdeep_conv_data.plot")%string;
  (* save the data *)
  let opened := fopen_opens C tr data_filename "w" in
  let tr := tr ++ [Efopen data_filename "w" opened] in
  if negb opened then Some (-1, tr)
  else
    st ← COUNTUP (history_index conv)
           (plot_history_line conv data_filename) (tr, f32_0_01);
    let '(tr, max_value) := st in
    let tr := tr ++ [Efclose data_filename] in
    (* create a plot file *)
    let opened := fopen_opens C tr plot_filename "w" in
    let tr := tr ++ [Efopen plot_filename "w" opened] in
    if negb opened then Some (-1, tr)
    else
      let tr := tr ++ plot_file_lines conv plot_filename data_filename
                        filename title img_width img_height max_value in
      (* run gnuplot using the created files *)
      command_str ← sprintf_256 ("gnuplot " ++ plot_filename)%string;
      let retval := system_returns C tr command_str in
      let tr := tr ++ [Esystem command_str retval] in
      (* remove temporary files *)
      command_str ← sprintf_256
                      ("rm " ++ data_filename ++ " " ++ plot_filename)%string;
      let retval := system_returns C tr command_str in
      Some (retval, tr ++ [Esystem command_str retval]).

(** The commands that a trace has run. *)
Definition commands (tr : list event) : list string :=
  omap (fun e => match e with Esystem c _ => Some c | _ => None end) tr.

(** The lines of the data file for the values of the history from
    [index] on: the time step, which is the index multiplied by
    [history_step], and the value. *)
Fixpoint data_file_lines (data_filename : string) (history_step_ : Z)
    (index : Z) (values : list float32) : list event :=
  match values with
  | [] => []
  | value :: rest =>
      Efprintf data_filename ("%d    %.10f" ++ nl)%string
        [Aint (index * history_step_); Afloat value]
      :: data_file_lines data_filename history_step_ (index + 1) rest
  end.

(** The greatest of [max_value] and the values, as the comparisons of
    the loop find it. *)
Definition greatest (values : list float32) (max_value : float32) : float32 :=
  fold_left (fun m value => if F32.ltb m value then value else m)
    values max_value.

(** The network of the scenario with a history of three values, one for
    every ten steps. *)
Definition plotted : deeplearn_conv :=
  mk_conv (no_of_layers scenario) (current_layer scenario)
    (learning_rate scenario) (itterations scenario) (training_ctr scenario)
    (conv_layers scenario) (outputs_width scenario) (no_of_outputs scenario)
    (outputs scenario) (match_threshold scenario)
    [f32_0_5; f32_0_1; F32.zero] 3 10.

(** A library in which [fopen] fails on the paths of a list and
    [system] returns what a function of the command says. *)
Definition libc_of (unwritable : list string) (status : string -> Z) : libc :=
  mk_libc (fun _ path _ => negb (existsb (String.eqb path) unwritable))
          (fun _ command => status command).

End Plot.

(** ** Numbers that are finite *)



(** ** Arguments of [conv_init] that stay in the range of [int] *)

Definition in_intb (z : Z) : bool := (int_min <=? z) && (z <=? int_max).

(** For layer [l]: the two products from which [conv_init] computes the
    width of the layer and the width of its features, and the sizes of
    its two buffers. *)
Definition layer_in_intb (no_of_layers_ image_width image_height image_depth
    no_of_features_ feature_width_ final_image_width l : Z) : bool :=
  let w := interpolated_width image_width final_image_width no_of_layers_ l in
  let h := layer_height image_width image_height final_image_width
             no_of_layers_ l in
  let d := layer_depth image_depth no_of_features_ l in
  let fw := scaled_feature_width feature_width_ image_width w in
  in_intb ((image_width - final_image_width) * l) &&
  in_intb (feature_width_ * w) &&
  in_intb (w * h * d) &&
  in_intb (no_of_features_ * fw * fw * d).

(** The sizes of the image and the final width are [int]s, and so are
    these products for every layer, and the size of the outputs. *)
Definition sizes_in_intb (no_of_layers_ image_width image_height image_depth
    no_of_features_ feature_width_ final_image_width : Z) : bool :=
  in_intb image_width && in_intb image_height && in_intb final_image_width &&
  forallb
    (fun l => layer_in_intb no_of_layers_ image_width image_height image_depth
                no_of_features_ feature_width_ final_image_width (Z.of_nat l))
    (seq 0 (Z.to_nat no_of_layers_)) &&
  in_intb (final_image_width * final_image_width
           * layer_depth image_depth no_of_features_ (no_of_layers_ - 1)).
(** * Properties *)

(** ** Single precision: digits and shifts *)












(** ** Single precision: rounding a number below one *)


(** ** Single precision: signs *)











(** ** Loops, as folds *)

Lemma countdown_loop_fold {S : Type} (body : Z -> S -> option S) n s :
  countdown_loop n body s = fold_opt body (descending n) s.
Proof.
  revert s; induction n as [|k IH]; intros s; simpl; [reflexivity|].
  destruct (body (Z.of_nat k) s); [apply IH | reflexivity].
Qed.

Lemma fold_opt_app {A S : Type} (step : A -> S -> option S) l1 l2 s :
  fold_opt step (l1 ++ l2) s =
  match fold_opt step l1 s with
  | Some s' => fold_opt step l2 s'
  | None => None
  end.
Proof.
  revert s; induction l1 as [|a l1 IH]; intros s; simpl; [reflexivity|].
  destruct (step a s); [apply IH | reflexivity].
Qed.

(** A loop nested in a loop is a fold over the list of all the indices. *)
Lemma fold_opt_bind {A B S : Type} (g : A -> list B)
    (step : B -> S -> option S) (l : list A) s :
  fold_opt step (a ← l; g a) s =
  fold_opt (fun a s => fold_opt step (g a) s) l s.
Proof.
  revert s; induction l as [|a l IH]; intros s; simpl; [reflexivity|].
  rewrite fold_opt_app.
  destruct (fold_opt step (g a) s); [apply IH | reflexivity].
Qed.

Lemma fold_opt_ext {A S : Type} (f g : A -> S -> option S) l s :
  (forall a s, f a s = g a s) -> fold_opt f l s = fold_opt g l s.
Proof.
  intros E; revert s; induction l as [|a l IH]; intros s; simpl; [reflexivity|].
  rewrite E. destruct (g a s); [apply IH | reflexivity].
Qed.

Lemma descending_spec n i : i ∈ descending n <-> 0 <= i < Z.of_nat n.
Proof.
  induction n as [|k IH]; simpl.
  - rewrite elem_of_nil. lia.
  - rewrite elem_of_cons, IH. lia.
Qed.

Lemma fold_opt_is_Some {A S : Type} (step : A -> S -> option S) l s :
  (forall a s, a ∈ l -> is_Some (step a s)) -> is_Some (fold_opt step l s).
Proof.
  revert s; induction l as [|a l IH]; intros s H; simpl; [eauto|].
  destruct (H a s) as [s' Hs']; [left|]. rewrite Hs'.
  apply IH. intros b t Hb. apply H. right. exact Hb.
Qed.

(** ** The convolution engine computes the sum of the specification *)

Lemma feature_match_sum img img_width img_height img_depth feature_width
    feature layer_width layer_y layer_x f :
  feature_match img img_width img_depth feature_width feature
    (f * feature_width * feature_width * img_depth)
    (region_start img_height layer_width layer_y)
    (region_end img_height layer_width layer_y)
    (region_start img_width layer_width layer_x)
    (region_end img_width layer_width layer_x) =
  sum_squared_differences img img_width img_height img_depth feature_width
    feature layer_width layer_y layer_x f.
Proof.
  unfold feature_match, sum_squared_differences, patch_positions, COUNTDOWN.
  rewrite countdown_loop_fold, fold_opt_bind.
  apply fold_opt_ext; intros yy m.
  rewrite countdown_loop_fold, fold_opt_bind.
  apply fold_opt_ext; intros xx m'.
  rewrite countdown_loop_fold, fold_opt_bind.
  apply fold_opt_ext; intros c m''.
  unfold source_pixel, feature_pixel, resample, squared_difference; simpl.
  replace (f * feature_width * feature_width * img_depth +
           ((yy * feature_width + xx) * img_depth + c))
    with (((f * feature_width + yy) * feature_width + xx) * img_depth + c)
    by ring.
  destruct (rd img _); simpl; [|reflexivity].
  destruct (rd feature _); reflexivity.
Qed.

(** *** The reads stay inside the buffers *)

Lemma region_bounds extent layer_width cell :
  0 < extent -> 0 <= cell < layer_width ->
  0 <= region_start extent layer_width cell /\
  region_start extent layer_width cell <= region_end extent layer_width cell /\
  region_start extent layer_width cell < extent /\
  region_end extent layer_width cell <= extent.
Proof.
  intros He Hc. unfold region_start, region_end.
  rewrite !Z.quot_div_nonneg by nia.
  assert (H1 : 0 <= cell * extent / layer_width) by (apply Z.div_pos; nia).
  assert (H2 : cell * extent / layer_width <= (cell + 1) * extent / layer_width)
    by (apply Z.div_le_mono; nia).
  assert (H3 : cell * extent / layer_width < extent)
    by (apply Z.div_lt_upper_bound; nia).
  assert (H4 : (cell + 1) * extent / layer_width <= extent)
    by (apply Z.div_le_upper_bound; nia).
  lia.
Qed.

Lemma resample_bounds lo hi extent feature_width k :
  0 <= lo -> lo <= hi -> lo < extent -> hi <= extent ->
  0 <= k < feature_width ->
  0 <= resample lo hi feature_width k < extent.
Proof.
  intros H0 H1 H2 H3 Hk. unfold resample.
  rewrite Z.quot_div_nonneg by nia.
  assert (0 <= k * (hi - lo) / feature_width) by (apply Z.div_pos; nia).
  destruct (Z.eq_dec lo hi) as [->|Hne].
  - rewrite Z.sub_diag, Z.mul_0_r, Z.div_0_l by lia. lia.
  - assert (k * (hi - lo) / feature_width < hi - lo)
      by (apply Z.div_lt_upper_bound; nia).
    lia.
Qed.

Lemma rd_is_Some {A : Type} (b : list A) i :
  0 <= i < Z.of_nat (length b) -> is_Some (rd b i).
Proof.
  intros H. unfold rd. destruct (Z.ltb_spec i 0); [lia|].
  apply lookup_lt_is_Some. lia.
Qed.

Lemma patch_positions_spec feature_width img_depth yy xx c :
  (yy, xx, c) ∈ patch_positions feature_width img_depth ->
  0 <= yy < feature_width /\ 0 <= xx < feature_width /\ 0 <= c < img_depth.
Proof.
  unfold patch_positions. intros H.
  apply list_elem_of_bind in H as (yy' & H & Hy).
  apply list_elem_of_bind in H as (xx' & H & Hx).
  apply list_elem_of_bind in H as (c' & H & Hc).
  apply list_elem_of_singleton in H. inversion H; subst.
  apply descending_spec in Hy, Hx, Hc. lia.
Qed.

Lemma sum_squared_differences_is_Some img img_width img_height img_depth
    feature_width feature layer_width no_of_features_ layer_y layer_x f :
  0 < img_width -> 0 < img_height ->
  img_width * img_height * img_depth <= Z.of_nat (length img) ->
  no_of_features_ * feature_width * feature_width * img_depth
    <= Z.of_nat (length feature) ->
  0 <= layer_y < layer_width -> 0 <= layer_x < layer_width ->
  0 <= f < no_of_features_ ->
  is_Some (sum_squared_differences img img_width img_height img_depth
             feature_width feature layer_width layer_y layer_x f).
Proof.
  intros Hw Hh Himg Hfeat Hy Hx Hf. unfold sum_squared_differences.
  apply fold_opt_is_Some. intros [[yy xx] c] acc Hin.
  apply patch_positions_spec in Hin as (Hyy & Hxx & Hc).
  destruct (region_bounds img_height layer_width layer_y Hh Hy)
    as (Ha & Hb & Hc' & Hd).
  destruct (region_bounds img_width layer_width layer_x Hw Hx)
    as (Ha' & Hb' & Hc'' & Hd').
  pose proof (resample_bounds _ _ img_height feature_width yy Ha Hb Hc' Hd Hyy) as Ry.
  pose proof (resample_bounds _ _ img_width feature_width xx Ha' Hb' Hc'' Hd' Hxx) as Rx.
  set (y := resample _ _ feature_width yy) in *.
  set (x := resample _ _ feature_width xx) in *.
  assert (B1 : 0 <= y * img_width + x <= img_width * img_height - 1) by nia.
  assert (B2 : 0 <= (y * img_width + x) * img_depth + c
               < img_width * img_height * img_depth) by nia.
  assert (B3 : 0 <= (f * feature_width + yy) * feature_width + xx
               <= no_of_features_ * feature_width * feature_width - 1) by nia.
  assert (B4 : 0 <= ((f * feature_width + yy) * feature_width + xx) * img_depth + c
               < no_of_features_ * feature_width * feature_width * img_depth)
    by nia.
  destruct (rd_is_Some img ((y * img_width + x) * img_depth + c)) as [a Ea];
    [lia|].
  destruct (rd_is_Some feature
              ((((f * feature_width + yy) * feature_width) + xx) * img_depth + c))
    as [b Eb]; [lia|].
  unfold source_pixel, feature_pixel. rewrite Ea, Eb. simpl. eauto.
Qed.

(** ** Loops that fill a buffer block by block *)

Lemma block_written_refl {A : Type} (R : Z -> A -> Prop) lo (s : list A) :
  block_written R lo lo s s.
Proof.
  split; [reflexivity|]. split; [intros j Hj; lia | reflexivity].
Qed.

Lemma block_written_join {A : Type} (R : Z -> A -> Prop) lo mid hi
    (s s1 s2 : list A) :
  lo <= mid <= hi ->
  block_written R mid hi s s1 -> block_written R lo mid s1 s2 ->
  block_written R lo hi s s2.
Proof.
  intros Hm (L1 & W1 & F1) (L2 & W2 & F2). repeat split.
  - congruence.
  - intros j Hj. destruct (Z_lt_dec j mid) as [Hlt|Hge].
    + apply W2; lia.
    + rewrite F2 by lia. apply W1; lia.
  - intros j Hj. rewrite F2, F1 by lia. reflexivity.
Qed.

Lemma countdown_blocks {A : Type} (R : Z -> A -> Prop) base sz len n
    (body : Z -> list A -> option (list A)) :
  0 <= sz ->
  (forall i s, 0 <= i < Z.of_nat n -> length s = len ->
     exists s', body i s = Some s' /\
       block_written R (base + i * sz) (base + (i + 1) * sz) s s') ->
  forall s, length s = len ->
    exists s', countdown_loop n body s = Some s' /\
      block_written R base (base + Z.of_nat n * sz) s s'.
Proof.
  intros Hsz. induction n as [|k IH]; intros Hbody s Hlen.
  - exists s. split; [reflexivity|].
    replace (base + Z.of_nat 0 * sz) with base by lia.
    apply block_written_refl.
  - destruct (Hbody (Z.of_nat k) s) as (s1 & E1 & B1); [lia | exact Hlen |].
    destruct (IH (fun i t Hi Ht => Hbody i t ltac:(lia) Ht) s1) as (s2 & E2 & B2).
    { destruct B1 as (L1 & _). congruence. }
    exists s2. simpl. rewrite E1. split; [exact E2|].
    apply block_written_join with (mid := base + Z.of_nat k * sz) (s1 := s1).
    + nia.
    + replace (base + Z.of_nat (S k) * sz)
        with (base + (Z.of_nat k + 1) * sz) by lia.
      exact B1.
    + exact B2.
Qed.

Lemma rd_insert_eq {A : Type} (s : list A) i v :
  0 <= i < Z.of_nat (length s) -> rd (<[Z.to_nat i := v]> s) i = Some v.
Proof.
  intros H. unfold rd. destruct (Z.ltb_spec i 0); [lia|].
  apply list_lookup_insert_eq. lia.
Qed.

Lemma rd_insert_ne {A : Type} (s : list A) i j v :
  0 <= i -> i <> j -> rd (<[Z.to_nat i := v]> s) j = rd s j.
Proof.
  intros H Hne. unfold rd. destruct (Z.ltb_spec j 0); [reflexivity|].
  apply list_lookup_insert_ne. lia.
Qed.

Lemma wr_block {A : Type} (R : Z -> A -> Prop) (s : list A) i v :
  0 <= i < Z.of_nat (length s) -> R i v ->
  exists s', wr s i v = Some s' /\ block_written R i (i + 1) s s'.
Proof.
  intros Hi Hv. unfold wr.
  destruct (Z.leb_spec 0 i); [|lia]. destruct (Z.ltb_spec i (Z.of_nat (length s))); [|lia].
  simpl. eexists; split; [reflexivity|]. repeat split.
  - apply length_insert.
  - intros j Hj. assert (j = i) as -> by lia. exists v.
    split; [apply rd_insert_eq; lia | exact Hv].
  - intros j Hj. apply rd_insert_ne; lia.
Qed.

(** ** The convolution engine fills its output *)

Section Convolve.

Variables (img feature : list float32).
Variables (img_width img_height img_depth : Z).
Variables (feature_width_ no_of_features_ layer_width : Z).

Hypothesis img_width_pos : 0 < img_width.
Hypothesis img_height_pos : 0 < img_height.
Hypothesis img_size :
  img_width * img_height * img_depth <= Z.of_nat (length img).
Hypothesis feature_size :
  no_of_features_ * feature_width_ * feature_width_ * img_depth
    <= Z.of_nat (length feature).
Hypothesis layer_width_nonneg : 0 <= layer_width.
Hypothesis no_of_features_nonneg : 0 <= no_of_features_.

Lemma convolve_image_blocks (layer_ : list float32) :
  layer_width * layer_width * no_of_features_ <= Z.of_nat (length layer_) ->
  exists out,
    convolve_image img img_width img_height img_depth feature_width_
      no_of_features_ feature layer_ layer_width = Some out /\
    block_written
      (convolved img img_width img_height img_depth feature_width_
         no_of_features_ feature layer_width)
      0 (layer_width * layer_width * no_of_features_) layer_ out.
Proof.
  intros Hout. unfold convolve_image, COUNTDOWN.
  set (row := layer_width * no_of_features_).
  replace (layer_width * layer_width * no_of_features_)
    with (0 + Z.of_nat (Z.to_nat layer_width) * row) by (unfold row; lia).
  apply countdown_blocks with (len := length layer_);
    [unfold row; nia | | reflexivity].
  intros layer_y s Hy Hs.
  replace (0 + (layer_y + 1) * row)
    with (0 + layer_y * row + Z.of_nat (Z.to_nat layer_width) * no_of_features_)
    by (unfold row; lia).
  apply countdown_blocks with (len := length layer_); [lia | | exact Hs].
  intros layer_x t Hx Ht.
  replace (0 + layer_y * row + (layer_x + 1) * no_of_features_)
    with (0 + layer_y * row + layer_x * no_of_features_
          + Z.of_nat (Z.to_nat no_of_features_) * 1) by lia.
  apply countdown_blocks with (len := length layer_); [lia | | exact Ht].
  intros f u Hf Hu.
  pose proof (feature_match_sum img img_width img_height img_depth
                feature_width_ feature layer_width layer_y layer_x f) as FM.
  unfold region_start, region_end in FM. rewrite FM.
  destruct (sum_squared_differences_is_Some img img_width img_height
              img_depth feature_width_ feature layer_width no_of_features_
              layer_y layer_x f) as [m Em]; try assumption; try lia.
  rewrite Em. simpl.
  replace (0 + layer_y * row + layer_x * no_of_features_ + f * 1)
    with ((layer_y * layer_width + layer_x) * no_of_features_ + f)
    by (unfold row; ring).
  replace (0 + layer_y * row + layer_x * no_of_features_ + (f + 1) * 1)
    with ((layer_y * layer_width + layer_x) * no_of_features_ + f + 1)
    by (unfold row; ring).
  apply wr_block.
  - rewrite Hu. unfold row in *.
    assert (0 <= layer_y * layer_width + layer_x
            <= layer_width * layer_width - 1) by nia.
    nia.
  - exists layer_y, layer_x, f. unfold similarity. rewrite Em.
    repeat split; try lia; reflexivity.
Qed.

End Convolve.

(** On buffers of the stated sizes [convolve_image] returns, and its
    output is as long as the buffer that it was given. *)
Lemma convolve_image_returns (img feature layer_ : list float32)
    (img_width img_height img_depth : Z)
    (feature_width_ no_of_features_ layer_width : Z) :
  0 < img_width -> 0 < img_height ->
  img_width * img_height * img_depth <= Z.of_nat (length img) ->
  no_of_features_ * feature_width_ * feature_width_ * img_depth
    <= Z.of_nat (length feature) ->
  0 <= layer_width -> 0 <= no_of_features_ ->
  layer_width * layer_width * no_of_features_ <= Z.of_nat (length layer_) ->
  exists out,
    convolve_image img img_width img_height img_depth feature_width_
      no_of_features_ feature layer_ layer_width = Some out /\
    length out = length layer_.
Proof.
  intros Hw Hh Himg Hfeat Hlw Hnf Hout.
  destruct (convolve_image_blocks img feature img_width img_height img_depth
              feature_width_ no_of_features_ layer_width Hw Hh Himg Hfeat
              Hlw Hnf layer_ Hout) as (out & E & L & _).
  exists out. split; [exact E | exact L].
Qed.

Lemma output_index_inj layer_width no_of_features_ y x f y' x' f' :
  0 <= x < layer_width -> 0 <= x' < layer_width ->
  0 <= f < no_of_features_ -> 0 <= f' < no_of_features_ ->
  output_index layer_width no_of_features_ y x f =
  output_index layer_width no_of_features_ y' x' f' ->
  y = y' /\ x = x' /\ f = f'.
Proof.
  unfold output_index. intros Hx Hx' Hf Hf' E.
  assert (E1 : y * layer_width + x = y' * layer_width + x') by nia.
  assert (E2 : y = y') by nia.
  subst y'. split; [reflexivity|]. split; lia.
Qed.




(** ** The similarities are at most one *)



Lemma patch_positions_no_depth feature_width_ img_depth :
  img_depth <= 0 -> patch_positions feature_width_ img_depth = [].
Proof.
  intros H. unfold patch_positions.
  replace (Z.to_nat img_depth) with O by lia. cbn [descending].
  assert (H1 : forall (l' : list Z) (yy : Z),
            (xx ← l'; c ← ([] : list Z); [(yy, xx, c)]) = []).
  { induction l' as [|xx l' IH']; intros yy; [reflexivity|].
    rewrite bind_cons, IH'. reflexivity. }
  assert (H2 : forall l l' : list Z,
            (yy ← l; xx ← l'; c ← ([] : list Z); [(yy, xx, c)]) = []).
  { induction l as [|yy l IH]; intros l'; [reflexivity|].
    rewrite bind_cons, H1, IH. reflexivity. }
  apply H2.
Qed.





(** ** Networks whose buffers fit their geometry *)

Lemma rd_lookup {A : Type} (b : list A) (i : Z) :
  0 <= i -> rd b i = b !! Z.to_nat i.
Proof. intros H. unfold rd. destruct (Z.ltb_spec i 0); [lia | reflexivity]. Qed.

Lemma rd_Some_bounds {A : Type} (b : list A) i x :
  rd b i = Some x -> 0 <= i < Z.of_nat (length b).
Proof.
  unfold rd. destruct (Z.ltb_spec i 0) as [Hneg|Hpos]; [discriminate|].
  intros E. apply lookup_lt_Some in E. lia.
Qed.

Lemma layer_okb_ok lay : layer_okb lay = true -> layer_ok lay.
Proof.
  unfold layer_okb, layer_ok. rewrite !andb_true_iff.
  intros ((((H1 & H2) & H3) & H4) & H5).
  apply Z.ltb_lt in H1, H2. apply Z.leb_le in H3, H5. apply Z.eqb_eq in H4.
  auto.
Qed.

Lemma chain_okb_lookup ls i prev lay :
  chain_okb ls = true -> ls !! i = Some prev -> ls !! S i = Some lay ->
  height lay = width lay /\ depth lay = no_of_features prev.
Proof.
  revert i; induction ls as [|a ls IH]; intros i Hc Hp Hl; [discriminate|].
  destruct ls as [|b ls]; [discriminate|].
  simpl in Hc. rewrite !andb_true_iff in Hc. destruct Hc as ((H1 & H2) & H3).
  destruct i as [|i].
  - simpl in Hp, Hl. inversion Hp; inversion Hl; subst.
    apply Z.eqb_eq in H1, H2. auto.
  - apply (IH i H3); assumption.
Qed.

Lemma layers_okb_ok conv : layers_okb conv = true -> layers_ok conv.
Proof.
  unfold layers_okb, layers_ok, get_layer.
  set (n := no_of_layers conv). set (ls := take (Z.to_nat n) (conv_layers conv)).
  rewrite !andb_true_iff.
  intros (((H1 & H2) & H3) & H4).
  apply Z.ltb_lt in H1. apply Z.leb_le in H2.
  assert (Hls : forall l, 0 <= l < n -> rd (conv_layers conv) l = ls !! Z.to_nat l).
  { intros l Hl. rewrite rd_lookup by lia. unfold ls.
    rewrite lookup_take_lt by lia. reflexivity. }
  split; [lia|]. split.
  - intros l Hl. rewrite Hls by lia.
    destruct (lookup_lt_is_Some_2 ls (Z.to_nat l)) as [lay El].
    { unfold ls. rewrite length_take. lia. }
    exists lay. split; [exact El|]. apply layer_okb_ok.
    rewrite forallb_forall in H3. apply H3.
    apply list_elem_of_In. eapply list_elem_of_lookup_2. exact El.
  - intros l prev lay Hl Ep El. rewrite Hls in Ep, El by lia.
    replace (Z.to_nat l) with (S (Z.to_nat (l - 1))) in El by lia.
    eapply chain_okb_lookup; eassumption.
Qed.


Lemma countup_invariant {St : Type} (Inv : Z -> St -> Prop)
    (body : Z -> St -> option St) n :
  forall lo s,
    (forall i t, lo <= i < lo + Z.of_nat n -> Inv i t ->
       exists t', body i t = Some t' /\ Inv (i + 1) t') ->
    Inv lo s ->
    exists s', countup_loop lo n body s = Some s' /\ Inv (lo + Z.of_nat n) s'.
Proof.
  induction n as [|k IH]; intros lo s Hbody Hs.
  - exists s. split; [reflexivity|]. replace (lo + Z.of_nat 0) with lo by lia.
    exact Hs.
  - destruct (Hbody lo s) as (s1 & E1 & H1); [lia | exact Hs |].
    destruct (IH (lo + 1) s1) as (s2 & E2 & H2).
    + intros i t Hi Ht. apply Hbody; [lia | exact Ht].
    + exact H1.
    + exists s2. simpl. rewrite E1. split; [exact E2|].
      replace (lo + Z.of_nat (S k)) with (lo + 1 + Z.of_nat k) by lia.
      exact H2.
Qed.

Lemma buf_of_store_buf p b :
  length b = length (buf_of p) -> buf_of (store_buf p b) = b.
Proof.
  destruct p as [b0|]; simpl; [reflexivity|].
  intros H. destruct b; [reflexivity | discriminate].
Qed.

Lemma get_layer_bounds conv l lay :
  get_layer conv l = Some lay -> 0 <= l < Z.of_nat (length (conv_layers conv)).
Proof. apply rd_Some_bounds. Qed.

Lemma put_layer_Some conv l lay :
  0 <= l < Z.of_nat (length (conv_layers conv)) ->
  put_layer conv l lay =
  Some (set_conv_layers conv (<[Z.to_nat l := lay]> (conv_layers conv))).
Proof.
  intros H. unfold put_layer, wr.
  destruct (Z.leb_spec 0 l); [|lia].
  destruct (Z.ltb_spec l (Z.of_nat (length (conv_layers conv)))); [|lia].
  reflexivity.
Qed.

Lemma get_layer_insert_eq conv l lay :
  0 <= l < Z.of_nat (length (conv_layers conv)) ->
  get_layer (set_conv_layers conv (<[Z.to_nat l := lay]> (conv_layers conv))) l
  = Some lay.
Proof. intros H. unfold get_layer. simpl. apply rd_insert_eq. exact H. Qed.

Lemma get_layer_insert_ne conv l j lay :
  0 <= l -> l <> j ->
  get_layer (set_conv_layers conv (<[Z.to_nat l := lay]> (conv_layers conv))) j
  = get_layer conv j.
Proof. intros H Hne. unfold get_layer. simpl. apply rd_insert_ne; assumption. Qed.

(** Replacing the contents of an activation buffer, or of the outputs,
    by as many numbers keeps a network well formed. *)
Lemma get_layer_set_activation conv l lay b j x :
  get_layer conv l = Some lay ->
  length b = length (buf_of (layer lay)) ->
  get_layer (set_conv_layers conv
               (<[Z.to_nat l := set_layer_buf lay (store_buf (layer lay) b)]>
                  (conv_layers conv))) j = Some x ->
  exists y, get_layer conv j = Some y /\
    width x = width y /\ height x = height y /\ depth x = depth y /\
    no_of_features x = no_of_features y /\
    feature_width x = feature_width y /\ feature x = feature y /\
    length (buf_of (layer x)) = length (buf_of (layer y)).
Proof.
  intros El Hb Ej. pose proof (get_layer_bounds _ _ _ El) as Hlb.
  destruct (Z.eq_dec l j) as [<-|Hne].
  - rewrite get_layer_insert_eq in Ej by lia. inversion Ej; subst x.
    exists lay. split; [exact El|]. simpl.
    rewrite buf_of_store_buf by exact Hb. rewrite Hb. repeat split.
  - rewrite get_layer_insert_ne in Ej by lia. exists x. repeat split.
    exact Ej.
Qed.

Lemma layers_ok_set_activation conv l lay b :
  layers_ok conv -> get_layer conv l = Some lay ->
  length b = length (buf_of (layer lay)) ->
  layers_ok (set_conv_layers conv
               (<[Z.to_nat l := set_layer_buf lay (store_buf (layer lay) b)]>
                  (conv_layers conv))).
Proof.
  intros (Hn & Hl & Hc) El Hb.
  pose proof (get_layer_bounds _ _ _ El) as Hlb.
  pose proof (get_layer_set_activation conv l lay b) as Hget.
  set (lay' := set_layer_buf lay (store_buf (layer lay) b)) in *.
  unfold layers_ok. simpl. rewrite length_insert.
  split; [exact Hn|]. split.
  - intros j Hj. destruct (Hl j Hj) as (y & Ey & Hy).
    assert (Ex : exists x, get_layer (set_conv_layers conv
                   (<[Z.to_nat l := lay']> (conv_layers conv))) j = Some x).
    { destruct (Z.eq_dec l j) as [<-|Hne].
      - rewrite get_layer_insert_eq by lia. eauto.
      - rewrite get_layer_insert_ne by lia. eauto. }
    destruct Ex as (x & Ex). exists x. split; [exact Ex|].
    destruct (Hget j x El Hb Ex) as (y' & Ey' & E1 & E2 & E3 & E4 & E5 & E6 & E7).
    assert (y' = y) by congruence. subst y'.
    destruct Hy as (Y1 & Y2 & Y3 & Y4 & Y5). unfold layer_ok.
    rewrite E1, E2, E3, E4, E5, E6, E7. auto.
  - intros j prev x Hj Ep Ex.
    destruct (Hget _ _ El Hb Ep) as (p' & Ep' & P1 & P2 & P3 & P4 & P5 & P6 & P7).
    destruct (Hget _ _ El Hb Ex) as (x' & Ex' & X1 & X2 & X3 & X4 & X5 & X6 & X7).
    destruct (Hc j p' x' Hj Ep' Ex') as (C1 & C2).
    rewrite X1, X2, X3, P4. auto.
Qed.

Lemma outputs_ok_set_activation conv l lay b :
  outputs_ok conv -> get_layer conv l = Some lay ->
  length b = length (buf_of (layer lay)) ->
  outputs_ok (set_conv_layers conv
                (<[Z.to_nat l := set_layer_buf lay (store_buf (layer lay) b)]>
                   (conv_layers conv))).
Proof.
  intros (Hw & Ho) El Hb. split; [exact Hw|]. simpl. intros lst Elst.
  destruct (get_layer_set_activation conv l lay b _ _ El Hb Elst)
    as (y & Ey & Y1 & Y2 & Y3 & Y4 & Y5 & Y6 & Y7).
  rewrite Y4. apply Ho. exact Ey.
Qed.

Lemma outputs_ok_set_outputs conv b :
  outputs_ok conv -> length b = length (buf_of (outputs conv)) ->
  outputs_ok (set_outputs conv (store_buf (outputs conv) b)).
Proof.
  intros (Hw & Ho) Hb. unfold outputs_ok, get_layer in *. simpl.
  rewrite buf_of_store_buf by exact Hb. rewrite Hb.
  split; [exact Hw | exact Ho].
Qed.

(** ** The feed-forward pipeline *)

Lemma fed_forward_fields img conv k conv' :
  fed_forward img conv k conv' ->
  no_of_layers conv' = no_of_layers conv /\
  outputs_width conv' = outputs_width conv.
Proof. intros (E & _). rewrite E. simpl. split; reflexivity. Qed.

(** One round of the loop of [conv_feed_forward]. *)
Lemma feed_forward_layer_step img conv k c :
  layers_ok c -> (k = no_of_layers conv - 1 -> outputs_ok c) ->
  fed_forward img conv k c ->
  0 <= k < no_of_layers conv ->
  exists c', feed_forward_layer k c = Some c' /\
    layers_ok c' /\ (outputs_ok c -> outputs_ok c') /\
    fed_forward img conv (k + 1) c'.
Proof.
  intros Hok Hout Hfed Hk.
  destruct (fed_forward_fields _ _ _ _ Hfed) as (En & Ew).
  pose proof Hok as (Hn & Hl & Hc).
  pose proof Hfed as (F1 & F2 & F3 & F4 & F5 & F6 & F7 & F8).
  rewrite En in *.
  destruct (Hl k) as (cur & Ecur & Kw & Kh & Knf & Kbuf & Kfeat); [lia|].
  unfold feed_forward_layer. rewrite Ecur. simpl. rewrite En.
  destruct (Z.ltb_spec k (no_of_layers conv - 1)) as [Hlt|Hge].
  - (* the next layer is written *)
    destruct (Hl (k + 1)) as (nxt & Enxt & Nw & Nh & Nnf & Nbuf & Nfeat); [lia|].
    rewrite Enxt. simpl.
    destruct (Hc (k + 1) cur nxt) as (Nsq & Ndep);
      [lia | replace (k + 1 - 1) with k by lia; exact Ecur | exact Enxt |].
    destruct (convolve_image_returns (buf_of (layer cur))
                (buf_of (feature cur)) (buf_of (layer nxt))
                (width cur) (height cur) (depth cur)
                (feature_width cur) (no_of_features cur) (width nxt))
      as (out & Eout & Lout); try lia.
    rewrite Eout. simpl.
    pose proof (get_layer_bounds _ _ _ Enxt) as Bn.
    rewrite put_layer_Some by exact Bn.
    eexists. split; [reflexivity|]. split.
    { apply layers_ok_set_activation; assumption. }
    split.
    { intros Ho. apply outputs_ok_set_activation; assumption. }
    set (nxt' := set_layer_buf nxt (store_buf (layer nxt) out)).
    assert (G1 : forall j, j <> k + 1 ->
              get_layer (set_conv_layers c
                 (<[Z.to_nat (k + 1) := nxt']> (conv_layers c))) j = get_layer c j).
    { intros j Hj. apply get_layer_insert_ne; lia. }
    assert (G2 : get_layer (set_conv_layers c
                 (<[Z.to_nat (k + 1) := nxt']> (conv_layers c))) (k + 1) = Some nxt').
    { apply get_layer_insert_eq. exact Bn. }
    unfold fed_forward.
    split; [|split; [|split; [|split; [|split; [|split; [|split]]]]]].
    + rewrite F1 at 1. reflexivity.
    + simpl. rewrite length_insert. exact F2.
    + intros l lay' El. destruct (Z.eq_dec l (k + 1)) as [->|Hne].
      * rewrite G2 in El. inversion El; subst lay'.
        destruct (F3 _ _ Enxt) as (lay & Elay & Hs). exists lay.
        split; [exact Elay|]. unfold same_layer_but_activation in *.
        unfold nxt'. rewrite Hs at 1. reflexivity.
      * rewrite G1 in El by exact Hne. apply F3. exact El.
    + destruct F4 as (l0' & E0 & H0). exists l0'.
      split; [rewrite G1 by lia; exact E0 | exact H0].
    + intros l Hl'. destruct (Z.eq_dec l (k + 1)) as [->|Hne].
      * exists cur, nxt, nxt'. replace (k + 1 - 1) with k by lia.
        rewrite G1 by lia. rewrite G2.
        split; [exact Ecur|]. split; [rewrite <- (F8 (k + 1)) by lia; exact Enxt|].
        split; [reflexivity|].
        unfold nxt'; simpl. rewrite buf_of_store_buf by exact Lout. exact Eout.
      * destruct (F5 l) as (prev' & cur0 & cur' & E1 & E2 & E3 & E4); [lia|].
        exists prev', cur0, cur'. rewrite !G1 by lia. auto.
    + intros Hkn. lia.
    + intros _. simpl. apply F7. lia.
    + intros l Hl'. rewrite G1 by lia. apply F8. lia.
  - (* the outputs are written *)
    assert (Ek : k = no_of_layers conv - 1) by lia.
    destruct (Hout Ek) as (Hw & Ho). rewrite En in Ho.
    destruct (convolve_image_returns (buf_of (layer cur))
                (buf_of (feature cur)) (buf_of (outputs c))
                (width cur) (height cur) (depth cur)
                (feature_width cur) (no_of_features cur) (outputs_width c))
      as (out & Eout & Lout); try lia.
    { apply Ho. rewrite <- Ek. exact Ecur. }
    rewrite Eout. simpl.
    eexists. split; [reflexivity|]. split; [exact Hok|]. split.
    { intros Ho'. apply outputs_ok_set_outputs; assumption. }
    unfold fed_forward.
    split; [|split; [|split; [|split; [|split; [|split; [|split]]]]]].
    + rewrite F1 at 1. reflexivity.
    + exact F2.
    + exact F3.
    + exact F4.
    + intros l Hl'. apply F5. lia.
    + intros _. exists cur. split; [rewrite <- Ek; exact Ecur|].
      simpl. rewrite buf_of_store_buf by exact Lout.
      rewrite <- F7 by lia. rewrite <- Ew. exact Eout.
    + intros Hkn. lia.
    + intros l Hl'. apply F8. lia.
Qed.

(** The first loop of [conv_feed_forward]. *)
Lemma normalise_image (img : list byte) (b : list float32) n :
  n <= Z.of_nat (length img) -> n = Z.of_nat (length b) ->
  exists b',
    COUNTDOWN n (fun i b => x ← rd img i; wr b i (F32.div (f32_of_byte x) (F32.of_Z 255))) b
      = Some b' /\
    length b' = length b /\
    forall i, 0 <= i < n -> rd b' i = normalised <$> rd img i.
Proof.
  intros Himg Hb. unfold COUNTDOWN.
  destruct (countdown_blocks
              (fun j v => Some v = normalised <$> rd img j) 0 1 (length b)
              (Z.to_nat n)
              (fun i b => x ← rd img i; wr b i (F32.div (f32_of_byte x) (F32.of_Z 255))))
    with (s := b) as (b' & E & L & W & _); [lia | | reflexivity |].
  - intros i s Hi Hs.
    destruct (rd_is_Some img i) as [x Ex]; [lia|]. rewrite Ex.
    cbn [mbind option_bind].
    replace (0 + i * 1) with i by lia. replace (0 + (i + 1) * 1) with (i + 1) by lia.
    apply wr_block; [lia|]. rewrite Ex. reflexivity.
  - exists b'. split; [exact E|]. split; [exact L|].
    intros i Hi. destruct (W i) as (v & Ev & Hv); [lia|]. congruence.
Qed.

Lemma conv_feed_forward_fed img conv layer_ :
  layers_ok conv -> (layer_ = no_of_layers conv -> outputs_ok conv) ->
  image_size conv <= Z.of_nat (length img) ->
  0 <= layer_ <= no_of_layers conv ->
  exists conv', conv_feed_forward img conv layer_ = Some conv' /\
    layers_ok conv' /\ fed_forward img conv layer_ conv'.
Proof.
  intros Hok Hout Himg HL. pose proof Hok as (Hn & Hl & Hc).
  destruct (Hl 0) as (l0 & E0 & K0w & K0h & K0nf & K0buf & K0feat); [lia|].
  unfold conv_feed_forward. unfold image_size in Himg. rewrite E0 in *.
  cbn [mbind option_bind].
  destruct (normalise_image img (buf_of (layer l0))
              (width l0 * height l0 * depth l0)) as (b0 & Eb & Lb & Hb0);
    [lia | lia |].
  rewrite Eb. cbn [mbind option_bind].
  pose proof (get_layer_bounds _ _ _ E0) as B0.
  rewrite put_layer_Some by exact B0. cbn [mbind option_bind].
  set (l0' := set_layer_buf l0 (store_buf (layer l0) b0)).
  set (c1 := set_conv_layers conv (<[Z.to_nat 0 := l0']> (conv_layers conv))).
  assert (Hok1 : layers_ok c1) by (apply layers_ok_set_activation; assumption).
  assert (Hout1 : layer_ = no_of_layers conv -> outputs_ok c1).
  { intros HLn. apply outputs_ok_set_activation; auto. }
  assert (Hfed1 : fed_forward img conv 0 c1).
  { unfold fed_forward.
    split; [|split; [|split; [|split; [|split; [|split; [|split]]]]]].
    - destruct conv; reflexivity.
    - unfold c1. simpl. apply length_insert.
    - intros l lay' El. destruct (Z.eq_dec l 0) as [->|Hne].
      + unfold c1 in El. rewrite get_layer_insert_eq in El by exact B0.
        inversion El; subst lay'. exists l0. split; [exact E0|]. reflexivity.
      + unfold c1 in El. rewrite get_layer_insert_ne in El by lia.
        exists lay'. split; [exact El|]. destruct lay'; reflexivity.
    - exists l0'. split; [apply get_layer_insert_eq; exact B0|].
      unfold l0'; simpl. rewrite buf_of_store_buf by exact Lb. exact Hb0.
    - intros l Hl'. lia.
    - intros Hn0. lia.
    - intros _. reflexivity.
    - intros l Hl'. unfold c1. apply get_layer_insert_ne; lia. }
  unfold COUNTUP.
  destruct (countup_invariant
              (fun k c => layers_ok c /\
                          (layer_ = no_of_layers conv -> outputs_ok c) /\
                          fed_forward img conv k c)
              feed_forward_layer (Z.to_nat layer_) 0 c1)
    as (c' & Ec & Hok' & _ & Hfed').
  - intros i t Hi (Hokt & Houtt & Hfedt).
    assert (Hi' : i = no_of_layers conv - 1 -> outputs_ok t)
      by (intros Hi'; apply Houtt; lia).
    destruct (feed_forward_layer_step img conv i t Hokt Hi' Hfedt)
      as (t' & Et & H1 & H2 & H3); [lia|].
    exists t'. split; [exact Et|]. split; [exact H1|].
    split; [intros HLn; apply H2, Houtt; exact HLn | exact H3].
  - split; [exact Hok1|]. split; [exact Hout1 | exact Hfed1].
  - exists c'. split; [exact Ec|]. split; [exact Hok'|].
    replace (0 + Z.of_nat (Z.to_nat layer_)) with layer_ in Hfed' by lia.
    exact Hfed'.
Qed.



(** ** The arithmetic of [int] *)

Lemma to_int_in_int z : in_int (to_int z).
Proof.
  unfold in_int, int_min, int_max, to_int.
  pose proof (Z.mod_pos_bound (z + 2147483648) 4294967296 ltac:(lia)). lia.
Qed.

Lemma to_int_id z : in_int z -> to_int z = z.
Proof.
  unfold in_int, int_min, int_max, to_int. intros H.
  rewrite Z.mod_small by lia. lia.
Qed.

Lemma to_int_shift z q : to_int (z + q * 4294967296) = to_int z.
Proof.
  unfold to_int.
  replace (z + q * 4294967296 + 2147483648)
    with (z + 2147483648 + q * 4294967296) by ring.
  rewrite Z_mod_plus_full. reflexivity.
Qed.

Lemma to_int_decompose z : exists q, to_int z = z + q * 4294967296.
Proof.
  exists (- ((z + 2147483648) / 4294967296)). unfold to_int.
  rewrite Z.mod_eq by lia. ring.
Qed.

Lemma to_int_sub_l a b : to_int (to_int a - b) = to_int (a - b).
Proof.
  destruct (to_int_decompose a) as (q & ->).
  replace (a + q * 4294967296 - b) with (a - b + q * 4294967296) by ring.
  apply to_int_shift.
Qed.

Lemma to_int_mul_l a b : to_int (to_int a * b) = to_int (a * b).
Proof.
  destruct (to_int_decompose a) as (q & ->).
  replace ((a + q * 4294967296) * b) with (a * b + q * b * 4294967296) by ring.
  apply to_int_shift.
Qed.

Lemma int_mul_3 a b c : int_mul (int_mul a b) c = to_int (a * b * c).
Proof. unfold int_mul. apply to_int_mul_l. Qed.

Lemma int_mul_4 a b c d :
  int_mul (int_mul (int_mul a b) c) d = to_int (a * b * c * d).
Proof.
  unfold int_mul. rewrite to_int_mul_l.
  destruct (to_int_decompose (a * b)) as (q & ->).
  replace ((a * b + q * 4294967296) * c * d)
    with (a * b * c * d + q * c * d * 4294967296) by ring.
  apply to_int_shift.
Qed.

Lemma quot_between a n :
  0 < n -> Z.min 0 a <= a ÷ n <= Z.max 0 a.
Proof.
  intros Hn. destruct (Z_le_gt_dec 0 a) as [Ha|Ha].
  - rewrite Z.quot_div_nonneg by lia.
    pose proof (Z.div_pos a n Ha Hn).
    assert (a / n <= a) by (apply Z.div_le_upper_bound; nia). lia.
  - assert (E : a ÷ n = - ((- a) ÷ n)) by (rewrite Z.quot_opp_l by lia; lia).
    rewrite E. rewrite Z.quot_div_nonneg by lia.
    pose proof (Z.div_pos (- a) n ltac:(lia) Hn).
    assert (- a / n <= - a) by (apply Z.div_le_upper_bound; nia). lia.
Qed.

(** A layer is between the image and the final size in width. *)
Lemma interpolated_width_between image_width final_image_width n l :
  0 <= l < n ->
  Z.min image_width final_image_width
    <= interpolated_width image_width final_image_width n l
    <= Z.max image_width final_image_width.
Proof.
  intros Hl. unfold interpolated_width.
  set (a := image_width - final_image_width).
  assert (Hq : Z.min 0 a <= (a * l) ÷ n <= Z.max 0 a).
  { destruct (Z_le_gt_dec 0 a) as [Ha|Ha].
    - rewrite Z.quot_div_nonneg by nia.
      assert (0 <= a * l / n) by (apply Z.div_pos; nia).
      assert (a * l / n <= a) by (apply Z.div_le_upper_bound; nia). lia.
    - assert (E : (a * l) ÷ n = - ((- a * l) ÷ n)).
      { replace (- a * l) with (- (a * l)) by ring.
        rewrite Z.quot_opp_l by lia. lia. }
      rewrite E. rewrite Z.quot_div_nonneg by nia.
      assert (0 <= - a * l / n) by (apply Z.div_pos; nia).
      assert (- a * l / n <= - a) by (apply Z.div_le_upper_bound; nia). lia. }
  subst a. lia.
Qed.

(** Where no product leaves the range, [conv_init] computes the widths
    of the specification. *)
Lemma int_width_exact image_width final_image_width n l :
  in_int image_width -> in_int final_image_width -> 0 <= l < n ->
  in_int ((image_width - final_image_width) * l) ->
  int_width image_width final_image_width n l
  = interpolated_width image_width final_image_width n l.
Proof.
  intros Hi Hf Hl Hp. unfold int_width, int_sub, int_mul.
  rewrite to_int_mul_l, (to_int_id _ Hp).
  apply to_int_id.
  pose proof (interpolated_width_between image_width final_image_width n l Hl)
    as Hb.
  unfold interpolated_width in *. unfold in_int, int_min, int_max in *. lia.
Qed.

Lemma int_feature_width_exact feature_width_ image_width w :
  0 < image_width -> in_int (feature_width_ * w) ->
  int_feature_width feature_width_ image_width w
  = scaled_feature_width feature_width_ image_width w.
Proof.
  intros Hi Hp. unfold int_feature_width, scaled_feature_width, int_mul.
  rewrite (to_int_id _ Hp). f_equal. apply to_int_id.
  pose proof (quot_between (feature_width_ * w) image_width Hi).
  unfold in_int, int_min, int_max in *. lia.
Qed.

(** ** Construction: the loop over the layers *)

Lemma FLOATALLOC_ok M k n :
  alloc_ok M k = true ->
  exists b, FLOATALLOC M k n = Some b /\ length b = Z.to_nat n.
Proof.
  intros H. unfold FLOATALLOC. rewrite H. eexists. split; [reflexivity|].
  rewrite length_map, length_seq. reflexivity.
Qed.

Lemma FLOATALLOC_fail M k n : alloc_ok M k = false -> FLOATALLOC M k n = None.
Proof. intros H. unfold FLOATALLOC. rewrite H. reflexivity. Qed.

Section Construction.

Variable M : allocator.
Variable k : nat.
Variables no_of_layers_ image_width image_height image_depth : Z.
Variables no_of_features_ feature_width_ : Z.
Variables final_image_width final_image_height : Z.

Hypothesis image_width_nonzero : image_width <> 0.

Lemma conv_init_loop m :
  forall l c,
    0 <= l -> l + Z.of_nat m <= Z.of_nat (length (conv_layers c)) ->
    (0 < l -> exists prev, get_layer c (l - 1) = Some prev /\
               no_of_features prev = no_of_features_) ->
    exists r,
      countup_return l m
        (conv_init_layer M no_of_layers_ image_width image_height
           image_depth no_of_features_ feature_width_ final_image_width
           final_image_height)
        (c, (k + 2 * Z.to_nat l)%nat) = Some r /\
      loop_outcome M k
        (built_layer M k no_of_layers_ image_width image_height
           image_depth no_of_features_ feature_width_ final_image_width)
        l m c r.
Proof.
  set (body := conv_init_layer M no_of_layers_ image_width image_height
                 image_depth no_of_features_ feature_width_ final_image_width
                 final_image_height).
  set (built := built_layer M k no_of_layers_ image_width image_height
                  image_depth no_of_features_ feature_width_
                  final_image_width).
  induction m as [|m IH]; intros l c Hl Hcap Hprev.
  - eexists. split; [reflexivity|]. cbn beta iota delta [loop_outcome].
    split; [lia|]. split; [intros j Hj; lia|].
    split; [destruct c; reflexivity|]. split; [reflexivity|].
    split; [intros j Hj; lia | reflexivity].
  - cbn [countup_return]. unfold body at 1. unfold conv_init_layer.
    destruct (rd_is_Some (conv_layers c) l) as [old Eold]; [lia|].
    fold (get_layer c l) in Eold.
    cbv beta iota. rewrite Eold. cbn [mbind option_bind].

    assert (Ed : (if l =? 0 then Some image_depth
                  else no_of_features <$> get_layer c (l - 1))
                 = Some (layer_depth image_depth no_of_features_ l)).
    { unfold layer_depth. destruct (Z.eqb_spec l 0) as [E0|N0]; [reflexivity|].
      destruct Hprev as (prev & Ep & En); [lia|]. rewrite Ep. simpl.
      rewrite En. reflexivity. }
    rewrite Ed. cbn [mbind option_bind].
    unfold int_div. destruct (Z.eqb_spec image_width 0) as [E0|_]; [contradiction|].
    cbn [mbind option_bind].
    set (w := int_sub image_width
                (int_mul (int_sub image_width final_image_width) l
                 ÷ no_of_layers_)).
    set (h := if l =? 0
              then int_sub image_height
                     (int_mul (int_sub image_height final_image_height) l
                      ÷ no_of_layers_)
              else w).
    set (d := layer_depth image_depth no_of_features_ l).
    set (fw := if to_int (int_mul feature_width_ w ÷ image_width) <? 3 then 3
               else to_int (int_mul feature_width_ w ÷ image_width)).
    assert (Eh : h = int_height image_width image_height final_image_width
                       no_of_layers_ l).
    { unfold h, int_height. destruct (Z.eqb_spec l 0) as [->|_]; [|reflexivity].
      unfold int_mul, int_sub. rewrite Z.mul_0_r. change (to_int 0) with 0.
      change (0 ÷ no_of_layers_) with 0. rewrite Z.sub_0_r. reflexivity. }
    assert (Efw : fw = int_feature_width feature_width_ image_width w).
    { unfold fw, int_feature_width.
      destruct (Z.ltb_spec (to_int (int_mul feature_width_ w ÷ image_width)) 3);
        lia. }
    assert (Ebuilt : built l =
              mk_layer w h d no_of_features_ fw
                (FLOATALLOC M (k + 2 * Z.to_nat l) (int_mul (int_mul w h) d))
                (FLOATALLOC M (k + 2 * Z.to_nat l + 1)
                   (int_mul (int_mul (int_mul no_of_features_ fw) fw) d))).
    { assert (Ew : w = int_width image_width final_image_width
                            no_of_layers_ l) by reflexivity.
      unfold built, built_layer. cbv zeta. rewrite <- Eh, <- Ew, <- Efw.
      reflexivity. }
    rewrite put_layer_Some by lia. cbn [mbind option_bind].
    destruct (alloc_ok M (k + 2 * Z.to_nat l)) eqn:Ok1.
    2:{ (* the activation buffer cannot be allocated *)
        rewrite (FLOATALLOC_fail _ _ _ Ok1).
        rewrite bool_decide_eq_true_2 by reflexivity.
        eexists. split; [reflexivity|]. cbn beta iota delta [loop_outcome].
        exists l, (2 * Z.to_nat l)%nat.
        split; [lia|]. split; [intros j Hj; lia|]. split; [exact Ok1|].
        left. split; reflexivity. }
    destruct (FLOATALLOC_ok M _ (int_mul (int_mul w h) d) Ok1) as (p & Ep & Lp).
    rewrite Ep.
    rewrite bool_decide_eq_false_2 by discriminate.
    rewrite put_layer_Some by (simpl; rewrite length_insert; lia).
    cbn [mbind option_bind].
    destruct (alloc_ok M (S (k + 2 * Z.to_nat l))) eqn:Ok2.
    2:{ (* the feature bank cannot be allocated *)
        rewrite (FLOATALLOC_fail _ _ _ Ok2).
        rewrite bool_decide_eq_true_2 by reflexivity.
        eexists. split; [reflexivity|]. cbn beta iota delta [loop_outcome].
        exists l, (2 * Z.to_nat l + 1)%nat.
        split; [lia|]. split.
        { intros j Hj. assert (j = (2 * Z.to_nat l)%nat) as -> by lia. exact Ok1. }
        split; [replace (k + (2 * Z.to_nat l + 1))%nat
                  with (S (k + 2 * Z.to_nat l)) by lia; exact Ok2|].
        right. split; reflexivity. }
    destruct (FLOATALLOC_ok M _
                (int_mul (int_mul (int_mul no_of_features_ fw) fw) d) Ok2)
      as (q & Eq & Lq).
    rewrite Eq.
    rewrite bool_decide_eq_false_2 by discriminate.
    simpl conv_layers. rewrite list_insert_insert_eq.
    set (lay := set_feature_buf _ (Some q)).
    assert (Elay : lay = built l).
    { rewrite Ebuilt, Ep.
      replace (k + 2 * Z.to_nat l + 1)%nat with (S (k + 2 * Z.to_nat l)) by lia.
      rewrite Eq. reflexivity. }
    set (c2 := set_conv_layers _ _).
    assert (Ec2 : c2 = set_conv_layers c (<[Z.to_nat l := lay]> (conv_layers c)))
      by reflexivity.
    clearbody c2. subst c2.
    destruct (IH (l + 1)
                (set_conv_layers c (<[Z.to_nat l := lay]> (conv_layers c))))
      as (r & Er & Hr).
    { lia. }
    { simpl. rewrite length_insert. lia. }
    { intros _. exists lay. replace (l + 1 - 1) with l by lia.
      split; [apply get_layer_insert_eq; lia|]. rewrite Elay. reflexivity. }
    replace (k + 2 * Z.to_nat (l + 1))%nat with (S (S (k + 2 * Z.to_nat l)))
      in Er by lia.
    exists r. split; [exact Er|].
    destruct r as [[c' k']|[[rc c'] k']];
      cbn beta iota delta [loop_outcome] in Hr |- *.
    + destruct Hr as (Hk & Hok & Hc' & Hlen & Hset & Hframe).
      split; [lia|]. split.
      { intros j Hj.
        destruct (Nat.eq_dec j (2 * Z.to_nat l)%nat) as [->|N1]; [exact Ok1|].
        destruct (Nat.eq_dec j (2 * Z.to_nat l + 1)%nat) as [->|N2].
        - replace (k + (2 * Z.to_nat l + 1))%nat
            with (S (k + 2 * Z.to_nat l)) by lia. exact Ok2.
        - apply Hok. lia. }
      split; [rewrite Hc' at 1; reflexivity|].
      split; [rewrite Hlen; cbn [set_conv_layers conv_layers]; apply length_insert|].
      split.
      * intros j Hj. destruct (Z.eq_dec j l) as [->|Hne].
        -- rewrite Hframe by lia. rewrite get_layer_insert_eq by lia.
           rewrite Elay. reflexivity.
        -- apply Hset. lia.
      * intros j Hj. rewrite Hframe by lia. apply get_layer_insert_ne; lia.
    + destruct Hr as (t & J & Ht & Hok & Hfail & Hcode).
      exists t, J. split; [lia|]. split; [|split; [exact Hfail | exact Hcode]].
      intros j Hj.
      destruct (Nat.eq_dec j (2 * Z.to_nat l)%nat) as [->|N1]; [exact Ok1|].
      destruct (Nat.eq_dec j (2 * Z.to_nat l + 1)%nat) as [->|N2].
      * replace (k + (2 * Z.to_nat l + 1))%nat
          with (S (k + 2 * Z.to_nat l)) by lia. exact Ok2.
      * apply Hok. lia.
Qed.

Lemma conv_init_outcome (match_threshold_ : list float32)
    (conv : deeplearn_conv) :
  0 < no_of_layers_ <= Z.of_nat (length (conv_layers conv)) ->
  no_of_layers_ <= Z.of_nat (length match_threshold_) ->
  exists rc conv' k',
    conv_init M k no_of_layers_ image_width image_height image_depth
      no_of_features_ feature_width_ final_image_width final_image_height
      match_threshold_ conv = Some (rc, conv', k') /\
    init_outcome M k no_of_layers_ image_width image_height image_depth
      no_of_features_ feature_width_ final_image_width match_threshold_
      conv rc conv'.
Proof.
  intros Hn Hthr. unfold conv_init.
  set (c0 := mk_conv no_of_layers_ 0 f32_0_1 0 0 (conv_layers conv)
               (outputs_width conv) (no_of_outputs conv) (outputs conv)
               (match_threshold conv) (history conv) (history_index conv)
               (history_step conv)).
  destruct (conv_init_loop (Z.to_nat no_of_layers_) 0 c0) as (r & Er & Hr);
    [lia | simpl; lia | lia |].
  change (k + 2 * Z.to_nat 0)%nat with (k + 0)%nat in Er.
  rewrite Nat.add_0_r in Er. rewrite Er. cbn [mbind option_bind].
  destruct r as [[c1 k1]|[[rc c1] k1]];
    cbn beta iota delta [loop_outcome] in Hr.
  2:{ (* an allocation of a layer has failed *)
      exists rc, c1, k1. split; [reflexivity|].
      destruct Hr as (t & J & Ht & Hok & Hfail & [[-> ->]|[-> ->]]).
      - right; left. split; [reflexivity|]. exists t. split; [lia|].
        split; [exact Hfail|]. intros i Hi. apply Hok. lia.
      - right; right; left. split; [reflexivity|]. exists t. split; [lia|].
        split; [exact Hfail|]. intros i Hi. apply Hok. lia. }
  destruct Hr as (Hk1 & Hok & Hc1 & Hlen & Hset & Hframe).
  replace (0 + Z.of_nat (Z.to_nat no_of_layers_)) with no_of_layers_
    in Hset, Hframe by lia.
  change (2 * Z.to_nat 0)%nat with 0%nat in Hk1, Hok.
  rewrite (Hset (no_of_layers_ - 1)) by lia. cbn [mbind option_bind].
  assert (En : no_of_layers c1 = no_of_layers_) by (rewrite Hc1; reflexivity).
  set (n_out := int_mul (int_mul final_image_width final_image_width)
                  (depth (built_layer M k no_of_layers_ image_width
                            image_height image_depth no_of_features_
                            feature_width_ final_image_width
                            (no_of_layers_ - 1)))).
  assert (En_out : n_out = int_mul (int_mul final_image_width final_image_width)
                     (layer_depth image_depth no_of_features_
                        (no_of_layers_ - 1)))
    by reflexivity.
  assert (Ek1 : k1 = (k + 2 * Z.to_nat no_of_layers_)%nat) by lia.
  destruct (alloc_ok M k1) eqn:Ok3.
  2:{ (* the outputs cannot be allocated *)
      rewrite (FLOATALLOC_fail _ _ _ Ok3).
      rewrite bool_decide_eq_true_2 by reflexivity.
      eexists _, _, _. split; [reflexivity|].
      right; right; right; left. split; [reflexivity|].
      split; [rewrite <- Ek1; exact Ok3|].
      intros i Hi. apply Hok. lia. }
  destruct (FLOATALLOC_ok M _ n_out Ok3) as (p & Ep & Lp). rewrite Ep.
  rewrite bool_decide_eq_false_2 by discriminate.
  cbn [no_of_layers]. rewrite En.
  destruct (alloc_ok M (S k1)) eqn:Ok4.
  2:{ (* the thresholds cannot be allocated *)
      rewrite (FLOATALLOC_fail _ _ _ Ok4).
      eexists _, _, _. split; [reflexivity|].
      right; right; right; right. split; [reflexivity|].
      split; [replace (k + (2 * Z.to_nat no_of_layers_ + 1))%nat
                with (S k1) by lia; exact Ok4|].
      intros i Hi.
      destruct (Nat.eq_dec i (2 * Z.to_nat no_of_layers_)%nat) as [->|Hne].
      - rewrite <- Ek1. exact Ok3.
      - apply Hok. lia. }
  destruct (FLOATALLOC_ok M _ no_of_layers_ Ok4) as (q & Eq & Lq). rewrite Eq.
  unfold memcpy.
  destruct (Z.ltb_spec (Z.of_nat (length match_threshold_)) no_of_layers_);
    [lia|].
  destruct (Z.ltb_spec (Z.of_nat (length q)) no_of_layers_); [lia|].
  cbn [orb mbind option_bind].
  eexists _, _, _. split; [reflexivity|].
  left. split; [reflexivity|]. split.
  { intros j Hj.
    destruct (Nat.eq_dec j (2 * Z.to_nat no_of_layers_)%nat) as [->|N1].
    - rewrite <- Ek1. exact Ok3.
    - destruct (Nat.eq_dec j (2 * Z.to_nat no_of_layers_ + 1)%nat) as [->|N2].
      + replace (k + (2 * Z.to_nat no_of_layers_ + 1))%nat
          with (S k1) by lia. exact Ok4.
      + apply Hok. lia. }
  unfold constructed. cbv zeta. rewrite <- En_out.
  split; [|split; [exact Hlen | split; [exact Hset | exact Hframe]]].
  rewrite drop_ge by lia. rewrite app_nil_r.
  rewrite <- Ek1, Ep.
  assert (P1 : current_layer c1 = 0) by (rewrite Hc1; reflexivity).
  assert (P2 : learning_rate c1 = f32_0_1) by (rewrite Hc1; reflexivity).
  assert (P3 : itterations c1 = 0) by (rewrite Hc1; reflexivity).
  assert (P4 : training_ctr c1 = 0) by (rewrite Hc1; reflexivity).
  assert (P5 : history c1 = history conv) by (rewrite Hc1; reflexivity).
  assert (P6 : history_index c1 = history_index conv)
    by (rewrite Hc1; reflexivity).
  assert (P7 : history_step c1 = history_step conv)
    by (rewrite Hc1; reflexivity).
  unfold set_match_threshold.
  cbn [no_of_layers current_layer learning_rate itterations training_ctr
       conv_layers outputs_width no_of_outputs outputs match_threshold
       history history_index history_step].
  rewrite P1, P2, P3, P4, P5, P6, P7. reflexivity.
Qed.

End Construction.

(** ** What no operation changes *)

Lemma same_shape_refl conv : same_shape conv conv.
Proof. repeat split. Qed.

Lemma same_shape_trans c1 c2 c3 :
  same_shape c1 c2 -> same_shape c2 c3 -> same_shape c1 c3.
Proof.
  intros (A1 & A2 & A3 & A4 & A5) (B1 & B2 & B3 & B4 & B5).
  unfold same_shape. split; [congruence|]. split; [|repeat split; congruence].
  intros l. rewrite B2. apply A2.
Qed.

Lemma countup_loop_preserves {St : Type} (P : St -> St -> Prop)
    (body : Z -> St -> option St) n :
  (forall s, P s s) -> (forall s1 s2 s3, P s1 s2 -> P s2 s3 -> P s1 s3) ->
  (forall i s s', body i s = Some s' -> P s s') ->
  forall i s s', countup_loop i n body s = Some s' -> P s s'.
Proof.
  intros Hr Ht Hb. induction n as [|m IH]; intros i s s' E; simpl in E.
  - inversion E; subst. apply Hr.
  - destruct (body i s) as [s1|] eqn:E1; [|discriminate].
    eapply Ht; [eapply Hb; exact E1 | eapply IH; exact E].
Qed.

Lemma countdown_loop_preserves {St : Type} (P : St -> St -> Prop)
    (body : Z -> St -> option St) n :
  (forall s, P s s) -> (forall s1 s2 s3, P s1 s2 -> P s2 s3 -> P s1 s3) ->
  (forall i s s', body i s = Some s' -> P s s') ->
  forall s s', countdown_loop n body s = Some s' -> P s s'.
Proof.
  intros Hr Ht Hb. induction n as [|m IH]; intros s s' E; simpl in E.
  - inversion E; subst. apply Hr.
  - destruct (body (Z.of_nat m) s) as [s1|] eqn:E1; [|discriminate].
    eapply Ht; [eapply Hb; exact E1 | eapply IH; exact E].
Qed.

Lemma wr_Some {A : Type} (b : list A) i v b' :
  wr b i v = Some b' ->
  0 <= i < Z.of_nat (length b) /\ b' = <[Z.to_nat i := v]> b.
Proof.
  unfold wr. destruct (Z.leb_spec 0 i); [|discriminate].
  destruct (Z.ltb_spec i (Z.of_nat (length b))); [|discriminate].
  simpl. intros E. inversion E. split; [lia | reflexivity].
Qed.

(** Storing a layer of the same geometry keeps the shape. *)
Lemma put_layer_same_shape conv l lay lay' conv' :
  get_layer conv l = Some lay -> geometry lay' = geometry lay ->
  put_layer conv l lay' = Some conv' -> same_shape conv conv'.
Proof.
  intros El Hg E. unfold put_layer in E.
  destruct (wr (conv_layers conv) l lay') as [ls|] eqn:Ew; [|discriminate].
  simpl in E. inversion E; subst conv'. apply wr_Some in Ew as (Hl & ->).
  repeat split. intros j. destruct (Z.eq_dec l j) as [<-|Hne].
  - rewrite get_layer_insert_eq by exact Hl. rewrite El. simpl. congruence.
  - rewrite get_layer_insert_ne by lia. reflexivity.
Qed.

Lemma feed_forward_layer_same_shape l conv conv' :
  feed_forward_layer l conv = Some conv' -> same_shape conv conv'.
Proof.
  unfold feed_forward_layer. intros E.
  destruct (get_layer conv l) as [cur|]; [|discriminate].
  cbn [mbind option_bind] in E.
  destruct (l <? no_of_layers conv - 1).
  - destruct (get_layer conv (l + 1)) as [nxt|] eqn:En; [|discriminate].
    cbn [mbind option_bind] in E.
    destruct (convolve_image _ _ _ _ _ _ _ _ _) as [out|]; [|discriminate].
    cbn [mbind option_bind] in E.
    eapply put_layer_same_shape; [exact En | | exact E]. reflexivity.
  - destruct (convolve_image _ _ _ _ _ _ _ _ _) as [out|]; [|discriminate].
    cbn [mbind option_bind] in E. inversion E; subst conv'. repeat split.
Qed.

Lemma conv_feed_forward_same_shape img conv layer_ conv' :
  conv_feed_forward img conv layer_ = Some conv' -> same_shape conv conv'.
Proof.
  unfold conv_feed_forward. intros E.
  destruct (get_layer conv 0) as [l0|] eqn:E0; [|discriminate].
  cbn [mbind option_bind] in E.
  destruct (COUNTDOWN _ _ _) as [b0|]; [|discriminate].
  cbn [mbind option_bind] in E.
  destruct (put_layer conv 0 _) as [c1|] eqn:E1; [|discriminate].
  cbn [mbind option_bind] in E.
  apply same_shape_trans with (c2 := c1).
  - eapply put_layer_same_shape; [exact E0 | | exact E1]. reflexivity.
  - unfold COUNTUP in E.
    eapply (countup_loop_preserves same_shape); [| | | exact E].
    + apply same_shape_refl.
    + apply same_shape_trans.
    + apply feed_forward_layer_same_shape.
Qed.

Lemma conv_free_same_shape conv conv' :
  conv_free conv = Some conv' -> same_shape conv conv'.
Proof.
  unfold conv_free. intros E.
  destruct (COUNTDOWN _ _ _) as [c1|] eqn:E1; [|discriminate].
  cbn [mbind option_bind] in E. inversion E; subst conv'.
  apply same_shape_trans with (c2 := c1); [|repeat split].
  unfold COUNTDOWN in E1.
  eapply (countdown_loop_preserves same_shape); [| | | exact E1].
  - apply same_shape_refl.
  - apply same_shape_trans.
  - intros i s s' Es. cbv beta in Es.
    destruct (get_layer s i) as [lay|] eqn:El; [|discriminate].
    cbn [mbind option_bind] in Es.
    eapply put_layer_same_shape; [exact El | | exact Es]. reflexivity.
Qed.

Lemma learn_sample_same_shape learn_features layer_ samples ms c fs seed
    ms' c' fs' seed' :
  learn_sample learn_features layer_ samples (ms, c, fs, seed)
    = Some (ms', c', fs', seed') ->
  same_shape c c'.
Proof.
  unfold learn_sample. intros E.
  destruct (get_layer c layer_) as [cur|] eqn:Ec; [|discriminate].
  cbn [mbind option_bind] in E.
  destruct (learn_features _ _ _ _ _ _ _ _ _ _ _) as [[[r f'] s'] sd'].
  destruct (put_layer c layer_ _) as [c1|] eqn:E1; [|discriminate].
  cbn [mbind option_bind] in E. inversion E; subst.
  apply same_shape_trans with (c2 := c1); [|repeat split].
  eapply put_layer_same_shape; [exact Ec | | exact E1]. reflexivity.
Qed.

Lemma conv_learn_same_shape M learn_features k img conv samples seed
    r conv' seed' k' :
  conv_learn M learn_features k img conv samples seed
    = Some (r, conv', seed', k') ->
  same_shape conv conv'.
Proof.
  unfold conv_learn. intros E.
  destruct (current_layer conv >=? no_of_layers conv).
  { inversion E; subst. apply same_shape_refl. }
  destruct (get_layer conv (current_layer conv)) as [cur|]; [|discriminate].
  cbn [mbind option_bind] in E.
  destruct (FLOATALLOC M k (no_of_features cur)) as [fs|].
  2:{ inversion E; subst. apply same_shape_refl. }
  destruct (conv_feed_forward img conv (current_layer conv)) as [c1|] eqn:E1;
    [|discriminate].
  cbn [mbind option_bind] in E.
  destruct (COUNTDOWN samples _ _) as [[[[ms c2] fs2] sd2]|] eqn:E2;
    [|discriminate].
  cbn [mbind option_bind] in E.
  destruct (rd _ _) as [thr|]; [|discriminate].
  cbn [mbind option_bind] in E.
  assert (H2 : same_shape c2 conv').
  { destruct (F32.ltb ms thr); inversion E; subst; repeat split. }
  clear E.
  apply same_shape_trans with (c2 := c1);
    [eapply conv_feed_forward_same_shape; exact E1|].
  apply same_shape_trans with (c2 := c2).
  - unfold COUNTDOWN in E2.
    apply (countdown_loop_preserves
             (fun s s' : float32 * deeplearn_conv * list float32 * Z =>
                same_shape (snd (fst (fst s))) (snd (fst (fst s'))))
             _ _ (fun s => same_shape_refl _)
             (fun s1 s2 s3 => same_shape_trans _ _ _)) in E2; [exact E2|].
    intros i [[[a b] c] d] [[[a' b'] c'] d'] Es. simpl.
    eapply learn_sample_same_shape. exact Es.
  - exact H2.
Qed.

Lemma later_operation_same_shape conv conv' :
  later_operation conv conv' -> same_shape conv conv'.
Proof.
  intros [(img & L & E)|[(M & lf & k & img & S & seed & r & seed' & k' & E)|
          [E|[E|E]]]].
  - eapply conv_feed_forward_same_shape. exact E.
  - eapply conv_learn_same_shape. exact E.
  - apply conv_free_same_shape. exact E.
  - inversion E; subst. apply same_shape_refl.
  - inversion E; subst. apply same_shape_refl.
Qed.

Lemma same_shape_depths_chain d conv conv' :
  same_shape conv conv' -> depths_chain d conv -> depths_chain d conv'.
Proof.
  intros (Hn & Hg & _) ((l0 & E0 & D0) & Hc).
  assert (G : forall l lay, get_layer conv l = Some lay ->
            exists lay', get_layer conv' l = Some lay' /\
              geometry lay' = geometry lay).
  { intros l lay El. specialize (Hg l). rewrite El in Hg.
    destruct (get_layer conv' l) as [lay'|]; [|discriminate].
    exists lay'. split; [reflexivity|]. simpl in Hg. congruence. }
  split.
  - destruct (G 0 l0 E0) as (l0' & E0' & G0). exists l0'. split; [exact E0'|].
    unfold geometry in G0. congruence.
  - intros l Hl. rewrite Hn in Hl.
    destruct (Hc l Hl) as (prev & lay & Ep & El & Hd).
    destruct (G _ _ Ep) as (prev' & Ep' & Gp).
    destruct (G _ _ El) as (lay' & El' & Gl).
    exists prev', lay'. split; [exact Ep'|]. split; [exact El'|].
    unfold geometry in Gp, Gl. congruence.
Qed.

(** ** Construction: geometry, depths and result codes *)

Lemma init_outcome_zero M k n iw ih id nf fw fiw thr conv conv' :
  init_outcome M k n iw ih id nf fw fiw thr conv 0 conv' ->
  (forall j, (j < 2 * Z.to_nat n + 2)%nat -> alloc_ok M (k + j) = true) /\
  constructed M k n iw ih id nf fw fiw thr conv conv'.
Proof.
  intros [(_ & H1 & H2)|[(E & _)|[(E & _)|[(E & _)|(E & _)]]]];
    [split; assumption | discriminate..].
Qed.

Lemma conv_init_constructed M k n iw ih id nf fw fiw fih thr conv conv' k' :
  iw <> 0 -> 0 < n <= Z.of_nat (length (conv_layers conv)) ->
  n <= Z.of_nat (length thr) ->
  conv_init M k n iw ih id nf fw fiw fih thr conv = Some (0, conv', k') ->
  constructed M k n iw ih id nf fw fiw thr conv conv'.
Proof.
  intros Hiw Hn Hthr E.
  destruct (conv_init_outcome M k n iw ih id nf fw fiw fih Hiw thr conv Hn Hthr)
    as (rc & c' & k1 & E' & Hout).
  rewrite E in E'. inversion E'; subst rc c' k1.
  apply init_outcome_zero in Hout. apply Hout.
Qed.

(** C3.  After a construction that returns zero, on an image that is
    more than 0 wide, the features of every layer are at least 3 wide.
    Layer [l] is
    [image_width - (image_width - final_image_width)*l/no_of_layers]
    wide, with a truncating division, where the product
    [(image_width - final_image_width)*l] is in the range of [int]; and
    its features are [feature_width*width/image_width] wide, or 3 when
    that is less, where the product [feature_width*width] is in the
    range of [int]. *)
Theorem conv_init_geometry (M : allocator) (k : nat)
    (no_of_layers_ image_width image_height image_depth : Z)
    (no_of_features_ feature_width_ final_image_width final_image_height : Z)
    (match_threshold_ : list float32) (conv conv' : deeplearn_conv) (k' : nat) :
  0 < image_width ->
  in_int image_width -> in_int final_image_width ->
  0 < no_of_layers_ <= Z.of_nat (length (conv_layers conv)) ->
  no_of_layers_ <= Z.of_nat (length match_threshold_) ->
  conv_init M k no_of_layers_ image_width image_height image_depth
    no_of_features_ feature_width_ final_image_width final_image_height
    match_threshold_ conv = Some (0, conv', k') ->
  forall l, 0 <= l < no_of_layers_ ->
    exists lay,
      get_layer conv' l = Some lay /\
      (3 <= feature_width lay) /\
      (in_int ((image_width - final_image_width) * l) ->
       width lay =
         image_width - ((image_width - final_image_width) * l) ÷ no_of_layers_) /\
      (in_int (feature_width_ * width lay) ->
       feature_width lay =
         Z.max 3 ((feature_width_ * width lay) ÷ image_width)).
Proof.
  intros Hpos Hi Hf Hn Hthr E l Hl.
  assert (Hiw : image_width <> 0) by lia.
  destruct (conv_init_constructed _ _ _ _ _ _ _ _ _ _ _ _ _ _ Hiw Hn Hthr E)
    as (_ & _ & Hset & _).
  eexists. split; [apply Hset; exact Hl|].
  unfold built_layer. cbn [width feature_width].
  split; [unfold int_feature_width; lia|]. split.
  - intros Hp. apply int_width_exact; assumption.
  - intros Hp. apply int_feature_width_exact; assumption.
Qed.

Lemma conv_init_geometry_witness :
  exists lay,
    get_layer tapering 1 = Some lay /\
    (3 <= feature_width lay) /\
    width lay = 32 - ((32 - 8) * 1) ÷ 3 /\
    feature_width lay = Z.max 3 ((16 * width lay) ÷ 32) /\
    width lay = 24 /\ feature_width lay = 12.
Proof.
  destruct (conv_init_geometry all_fit 0 3 32 24 1 2 16 8 8
              [f32_0_5; f32_0_5; f32_0_5]
              (set_conv_layers blank_conv [blank_layer; blank_layer; blank_layer])
              tapering 8)
    with (l := 1) as (lay & E & H3 & Hw & Hf);
    [lia | unfold in_int, int_min, int_max; lia
    | unfold in_int, int_min, int_max; lia | simpl; lia | simpl; lia
    | vm_compute; reflexivity | lia |].
  exists lay. split; [exact E|]. split; [exact H3|].
  assert (Ew : width lay = 32 - ((32 - 8) * 1) ÷ 3)
    by (apply Hw; unfold in_int, int_min, int_max; lia).
  assert (E24 : width lay = 24) by (rewrite Ew; reflexivity).
  assert (Efw : feature_width lay = Z.max 3 ((16 * width lay) ÷ 32))
    by (apply Hf; rewrite E24; unfold in_int, int_min, int_max; lia).
  split; [exact Ew|]. split; [exact Efw|]. split; [exact E24|].
  rewrite Efw, E24. reflexivity.
Defined.

(** Where a product leaves the range, the geometry is another one: on
    an image that is 65536 wide, with features of that width, the
    product [feature_width*width] is [2^32], which an [int] holds as 0,
    and the features of the layer are 3 wide; and a final width of 65536
    gives the outputs the size [2^32], that is 0. *)
Example conv_init_wraps :
  (feature_width <$>
     (conv_init all_fit 0 1 65536 1 1 1 65536 4 4 [f32_0_5] blank_conv
        ≫= fun r => get_layer (snd (fst r)) 0)) = Some 3 /\
  ((fun r => (fst (fst r), no_of_outputs (snd (fst r)),
              length (buf_of (outputs (snd (fst r)))))) <$>
     conv_init all_fit 0 1 4 4 1 1 3 65536 4 [f32_0_5] blank_conv)
  = Some (0, 0, 0%nat).
Proof. split; vm_compute; reflexivity. Qed.

(** C4.  After a construction that returns zero, layer 0 is as deep as
    the image and every other layer is as deep as the layer before it has
    features; feeding forward, learning, freeing, saving and loading, in
    any number and order, keep it so. *)
Theorem conv_depths_chain (M : allocator) (k : nat)
    (no_of_layers_ image_width image_height image_depth : Z)
    (no_of_features_ feature_width_ final_image_width final_image_height : Z)
    (match_threshold_ : list float32) (conv conv' : deeplearn_conv) (k' : nat) :
  image_width <> 0 ->
  0 < no_of_layers_ <= Z.of_nat (length (conv_layers conv)) ->
  no_of_layers_ <= Z.of_nat (length match_threshold_) ->
  conv_init M k no_of_layers_ image_width image_height image_depth
    no_of_features_ feature_width_ final_image_width final_image_height
    match_threshold_ conv = Some (0, conv', k') ->
  (exists l0, get_layer conv' 0 = Some l0 /\ depth l0 = image_depth) /\
  (forall l, 0 < l < no_of_layers_ ->
     exists prev lay,
       get_layer conv' (l - 1) = Some prev /\ get_layer conv' l = Some lay /\
       depth lay = no_of_features prev) /\
  (forall conv'', rtc later_operation conv' conv'' ->
     depths_chain image_depth conv'').
Proof.
  intros Hiw Hn Hthr E.
  destruct (conv_init_constructed _ _ _ _ _ _ _ _ _ _ _ _ _ _ Hiw Hn Hthr E)
    as (Ec & _ & Hset & _).
  assert (H0 : exists l0, get_layer conv' 0 = Some l0 /\ depth l0 = image_depth).
  { eexists. split; [apply Hset; lia | reflexivity]. }
  assert (Hc : forall l, 0 < l < no_of_layers_ ->
            exists prev lay,
              get_layer conv' (l - 1) = Some prev /\ get_layer conv' l = Some lay /\
              depth lay = no_of_features prev).
  { intros l Hl. eexists _, _.
    split; [apply Hset; lia|]. split; [apply Hset; lia|].
    unfold built_layer, layer_depth. simpl.
    destruct (Z.eqb_spec l 0); [lia | reflexivity]. }
  split; [exact H0|]. split; [exact Hc|].
  intros conv'' Hops.
  assert (D : depths_chain image_depth conv').
  { split; [exact H0|]. rewrite Ec. exact Hc. }
  clear -Hops D. induction Hops as [c|c1 c2 c3 H12 _ IH]; [exact D|].
  apply IH. eapply same_shape_depths_chain; [|exact D].
  apply later_operation_same_shape. exact H12.
Qed.

Lemma conv_depths_chain_witness :
  (exists l0, get_layer scenario 0 = Some l0 /\ depth l0 = 1) /\
  (forall l, 0 < l < 2 ->
     exists prev lay,
       get_layer scenario (l - 1) = Some prev /\ get_layer scenario l = Some lay /\
       depth lay = no_of_features prev) /\
  (forall conv'', rtc later_operation scenario conv'' -> depths_chain 1 conv'').
Proof.
  apply (conv_depths_chain all_fit 0 2 8 8 1 2 4 4 4 [f32_0_5; f32_0_5]
           blank_conv scenario 6);
    [lia | simpl; lia | simpl; lia | vm_compute; reflexivity].
Defined.

(** C5.  On a configuration for which it is defined, [conv_init] returns
    zero when all of its [2*no_of_layers + 2] allocations succeed, and
    only then; the thresholds of the caller have then been copied into a
    buffer of the network.  Otherwise it returns the code of the site of
    the first allocation that fails: 1 for the activation buffer of a
    layer, 2 for its feature bank, 3 for the outputs and 4 for the
    thresholds. *)
Theorem conv_init_result_codes (M : allocator) (k : nat)
    (no_of_layers_ image_width image_height image_depth : Z)
    (no_of_features_ feature_width_ final_image_width final_image_height : Z)
    (match_threshold_ : list float32) (conv : deeplearn_conv) :
  image_width <> 0 ->
  0 < no_of_layers_ <= Z.of_nat (length (conv_layers conv)) ->
  no_of_layers_ <= Z.of_nat (length match_threshold_) ->
  exists rc conv' k',
    conv_init M k no_of_layers_ image_width image_height image_depth
      no_of_features_ feature_width_ final_image_width final_image_height
      match_threshold_ conv = Some (rc, conv', k') /\
    ((rc = 0 /\
      (forall j, (j < 2 * Z.to_nat no_of_layers_ + 2)%nat ->
         alloc_ok M (k + j) = true) /\
      match_threshold conv' =
        Some (take (Z.to_nat no_of_layers_) match_threshold_)) \/
     (rc = 1 /\ exists l, 0 <= l < no_of_layers_ /\
        first_failure M k (2 * Z.to_nat l)) \/
     (rc = 2 /\ exists l, 0 <= l < no_of_layers_ /\
        first_failure M k (2 * Z.to_nat l + 1)) \/
     (rc = 3 /\ first_failure M k (2 * Z.to_nat no_of_layers_)) \/
     (rc = 4 /\ first_failure M k (2 * Z.to_nat no_of_layers_ + 1))) /\
    (rc = 0 <->
     forall j, (j < 2 * Z.to_nat no_of_layers_ + 2)%nat ->
       alloc_ok M (k + j) = true).
Proof.
  intros Hiw Hn Hthr.
  destruct (conv_init_outcome M k no_of_layers_ image_width image_height
              image_depth no_of_features_ feature_width_ final_image_width
              final_image_height Hiw match_threshold_ conv Hn Hthr)
    as (rc & conv' & k' & E & Hout).
  exists rc, conv', k'. split; [exact E|].
  assert (Hex : forall j, (j < 2 * Z.to_nat no_of_layers_ + 2)%nat ->
            first_failure M k j ->
            ~ (forall i, (i < 2 * Z.to_nat no_of_layers_ + 2)%nat ->
                 alloc_ok M (k + i) = true)).
  { intros j Hj (Hf & _) Hall. rewrite Hall in Hf by exact Hj. discriminate. }
  destruct Hout as [(-> & Hall & Hc)|[(-> & l & Hl & Hf)|[(-> & l & Hl & Hf)|
                    [(-> & Hf)|(-> & Hf)]]]].
  - split; [left; split; [reflexivity|]; split; [exact Hall|]|].
    + destruct Hc as (Ec & _). rewrite Ec. reflexivity.
    + split; [intros _; exact Hall | reflexivity].
  - split; [right; left; eauto|].
    split; [discriminate|]. intros Hall. exfalso.
    apply (Hex (2 * Z.to_nat l)%nat); [lia | exact Hf | exact Hall].
  - split; [right; right; left; eauto|].
    split; [discriminate|]. intros Hall. exfalso.
    apply (Hex (2 * Z.to_nat l + 1)%nat); [lia | exact Hf | exact Hall].
  - split; [right; right; right; left; eauto|].
    split; [discriminate|]. intros Hall. exfalso.
    apply (Hex (2 * Z.to_nat no_of_layers_)%nat); [lia | exact Hf | exact Hall].
  - split; [right; right; right; right; eauto|].
    split; [discriminate|]. intros Hall. exfalso.
    apply (Hex (2 * Z.to_nat no_of_layers_ + 1)%nat); [lia | exact Hf | exact Hall].
Qed.

Lemma conv_init_result_codes_witness :
  exists rc conv' k',
    conv_init (fails_at 2) 0 2 8 8 1 2 4 4 4 [f32_0_5; f32_0_5] blank_conv
      = Some (rc, conv', k') /\
    ((rc = 0 /\
      (forall j, (j < 2 * Z.to_nat 2 + 2)%nat ->
         alloc_ok (fails_at 2) (0 + j) = true) /\
      match_threshold conv' = Some (take (Z.to_nat 2) [f32_0_5; f32_0_5])) \/
     (rc = 1 /\ exists l, 0 <= l < 2 /\
        first_failure (fails_at 2) 0 (2 * Z.to_nat l)) \/
     (rc = 2 /\ exists l, 0 <= l < 2 /\
        first_failure (fails_at 2) 0 (2 * Z.to_nat l + 1)) \/
     (rc = 3 /\ first_failure (fails_at 2) 0 (2 * Z.to_nat 2)) \/
     (rc = 4 /\ first_failure (fails_at 2) 0 (2 * Z.to_nat 2 + 1))) /\
    (rc = 0 <->
     forall j, (j < 2 * Z.to_nat 2 + 2)%nat ->
       alloc_ok (fails_at 2) (0 + j) = true).
Proof.
  apply (conv_init_result_codes (fails_at 2) 0 2 8 8 1 2 4 4 4
           [f32_0_5; f32_0_5] blank_conv); [lia | simpl; lia | simpl; lia].
Defined.

(** The codes on the network of the scenario, for each of the six
    allocations of its construction. *)
Example conv_init_codes_scenario :
  map (fun j => fst <$> (fst <$>
         conv_init (fails_at j) 0 2 8 8 1 2 4 4 4 [f32_0_5; f32_0_5] blank_conv))
      [0; 1; 2; 3; 4; 5; 6]%nat
  = [Some 1; Some 2; Some 1; Some 2; Some 3; Some 4; Some 0].
Proof. vm_compute. reflexivity. Qed.

(** ** The networks that [conv_init] builds *)





Lemma interpolated_width_pos image_width final_image_width n l :
  0 < image_width -> 0 < final_image_width -> 0 <= l < n ->
  0 < interpolated_width image_width final_image_width n l.
Proof.
  intros Hi Hf Hl. unfold interpolated_width.
  destruct (Z_le_gt_dec final_image_width image_width) as [Hle|Hgt].
  - rewrite Z.quot_div_nonneg by nia.
    assert ((image_width - final_image_width) * l / n
            <= image_width - final_image_width)
      by (apply Z.div_le_upper_bound; nia).
    lia.
  - assert ((image_width - final_image_width) * l ÷ n <= 0 ÷ n)
      by (apply Z.quot_le_mono; nia).
    rewrite Z.quot_0_l in H by lia. lia.
Qed.

Lemma in_intb_spec z : in_intb z = true -> in_int z.
Proof.
  unfold in_intb, in_int. rewrite andb_true_iff, !Z.leb_le. tauto.
Qed.

Lemma sizes_in_intb_spec n iw ih id nf fw fiw :
  sizes_in_intb n iw ih id nf fw fiw = true ->
  in_int iw /\ in_int ih /\ in_int fiw /\
  (forall l, 0 <= l < n -> layer_in_intb n iw ih id nf fw fiw l = true) /\
  in_int (fiw * fiw * layer_depth id nf (n - 1)).
Proof.
  unfold sizes_in_intb. rewrite !andb_true_iff.
  intros ((((H1 & H2) & H3) & H4) & H5).
  split; [apply in_intb_spec; exact H1|].
  split; [apply in_intb_spec; exact H2|].
  split; [apply in_intb_spec; exact H3|].
  split; [|apply in_intb_spec; exact H5].
  intros l Hl. rewrite forallb_forall in H4.
  replace l with (Z.of_nat (Z.to_nat l)) by lia.
  apply H4. apply in_seq. lia.
Qed.

(** Where the sizes are in the range of [int], a layer is built with the
    widths of the specification, and its buffers have the sizes that
    are their products. *)
Lemma built_layer_exact M k n iw ih id nf fw fiw l :
  0 < iw -> in_int iw -> in_int ih -> in_int fiw -> 0 <= l < n ->
  layer_in_intb n iw ih id nf fw fiw l = true ->
  built_layer M k n iw ih id nf fw fiw l
  = mk_layer (interpolated_width iw fiw n l) (layer_height iw ih fiw n l)
      (layer_depth id nf l) nf
      (scaled_feature_width fw iw (interpolated_width iw fiw n l))
      (FLOATALLOC M (k + 2 * Z.to_nat l)
         (interpolated_width iw fiw n l * layer_height iw ih fiw n l
          * layer_depth id nf l))
      (FLOATALLOC M (k + 2 * Z.to_nat l + 1)
         (nf * scaled_feature_width fw iw (interpolated_width iw fiw n l)
          * scaled_feature_width fw iw (interpolated_width iw fiw n l)
          * layer_depth id nf l)).
Proof.
  intros Hpos Hi Hh Hf Hl Hr. unfold layer_in_intb in Hr. cbv zeta in Hr.
  rewrite !andb_true_iff in Hr. destruct Hr as (((R1 & R2) & R3) & R4).
  apply in_intb_spec in R1, R2, R3, R4.
  unfold built_layer. cbv zeta.
  rewrite int_mul_3, int_mul_4.
  assert (Ew : int_width iw fiw n l = interpolated_width iw fiw n l)
    by (apply int_width_exact; assumption).
  rewrite Ew.
  assert (Eh : int_height iw ih fiw n l = layer_height iw ih fiw n l).
  { unfold int_height, layer_height. rewrite Ew.
    destruct (l =? 0); [apply to_int_id; exact Hh | reflexivity]. }
  rewrite Eh.
  rewrite (int_feature_width_exact fw iw _ Hpos R2).
  rewrite (to_int_id _ R3), (to_int_id _ R4). reflexivity.
Qed.


(** C8.  A forward pass is to write the activation buffers of the layers
    up to [layer], and the outputs when [layer] is [no_of_layers], and
    nothing else.  On a network of one layer the code does not keep to
    that: [conv_init] gives the outputs room for
    [final_image_width^2 * image_depth] numbers, 16 here, and the
    convolution of the last layer writes
    [outputs_width^2 * no_of_features] numbers, 32 here, the size that
    the documentation of [convolve_image] asks of its output.  With more
    features than the image has channels the pass writes past the end of
    the outputs, and C gives it no meaning. *)
Lemma conv_feed_forward_single_layer_undefined :
  conv_init all_fit 0 1 8 8 1 2 4 4 4 [f32_0_5] blank_conv
    = Some (0, single_layer, 4%nat) /\
  no_of_layers single_layer = 1 /\
  no_of_outputs single_layer = 16 /\
  length (buf_of (outputs single_layer)) = 16%nat /\
  (no_of_features <$> get_layer single_layer 0) = Some 2 /\
  outputs_width single_layer * outputs_width single_layer * 2 = 32 /\
  layers_okb single_layer = true /\
  outputs_okb single_layer = false /\
  conv_feed_forward image_of_zeros single_layer 1 = None.
Proof. repeat split; vm_compute; reflexivity. Qed.

(** ** The scenario of the specification *)

(** C7, as amended.  The network of the scenario is the one that
    [conv_init] builds, and its feature banks hold [0.0].  After a
    forward pass of the image of zeros, through one layer or two, every
    similarity of the first convolution, the 72 numbers of the activation
    buffer of layer 1, is exactly [1.0]; after a forward pass of the
    image of 255, every one is exactly [0.0].  The second convolution of
    a pass through two layers compares these with a bank of zeros: the
    32 outputs are exactly [0.0] for the image of zeros and [1.0] for the
    image of 255. *)
Theorem scenario_similarities :
  conv_init all_fit 0 2 8 8 1 2 4 4 4 [f32_0_5; f32_0_5] blank_conv
    = Some (0, scenario, 6%nat) /\
  feature <$> get_layer scenario 0 = Some (Some (repeat F32.zero 32)) /\
  feature <$> get_layer scenario 1 = Some (Some (repeat F32.zero 36)) /\
  (forall layer_, layer_ = 1 \/ layer_ = 2 ->
     (exists conv',
        conv_feed_forward image_of_zeros scenario layer_ = Some conv' /\
        layer <$> get_layer conv' 1 = Some (Some (repeat F32.one 72))) /\
     (exists conv',
        conv_feed_forward image_of_255 scenario layer_ = Some conv' /\
        layer <$> get_layer conv' 1 = Some (Some (repeat F32.zero 72)))) /\
  (exists conv',
     conv_feed_forward image_of_zeros scenario 2 = Some conv' /\
     outputs conv' = Some (repeat F32.zero 32)) /\
  (exists conv',
     conv_feed_forward image_of_255 scenario 2 = Some conv' /\
     outputs conv' = Some (repeat F32.one 32)).
Proof.
  split; [vm_compute; reflexivity|].
  split; [vm_compute; reflexivity|].
  split; [vm_compute; reflexivity|].
  split.
  - intros layer_ [->| ->]; split; eexists;
      (split; [vm_compute; reflexivity | vm_compute; reflexivity]).
  - split; eexists; (split; [vm_compute; reflexivity | vm_compute; reflexivity]).
Qed.

Lemma scenario_similarities_witness :
  (exists conv',
     conv_feed_forward image_of_zeros scenario 1 = Some conv' /\
     layer <$> get_layer conv' 1 = Some (Some (repeat F32.one 72))) /\
  (exists conv',
     conv_feed_forward image_of_255 scenario 1 = Some conv' /\
     layer <$> get_layer conv' 1 = Some (Some (repeat F32.zero 72))).
Proof.
  destruct scenario_similarities as (_ & _ & _ & H & _).
  apply (H 1). left. reflexivity.
Defined.

(** C7, as the specification states it, fails on the pipeline of the
    scenario: in a forward pass through both layers, the similarities
    that the second convolution writes to the outputs are [0.0], not
    [1.0], for the image of zeros, and [1.0], not [0.0], for the image of
    255. *)
Lemma scenario_outputs_counterexample :
  (exists conv' x,
     conv_feed_forward image_of_zeros scenario 2 = Some conv' /\
     rd (buf_of (outputs scenario)) 0 = Some S754_nan /\
     rd (buf_of (outputs conv')) 0 = Some x /\ x <> F32.one) /\
  (exists conv' x,
     conv_feed_forward image_of_255 scenario 2 = Some conv' /\
     rd (buf_of (outputs conv')) 0 = Some x /\ x <> F32.zero).
Proof.
  split; eexists _, _.
  - split; [vm_compute; reflexivity|]. split; [vm_compute; reflexivity|].
    split; [vm_compute; reflexivity|]. vm_compute. discriminate.
  - split; [vm_compute; reflexivity|].
    split; [vm_compute; reflexivity|]. vm_compute. discriminate.
Qed.

(** ** The training step *)

(** The loop over the samples: the scores of the calls are added to the
    running score in the order of the calls; the loop changes the feature
    bank of the layer and the counter of iterations, and nothing else. *)
Lemma learn_loop (learn_features : learner) (layer_ samples : Z) (n : nat) :
  forall ms c fs seed cur,
    get_layer c layer_ = Some cur ->
    exists c' fs' seed' p',
      countdown_loop n
        (fun _ st => learn_sample learn_features layer_ samples st)
        (ms, c, fs, seed)
      = Some (fold_left F32.add
                (learner_scores learn_features n (buf_of (layer cur))
                   (width cur) (height cur) (depth cur)
                   (feature_width cur) (no_of_features cur)
                   (feature cur) fs samples (learning_rate c) seed) ms,
              c', fs', seed') /\
      c' = set_itterations (set_conv_layers c (conv_layers c'))
             (itterations c + Z.of_nat n) /\
      get_layer c' layer_ = Some (set_feature_buf cur p').
Proof.
  induction n as [|n IH]; intros ms c fs seed cur Ec.
  - exists c, fs, seed, (feature cur). split; [reflexivity|]. split.
    + destruct c; unfold set_itterations, set_conv_layers; simpl.
      rewrite Z.add_0_r. reflexivity.
    + rewrite Ec. destruct cur; reflexivity.
  - cbn [countdown_loop learner_scores]. unfold learn_sample at 1.
    rewrite Ec. cbn [mbind option_bind].
    destruct (learn_features (buf_of (layer cur)) (width cur) (height cur)
                (depth cur) (feature_width cur) (no_of_features cur)
                (buf_of (feature cur)) fs samples (learning_rate c) seed)
      as [[[r f'] fs1] sd1] eqn:Elf.
    pose proof (get_layer_bounds _ _ _ Ec) as Hb.
    rewrite put_layer_Some by exact Hb. cbn [mbind option_bind].
    set (cur1 := set_feature_buf cur (store_buf (feature cur) f')).
    set (c1 := set_itterations
                 (set_conv_layers c (<[Z.to_nat layer_ := cur1]> (conv_layers c)))
                 (itterations _ + 1)).
    destruct (IH (F32.add ms r) c1 fs1 sd1 cur1) as (c' & fs' & seed' & p' & E & Hc & Hg).
    { unfold c1, get_layer. simpl. apply rd_insert_eq. exact Hb. }
    exists c', fs', seed', p'. split; [exact E|]. split.
    + rewrite Hc at 1. unfold c1, set_itterations, set_conv_layers. simpl.
      f_equal. lia.
    + rewrite Hg. reflexivity.
Qed.



Lemma conv_learn_runs (M : allocator) (learn_features : learner) (k : nat)
    (img : list byte) (conv : deeplearn_conv) (samples seed : Z) :
  layers_okb conv = true ->
  image_size conv <= Z.of_nat (length img) ->
  0 <= current_layer conv < no_of_layers conv ->
  no_of_layers conv <= Z.of_nat (length (buf_of (match_threshold conv))) ->
  alloc_ok M k = true ->
  exists conv1 cur feature_score thr score conv' seed',
    conv_feed_forward img conv (current_layer conv) = Some conv1 /\
    get_layer conv1 (current_layer conv) = Some cur /\
    FLOATALLOC M k (no_of_features cur) = Some feature_score /\
    rd (buf_of (match_threshold conv)) (current_layer conv) = Some thr /\
    conv_learn M learn_features k img conv samples seed
      = Some (score, conv', seed', S k) /\
    score = accumulate
              (learner_scores learn_features (Z.to_nat samples)
                 (buf_of (layer cur)) (width cur) (height cur) (depth cur)
                 (feature_width cur) (no_of_features cur) (feature cur)
                 feature_score samples (learning_rate conv) seed) /\
    current_layer conv' =
      (if F32.ltb score thr then current_layer conv + 1 else current_layer conv).
Proof.
  intros Hokb Himg Hcl Hthr Hal. pose proof (layers_okb_ok _ Hokb) as Hok.
  assert (Hno : current_layer conv = no_of_layers conv -> outputs_ok conv)
    by (intros Heq; lia).
  destruct (conv_feed_forward_fed img conv (current_layer conv) Hok Hno Himg)
    as (c1 & E1 & Hok1 & Hfed); [lia|].
  destruct (fed_forward_fields _ _ _ _ Hfed) as (En1 & _).
  pose proof Hok1 as (_ & Hl1 & _). rewrite En1 in Hl1.
  destruct (Hl1 (current_layer conv) Hcl) as (cur & Ecur & _).
  pose proof Hfed as (Ec1 & _ & Hsame & _).
  destruct (Hsame _ _ Ecur) as (cur0 & Ecur0 & Hs).
  assert (Enf : no_of_features cur0 = no_of_features cur).
  { unfold same_layer_but_activation in Hs. rewrite Hs. reflexivity. }
  destruct (FLOATALLOC_ok M k (no_of_features cur) Hal) as (fs & Efs & _).
  destruct (rd_is_Some (buf_of (match_threshold conv)) (current_layer conv))
    as (thr & Ethr); [lia|].
  destruct (learn_loop learn_features (current_layer conv) samples
              (Z.to_nat samples) (F32.of_Z 0) c1 fs seed cur Ecur)
    as (c2 & fs2 & seed2 & p2 & E2 & Hc2 & _).
  assert (Er1 : learning_rate c1 = learning_rate conv) by (rewrite Ec1; reflexivity).
  assert (Et2 : match_threshold c2 = match_threshold conv).
  { rewrite Hc2, Ec1. reflexivity. }
  assert (El2 : current_layer c2 = current_layer conv).
  { rewrite Hc2, Ec1. reflexivity. }
  rewrite Er1 in E2.
  eexists c1, cur, fs, thr, _, _, seed2.
  split; [exact E1|]. split; [exact Ecur|]. split; [exact Efs|].
  split; [exact Ethr|].
  assert (Erun : conv_learn M learn_features k img conv samples seed =
            Some (accumulate
                    (learner_scores learn_features (Z.to_nat samples)
                       (buf_of (layer cur)) (width cur) (height cur) (depth cur)
                       (feature_width cur) (no_of_features cur) (feature cur)
                       fs samples (learning_rate conv) seed),
                  (if F32.ltb
                        (accumulate
                           (learner_scores learn_features (Z.to_nat samples)
                              (buf_of (layer cur)) (width cur) (height cur)
                              (depth cur) (feature_width cur)
                              (no_of_features cur) (feature cur)
                              fs samples (learning_rate conv) seed)) thr
                   then set_current_layer c2 (current_layer c2 + 1) else c2),
                  seed2, S k)).
  { unfold conv_learn.
    destruct (Z.geb_spec (current_layer conv) (no_of_layers conv)); [lia|].
    rewrite Ecur0. cbn [mbind option_bind]. rewrite Enf, Efs, E1.
    cbn [mbind option_bind]. unfold COUNTDOWN. rewrite E2.
    cbn [mbind option_bind]. rewrite Et2, Ethr. cbn [mbind option_bind].
    reflexivity. }
  split; [exact Erun|]. split; [reflexivity|].
  destruct (F32.ltb _ thr); simpl; lia.
Qed.

(** C6.  In the terminal state the training step returns [0.0] at once:
    the network, the seed and the number of allocations are what they
    were. *)
Theorem conv_learn_terminal (M : allocator) (learn_features : learner)
    (k : nat) (img : list byte) (conv : deeplearn_conv) (samples seed : Z) :
  no_of_layers conv <= current_layer conv ->
  conv_learn M learn_features k img conv samples seed
  = Some (F32.zero, conv, seed, k).
Proof.
  intros H. unfold conv_learn.
  destruct (Z.geb_spec (current_layer conv) (no_of_layers conv)); [|lia].
  reflexivity.
Qed.

Lemma conv_learn_terminal_witness :
  conv_learn all_fit (stub f32_0_1) 6 image_of_255
    (set_current_layer scenario 2) 10 7
  = Some (F32.zero, set_current_layer scenario 2, 7, 6%nat).
Proof.
  apply (conv_learn_terminal all_fit (stub f32_0_1) 6 image_of_255
           (set_current_layer scenario 2) 10 7).
  vm_compute. discriminate.
Defined.




(** C9, as amended.  A training step leaves the error history as it
    was: whenever it returns, [history], [history_step] and
    [history_index] are the ones of the call; and on a network whose
    layers fit their geometry it does return, in the terminal state, when
    the scratch buffer cannot be allocated, and after learning. *)
Theorem conv_learn_keeps_history (M : allocator) (learn_features : learner)
    (k : nat) (img : list byte) (conv : deeplearn_conv) (samples seed : Z) :
  (forall score conv' seed' k',
     conv_learn M learn_features k img conv samples seed
       = Some (score, conv', seed', k') ->
     history conv' = history conv /\
     history_index conv' = history_index conv /\
     history_step conv' = history_step conv) /\
  (layers_okb conv = true ->
   image_size conv <= Z.of_nat (length img) ->
   0 <= current_layer conv ->
   no_of_layers conv <= Z.of_nat (length (buf_of (match_threshold conv))) ->
   exists score conv' seed' k',
     conv_learn M learn_features k img conv samples seed
       = Some (score, conv', seed', k') /\
     history conv' = history conv /\
     history_index conv' = history_index conv /\
     history_step conv' = history_step conv).
Proof.
  assert (Hkeep : forall score conv' seed' k',
            conv_learn M learn_features k img conv samples seed
              = Some (score, conv', seed', k') ->
            history conv' = history conv /\
            history_index conv' = history_index conv /\
            history_step conv' = history_step conv).
  { intros score conv' seed' k' E.
    apply conv_learn_same_shape in E as (_ & _ & H). exact H. }
  split; [exact Hkeep|].
  intros Hokb Himg Hcl Hthr.
  assert (Hret : exists r, conv_learn M learn_features k img conv samples seed
                           = Some r).
  { destruct (Z.ltb_spec (current_layer conv) (no_of_layers conv)) as [Hlt|Hge].
    - destruct (alloc_ok M k) eqn:Hal.
      + destruct (conv_learn_runs M learn_features k img conv samples seed
                    Hokb Himg (conj Hcl Hlt) Hthr Hal)
          as (_ & _ & _ & _ & score & conv' & seed' & _ & _ & _ & _ & E & _).
        eexists. exact E.
      + pose proof (layers_okb_ok _ Hokb) as (_ & Hl & _).
        destruct (Hl (current_layer conv) (conj Hcl Hlt)) as (cur & Ec & _).
        unfold conv_learn.
        destruct (Z.geb_spec (current_layer conv) (no_of_layers conv)); [lia|].
        rewrite Ec. cbn [mbind option_bind]. unfold FLOATALLOC. rewrite Hal.
        eexists. reflexivity.
    - unfold conv_learn.
      destruct (Z.geb_spec (current_layer conv) (no_of_layers conv)); [|lia].
      eexists. reflexivity. }
  destruct Hret as ([[[score conv'] seed'] k'] & E).
  exists score, conv', seed', k'. split; [exact E|].
  apply (Hkeep _ _ _ _ E).
Qed.

Lemma conv_learn_keeps_history_witness :
  exists score conv' seed' k',
    conv_learn all_fit (stub f32_0_1) 6 image_of_zeros scenario 3 0
      = Some (score, conv', seed', k') /\
    history conv' = history scenario /\
    history_index conv' = history_index scenario /\
    history_step conv' = history_step scenario.
Proof.
  apply (conv_learn_keeps_history all_fit (stub f32_0_1) 6 image_of_zeros
           scenario 3 0);
    [reflexivity | vm_compute; discriminate | vm_compute; discriminate
    | vm_compute; discriminate].
Defined.

(** C9, as the specification states it, fails: a training step on the
    first layer of the scenario, whose scratch buffer is allocated and
    which advances to the next layer, appends nothing to the history. *)
Lemma conv_learn_history_counterexample :
  exists score conv' seed' k',
    current_layer scenario < no_of_layers scenario /\
    alloc_ok all_fit 6 = true /\
    conv_learn all_fit (stub f32_0_1) 6 image_of_zeros scenario 3 0
      = Some (score, conv', seed', k') /\
    current_layer conv' = 1 /\
    itterations conv' = 3 /\
    history conv' = history scenario /\
    length (history conv') = length (history scenario) /\
    history_index conv' = history_index scenario /\
    history_step conv' = history_step scenario.
Proof.
  eexists _, _, _, _. split; [vm_compute; reflexivity|].
  split; [reflexivity|]. split; [vm_compute; reflexivity|].
  repeat split; vm_compute; reflexivity.
Qed.

(** * Further properties *)

(** ** The convolution engine: cells *)




Section ConvolveCells.

Variables (img feature : list float32).
Variables (img_width img_height img_depth : Z).
Variables (feature_width_ no_of_features_ layer_width : Z).

Hypothesis img_width_pos : 0 < img_width.
Hypothesis img_height_pos : 0 < img_height.
Hypothesis img_size :
  img_width * img_height * img_depth <= Z.of_nat (length img).
Hypothesis feature_size :
  no_of_features_ * feature_width_ * feature_width_ * img_depth
    <= Z.of_nat (length feature).
Hypothesis layer_width_nonneg : 0 <= layer_width.
Hypothesis no_of_features_nonneg : 0 <= no_of_features_.

(** The output of [convolve_image], entry by entry. *)
Lemma convolve_image_cells (layer_ : list float32) :
  layer_width * layer_width * no_of_features_ <= Z.of_nat (length layer_) ->
  exists out,
    convolve_image img img_width img_height img_depth feature_width_
      no_of_features_ feature layer_ layer_width = Some out /\
    length out = length layer_ /\
    (forall layer_y layer_x f,
       0 <= layer_y < layer_width -> 0 <= layer_x < layer_width ->
       0 <= f < no_of_features_ ->
       exists v,
         similarity img img_width img_height img_depth feature_width_
           feature layer_width layer_y layer_x f = Some v /\
         rd out (output_index layer_width no_of_features_ layer_y layer_x f)
           = Some v) /\
    (forall j, ~ (0 <= j < layer_width * layer_width * no_of_features_) ->
       rd out j = rd layer_ j).
Proof.
  intros Hout.
  destruct (convolve_image_blocks img feature img_width img_height img_depth
              feature_width_ no_of_features_ layer_width img_width_pos
              img_height_pos img_size feature_size layer_width_nonneg
              no_of_features_nonneg layer_ Hout) as (out & E & L & W & F).
  exists out. split; [exact E|]. split; [exact L|]. split; [|exact F].
  intros y x f Hy Hx Hf.
  destruct (W (output_index layer_width no_of_features_ y x f))
    as (v & Ev & y' & x' & f' & Hy' & Hx' & Hf' & Ei & Es).
  { unfold output_index.
    assert (0 <= y * layer_width + x <= layer_width * layer_width - 1) by nia.
    nia. }
  apply output_index_inj in Ei as (-> & -> & ->); try lia.
  exists v. split; [exact Es | exact Ev].
Qed.


End ConvolveCells.



(** ** The convolution engine: what a cell depends on *)






(** ** The convolution engine: degenerate geometries *)

Lemma countdown_loop_skip {St : Type} (body : Z -> St -> option St) n s :
  (forall i, 0 <= i < Z.of_nat n -> body i s = Some s) ->
  countdown_loop n body s = Some s.
Proof.
  induction n as [|n IH]; intros H; [reflexivity|].
  simpl. rewrite H by lia. apply IH. intros i Hi. apply H. lia.
Qed.

Lemma patch_positions_no_width img_depth : patch_positions 0 img_depth = [].
Proof. reflexivity. Qed.

(** X3.  Without cells, or without features, [convolve_image] reads
    nothing and writes nothing: it returns the output buffer as it was,
    whatever the buffers are. *)
Theorem convolve_image_nothing_to_write
    (img feature layer_ : list float32)
    (img_width img_height img_depth : Z)
    (feature_width_ no_of_features_ layer_width : Z) :
  layer_width <= 0 \/ no_of_features_ <= 0 ->
  convolve_image img img_width img_height img_depth feature_width_
    no_of_features_ feature layer_ layer_width = Some layer_.
Proof.
  intros [Hlw|Hnf]; unfold convolve_image, COUNTDOWN.
  - replace (Z.to_nat layer_width) with O by lia. reflexivity.
  - replace (Z.to_nat no_of_features_) with O by lia.
    apply countdown_loop_skip. intros y _.
    apply countdown_loop_skip. intros x _. reflexivity.
Qed.

Lemma convolve_image_nothing_to_write_witness :
  convolve_image [] 8 8 1 4 0 [] [F32.one; F32.one] 4
  = Some [F32.one; F32.one].
Proof.
  apply (convolve_image_nothing_to_write [] [] [F32.one; F32.one] 8 8 1 4 0 4).
  right. lia.
Defined.

(** X4.  With patches that hold no value, because the features are 0
    wide or the source has no channel, the sum of a cell is [0.0] and the
    reciprocal is that of zero: every similarity that is written is a
    NaN. *)
Theorem convolve_image_empty_patch
    (img feature layer_ : list float32)
    (img_width img_height img_depth : Z)
    (feature_width_ no_of_features_ layer_width : Z) :
  0 < img_width -> 0 < img_height ->
  img_width * img_height * img_depth <= Z.of_nat (length img) ->
  0 <= layer_width -> 0 <= no_of_features_ ->
  layer_width * layer_width * no_of_features_ <= Z.of_nat (length layer_) ->
  feature_width_ = 0 \/ img_depth = 0 ->
  exists out,
    convolve_image img img_width img_height img_depth feature_width_
      no_of_features_ feature layer_ layer_width = Some out /\
    forall layer_y layer_x f,
      0 <= layer_y < layer_width -> 0 <= layer_x < layer_width ->
      0 <= f < no_of_features_ ->
      rd out (((layer_y * layer_width) + layer_x) * no_of_features_ + f)
        = Some S754_nan.
Proof.
  intros Hw Hh Himg Hlw Hnf Hout Hempty.
  assert (Hfeat : no_of_features_ * feature_width_ * feature_width_ * img_depth
                  <= Z.of_nat (length feature)) by (destruct Hempty; subst; lia).
  destruct (convolve_image_cells img feature img_width img_height img_depth
              feature_width_ no_of_features_ layer_width Hw Hh Himg Hfeat
              Hlw Hnf layer_ Hout) as (out & E & _ & C & _).
  exists out. split; [exact E|]. intros y x f Hy Hx Hf.
  destruct (C y x f Hy Hx Hf) as (v & S1 & R1).
  unfold output_index in R1. rewrite R1. f_equal.
  unfold similarity, sum_squared_differences in S1.
  assert (Hp : patch_positions feature_width_ img_depth = []).
  { destruct Hempty as [-> | ->];
      [apply patch_positions_no_width | apply patch_positions_no_depth; lia]. }
  rewrite Hp in S1. cbn [fold_opt mbind option_bind] in S1.
  replace (feature_width_ * feature_width_ * img_depth) with 0 in S1
    by (destruct Hempty; subst; lia).
  inversion S1. reflexivity.
Qed.

Lemma convolve_image_empty_patch_witness :
  exists out,
    convolve_image [] 1 1 0 3 1 [] [F32.zero] 1 = Some out /\
    forall layer_y layer_x f,
      0 <= layer_y < 1 -> 0 <= layer_x < 1 -> 0 <= f < 1 ->
      rd out (((layer_y * 1) + layer_x) * 1 + f) = Some S754_nan.
Proof.
  apply (convolve_image_empty_patch [] [] [F32.zero] 1 1 0 3 1 1);
    simpl; lia.
Defined.

(** ** Single precision: numbers that stay finite *)









(** ** Single precision: operations that give no NaN *)












(** ** The convolution engine: finite inputs *)






(** ** The feed-forward pipeline: the image *)








(** X6.  A forward pass through no layer, as the training step makes on
    the first layer, only loads the image: the activation buffer of layer
    0 holds the normalised bytes, and the other layers, the outputs and
    every other field of the network are as they were. *)
Theorem conv_feed_forward_no_layer (img : list byte) (conv : deeplearn_conv)
    (layer_ : Z) :
  layers_okb conv = true ->
  image_size conv <= Z.of_nat (length img) ->
  layer_ <= 0 ->
  exists conv' l0 l0',
    conv_feed_forward img conv layer_ = Some conv' /\
    conv' = set_conv_layers conv (conv_layers conv') /\
    get_layer conv 0 = Some l0 /\
    get_layer conv' 0 = Some l0' /\
    l0' = set_layer_buf l0 (layer l0') /\
    (forall i, 0 <= i < image_size conv ->
       rd (buf_of (layer l0')) i = normalised <$> rd img i) /\
    (forall l, l <> 0 -> get_layer conv' l = get_layer conv l).
Proof.
  intros Hokb Himg HL. pose proof (layers_okb_ok _ Hokb) as Hok.
  assert (E0 : conv_feed_forward img conv layer_ = conv_feed_forward img conv 0).
  { unfold conv_feed_forward, COUNTUP.
    replace (Z.to_nat layer_) with (Z.to_nat 0) by lia. reflexivity. }
  destruct (conv_feed_forward_fed img conv 0 Hok) as (conv' & E & _ & F);
    [destruct Hok; lia | exact Himg | destruct Hok; lia |].
  destruct F as (Ec & Hlen & Hsame & (l0' & El0' & Hload) & _ & _ & Hout & Hrest).
  destruct (Hsame 0 l0' El0') as (l0 & El0 & Hs).
  exists conv', l0, l0'. rewrite E0. split; [exact E|].
  split.
  { rewrite Ec at 1. rewrite Hout by (destruct Hok; lia).
    destruct conv; reflexivity. }
  split; [exact El0|]. split; [exact El0'|]. split; [exact Hs|]. split.
  - intros i Hi. apply Hload. unfold image_size in Hi. rewrite El0 in Hi.
    unfold same_layer_but_activation in Hs. rewrite Hs. exact Hi.
  - intros l Hl. destruct (Z_lt_dec 0 l) as [Hpos|Hneg]; [apply Hrest; lia|].
    unfold get_layer, rd. destruct (Z.ltb_spec l 0); [reflexivity | lia].
Qed.

Lemma conv_feed_forward_no_layer_witness :
  exists conv' l0 l0',
    conv_feed_forward image_of_255 scenario 0 = Some conv' /\
    conv' = set_conv_layers scenario (conv_layers conv') /\
    get_layer scenario 0 = Some l0 /\
    get_layer conv' 0 = Some l0' /\
    l0' = set_layer_buf l0 (layer l0') /\
    (forall i, 0 <= i < image_size scenario ->
       rd (buf_of (layer l0')) i = normalised <$> rd image_of_255 i) /\
    (forall l, l <> 0 -> get_layer conv' l = get_layer scenario l).
Proof.
  apply (conv_feed_forward_no_layer image_of_255 scenario 0);
    [reflexivity | vm_compute; discriminate | lia].
Defined.

Lemma countdown_loop_ext_in {St : Type} (f g : Z -> St -> option St) n :
  (forall i s, 0 <= i < Z.of_nat n -> f i s = g i s) ->
  forall s, countdown_loop n f s = countdown_loop n g s.
Proof.
  induction n as [|n IH]; intros H s; [reflexivity|].
  simpl. rewrite (H (Z.of_nat n) s) by lia.
  destruct (g (Z.of_nat n) s); [|reflexivity].
  apply IH. intros i t Hi. apply H. lia.
Qed.

(** X7.  A forward pass reads the first [width*height*depth] bytes of
    the image, for the geometry of layer 0, and no other: two images that
    agree on these bytes give the same result, on any network. *)
Theorem conv_feed_forward_reads_prefix (img img' : list byte)
    (conv : deeplearn_conv) (layer_ : Z) :
  (forall i, 0 <= i < image_size conv -> rd img i = rd img' i) ->
  conv_feed_forward img conv layer_ = conv_feed_forward img' conv layer_.
Proof.
  intros H. unfold conv_feed_forward, image_size in *.
  destruct (get_layer conv 0) as [l0|]; [|reflexivity].
  cbn [mbind option_bind]. unfold COUNTDOWN.
  rewrite (countdown_loop_ext_in
             (fun i b => x ← rd img i;
                wr b i (F32.div (f32_of_byte x) (F32.of_Z 255)))
             (fun i b => x ← rd img' i;
                wr b i (F32.div (f32_of_byte x) (F32.of_Z 255)))).
  - reflexivity.
  - intros i s Hi. rewrite H by lia. reflexivity.
Qed.

Lemma conv_feed_forward_reads_prefix_witness :
  conv_feed_forward image_of_zeros scenario 2
  = conv_feed_forward (image_of_zeros ++ [xff; xff]) scenario 2.
Proof.
  apply (conv_feed_forward_reads_prefix image_of_zeros
           (image_of_zeros ++ [xff; xff]) scenario 2).
  intros i Hi. change (image_size scenario) with 64 in Hi.
  rewrite !rd_lookup by lia. symmetry. apply lookup_app_l.
  change (length image_of_zeros) with 64%nat. lia.
Defined.

(** ** The feed-forward pipeline: a second pass *)









(** ** The training step: the state that it leaves *)

Lemma set_feature_buf_twice lay p q :
  set_feature_buf (set_feature_buf lay p) q = set_feature_buf lay q.
Proof. reflexivity. Qed.












(** X12.  When the scratch buffer of scores cannot be allocated, the
    training step returns [-1.0] before anything is done: there is no
    forward pass, the learner is not called, and the network and the seed
    are as they were. *)
Theorem conv_learn_allocation_failure (M : allocator)
    (learn_features : learner) (k : nat) (img : list byte)
    (conv : deeplearn_conv) (samples seed : Z) :
  0 <= current_layer conv < no_of_layers conv ->
  no_of_layers conv <= Z.of_nat (length (conv_layers conv)) ->
  alloc_ok M k = false ->
  conv_learn M learn_features k img conv samples seed
  = Some (S754_finite true 8388608 (-23), conv, seed, S k).
Proof.
  intros Hcl Hn Hal. unfold conv_learn.
  destruct (Z.geb_spec (current_layer conv) (no_of_layers conv)); [lia|].
  destruct (rd_is_Some (conv_layers conv) (current_layer conv)) as [cur Ec];
    [lia|].
  unfold get_layer. rewrite Ec. cbn [mbind option_bind].
  unfold FLOATALLOC. rewrite Hal. reflexivity.
Qed.

Lemma conv_learn_allocation_failure_witness :
  conv_learn (fails_at 6) (stub f32_0_1) 6 [] scenario 3 0
  = Some (S754_finite true 8388608 (-23), scenario, 0, 7%nat).
Proof.
  apply (conv_learn_allocation_failure (fails_at 6) (stub f32_0_1) 6 []
           scenario 3 0);
    [split; vm_compute; [discriminate | reflexivity]
    | vm_compute; discriminate | reflexivity].
Defined.

(** ** The training step: steps that follow each other *)





(** ** Construction: the network that is built *)


(** X14.  Zero from [conv_init], on an image and a final size that are
    not empty and with sizes in the range of [int]: the activation
    buffer of every layer holds
    [width*height*depth] numbers and its feature bank
    [no_of_features*feature_width^2*depth]; layer 0 has the width and the
    height of the image and the other layers are square; the outputs are
    [final_image_width] wide and hold
    [final_image_width^2 * depth] numbers, for the depth of the last
    layer; the cursor and the counters are zero and the learning rate is
    [0.1f]. *)
Theorem conv_init_buffers (M : allocator) (k : nat)
    (no_of_layers_ image_width image_height image_depth : Z)
    (no_of_features_ feature_width_ final_image_width final_image_height : Z)
    (match_threshold_ : list float32) (conv conv' : deeplearn_conv) (k' : nat) :
  0 < image_width -> 0 < image_height -> 0 <= image_depth ->
  0 <= no_of_features_ -> 0 < final_image_width ->
  sizes_in_intb no_of_layers_ image_width image_height image_depth
    no_of_features_ feature_width_ final_image_width = true ->
  0 < no_of_layers_ <= Z.of_nat (length (conv_layers conv)) ->
  no_of_layers_ <= Z.of_nat (length match_threshold_) ->
  conv_init M k no_of_layers_ image_width image_height image_depth
    no_of_features_ feature_width_ final_image_width final_image_height
    match_threshold_ conv = Some (0, conv', k') ->
  (forall l, 0 <= l < no_of_layers_ ->
     exists lay layer_buf feature_buf,
       get_layer conv' l = Some lay /\
       layer lay = Some layer_buf /\ feature lay = Some feature_buf /\
       Z.of_nat (length layer_buf) = width lay * height lay * depth lay /\
       Z.of_nat (length feature_buf)
         = no_of_features lay * feature_width lay * feature_width lay
           * depth lay /\
       no_of_features lay = no_of_features_ /\
       (l = 0 -> width lay = image_width /\ height lay = image_height) /\
       (0 < l -> height lay = width lay)) /\
  (exists lst outputs_buf,
     get_layer conv' (no_of_layers_ - 1) = Some lst /\
     outputs conv' = Some outputs_buf /\
     outputs_width conv' = final_image_width /\
     no_of_outputs conv' = final_image_width * final_image_width * depth lst /\
     Z.of_nat (length outputs_buf) = no_of_outputs conv') /\
  no_of_layers conv' = no_of_layers_ /\
  current_layer conv' = 0 /\ itterations conv' = 0 /\
  training_ctr conv' = 0 /\
  learning_rate conv' = S754_finite false 13421773 (-27).
Proof.
  intros Hiw Hih Hid Hnf Hfiw Hsz Hn Hthr E.
  apply sizes_in_intb_spec in Hsz as (Ri & Rh & Rf & Rl & Ro).
  destruct (conv_init_outcome M k no_of_layers_ image_width image_height
              image_depth no_of_features_ feature_width_ final_image_width
              final_image_height ltac:(lia) match_threshold_ conv Hn Hthr)
    as (rc & c' & k1 & E' & Hout).
  rewrite E in E'. inversion E'; subst rc c' k1.
  apply init_outcome_zero in Hout as (Hall & Ec & Hlen & Hset & Hframe).
  cbv zeta in Ec. rewrite int_mul_3, (to_int_id _ Ro) in Ec.
  assert (Hd : forall l, 0 <= layer_depth image_depth no_of_features_ l)
    by (intros l; unfold layer_depth; destruct (l =? 0); lia).
  split; [|split].
  - intros l Hl.
    pose proof (interpolated_width_pos image_width final_image_width
                  no_of_layers_ l Hiw Hfiw Hl) as Hw.
    assert (Hh : 0 < layer_height image_width image_height final_image_width
                       no_of_layers_ l)
      by (unfold layer_height; destruct (l =? 0); lia).
    specialize (Hd l).
    set (w := interpolated_width image_width final_image_width no_of_layers_ l)
      in *.
    set (h := layer_height image_width image_height final_image_width
                no_of_layers_ l) in *.
    set (d := layer_depth image_depth no_of_features_ l) in *.
    set (f := scaled_feature_width feature_width_ image_width w).
    destruct (FLOATALLOC_ok M (k + 2 * Z.to_nat l) (w * h * d))
      as (p & Ep & Lp); [apply Hall; lia|].
    destruct (FLOATALLOC_ok M (k + 2 * Z.to_nat l + 1)
                (no_of_features_ * f * f * d)) as (q & Eq & Lq).
    { replace (k + 2 * Z.to_nat l + 1)%nat with (k + (2 * Z.to_nat l + 1))%nat
        by lia. apply Hall. lia. }
    exists (built_layer M k no_of_layers_ image_width image_height image_depth
              no_of_features_ feature_width_ final_image_width l), p, q.
    split; [apply Hset; exact Hl|].
    rewrite (built_layer_exact M k no_of_layers_ image_width image_height
               image_depth no_of_features_ feature_width_ final_image_width l
               Hiw Ri Rh Rf Hl (Rl l Hl)).
    cbn [width height depth no_of_features feature_width layer feature].
    fold w h d f.
    split; [exact Ep|]. split; [exact Eq|].
    split; [rewrite Lp; assert (0 <= w * h * d) by nia; lia|].
    split.
    { rewrite Lq. assert (0 <= f * f) by nia.
      assert (0 <= no_of_features_ * (f * f)) by nia.
      assert (0 <= no_of_features_ * (f * f) * d) by nia.
      replace (no_of_features_ * f * f * d)
        with (no_of_features_ * (f * f) * d) by ring.
      lia. }
    split; [reflexivity|]. split.
    + intros ->. unfold w, h, interpolated_width, layer_height.
      rewrite Z.mul_0_r. change (0 ÷ no_of_layers_) with 0.
      split; [lia | reflexivity].
    + intros Hpos. unfold h, layer_height.
      destruct (Z.eqb_spec l 0); [lia | reflexivity].
  - destruct (FLOATALLOC_ok M (k + 2 * Z.to_nat no_of_layers_)
                (final_image_width * final_image_width
                 * layer_depth image_depth no_of_features_ (no_of_layers_ - 1)))
      as (p & Ep & Lp); [apply Hall; lia|].
    eexists _, p. split; [apply Hset; lia|].
    rewrite Ec. cbn [outputs outputs_width no_of_outputs built_layer depth].
    split; [exact Ep|]. split; [reflexivity|]. split; [reflexivity|].
    rewrite Lp. specialize (Hd (no_of_layers_ - 1)). nia.
  - rewrite Ec. cbn. repeat split.
Qed.

Lemma conv_init_buffers_witness :
  (forall l, 0 <= l < 2 ->
     exists lay layer_buf feature_buf,
       get_layer scenario l = Some lay /\
       layer lay = Some layer_buf /\ feature lay = Some feature_buf /\
       Z.of_nat (length layer_buf) = width lay * height lay * depth lay /\
       Z.of_nat (length feature_buf)
         = no_of_features lay * feature_width lay * feature_width lay
           * depth lay /\
       no_of_features lay = 2 /\
       (l = 0 -> width lay = 8 /\ height lay = 8) /\
       (0 < l -> height lay = width lay)) /\
  (exists lst outputs_buf,
     get_layer scenario (2 - 1) = Some lst /\
     outputs scenario = Some outputs_buf /\
     outputs_width scenario = 4 /\
     no_of_outputs scenario = 4 * 4 * depth lst /\
     Z.of_nat (length outputs_buf) = no_of_outputs scenario) /\
  no_of_layers scenario = 2 /\
  current_layer scenario = 0 /\ itterations scenario = 0 /\
  training_ctr scenario = 0 /\
  learning_rate scenario = S754_finite false 13421773 (-27).
Proof.
  apply (conv_init_buffers all_fit 0 2 8 8 1 2 4 4 4 [f32_0_5; f32_0_5]
           blank_conv scenario 6);
    [lia | lia | lia | lia | lia | vm_compute; reflexivity
    | simpl; lia | simpl; lia | vm_compute; reflexivity].
Defined.



(** ** Construction: the parameters *)

Lemma countup_return_ext {St R : Type}
    (f g : Z -> St -> option (flow St R)) n :
  (forall i s, f i s = g i s) ->
  forall i s, countup_return i n f s = countup_return i n g s.
Proof.
  intros H. induction n as [|n IH]; intros i s; [reflexivity|].
  simpl. rewrite H. destruct (g i s) as [[s'|r]|]; [apply IH | reflexivity..].
Qed.

(** X16.  [conv_init] makes no use of [final_image_height]: layer 0 has
    the height of the image, the other layers are square, and the outputs
    are as high as they are wide.  Two calls that differ in this
    parameter alone do the same. *)
Theorem conv_init_ignores_final_height (M : allocator) (k : nat)
    (no_of_layers_ image_width image_height image_depth : Z)
    (no_of_features_ feature_width_ final_image_width : Z)
    (final_image_height final_image_height' : Z)
    (match_threshold_ : list float32) (conv : deeplearn_conv) :
  conv_init M k no_of_layers_ image_width image_height image_depth
    no_of_features_ feature_width_ final_image_width final_image_height
    match_threshold_ conv
  = conv_init M k no_of_layers_ image_width image_height image_depth
      no_of_features_ feature_width_ final_image_width final_image_height'
      match_threshold_ conv.
Proof.
  unfold conv_init.
  rewrite (countup_return_ext
             (conv_init_layer M no_of_layers_ image_width image_height
                image_depth no_of_features_ feature_width_ final_image_width
                final_image_height)
             (conv_init_layer M no_of_layers_ image_width image_height
                image_depth no_of_features_ feature_width_ final_image_width
                final_image_height')); [reflexivity|].
  intros l [c j]. unfold conv_init_layer.
  destruct (Z.eqb_spec l 0) as [->|Hne]; [|reflexivity].
  unfold int_mul. rewrite !Z.mul_0_r. reflexivity.
Qed.

(** X17.  [conv_init] is undefined without layers, where it reads the
    depth of the layer before the first one, and on an image that is 0
    wide, by which it divides. *)
Theorem conv_init_undefined (M : allocator) (k : nat)
    (no_of_layers_ image_width image_height image_depth : Z)
    (no_of_features_ feature_width_ final_image_width final_image_height : Z)
    (match_threshold_ : list float32) (conv : deeplearn_conv) :
  no_of_layers_ <= 0 \/ image_width = 0 ->
  conv_init M k no_of_layers_ image_width image_height image_depth
    no_of_features_ feature_width_ final_image_width final_image_height
    match_threshold_ conv = None.
Proof.
  intros H. unfold conv_init.
  destruct (Z_le_gt_dec no_of_layers_ 0) as [Hn|Hn].
  - replace (Z.to_nat no_of_layers_) with O by lia.
    cbn [countup_return mbind option_bind].
    unfold get_layer, rd. cbn [conv_layers].
    destruct (Z.ltb_spec (no_of_layers_ - 1) 0); [reflexivity | lia].
  - destruct H as [H | Hz]; [lia | subst image_width].
    destruct (Z.to_nat no_of_layers_) as [|m] eqn:Em; [lia|].
    cbn [countup_return]. unfold conv_init_layer at 1.
    destruct (get_layer _ 0) as [old|]; [|reflexivity].
    cbn [mbind option_bind]. change (0 =? 0) with true. cbv iota.
    cbn [mbind option_bind]. unfold int_div. change (0 =? 0) with true.
    reflexivity.
Qed.

Lemma conv_init_undefined_witness :
  conv_init all_fit 0 0 8 8 1 2 4 4 4 [] blank_conv = None.
Proof.
  apply (conv_init_undefined all_fit 0 0 8 8 1 2 4 4 4 [] blank_conv).
  left. lia.
Defined.

Lemma interpolated_width_bounds image_width final_image_width n l :
  0 < final_image_width <= image_width -> 0 <= l < n ->
  final_image_width <= interpolated_width image_width final_image_width n l
    <= image_width /\
  (final_image_width < image_width ->
   final_image_width < interpolated_width image_width final_image_width n l).
Proof.
  intros Hf Hl. unfold interpolated_width.
  rewrite Z.quot_div_nonneg by nia.
  assert (0 <= (image_width - final_image_width) * l / n)
    by (apply Z.div_pos; nia).
  assert ((image_width - final_image_width) * l / n
          <= image_width - final_image_width)
    by (apply Z.div_le_upper_bound; nia).
  split; [lia|]. intros Hlt.
  assert ((image_width - final_image_width) * l / n
          < image_width - final_image_width)
    by (apply Z.div_lt_upper_bound; nia).
  lia.
Qed.

Lemma interpolated_width_decreasing image_width final_image_width n l1 l2 :
  final_image_width <= image_width -> 0 <= l1 <= l2 -> 0 < n ->
  interpolated_width image_width final_image_width n l2
  <= interpolated_width image_width final_image_width n l1.
Proof.
  intros Hf Hl Hn. unfold interpolated_width.
  rewrite !Z.quot_div_nonneg by nia.
  assert ((image_width - final_image_width) * l1 / n
          <= (image_width - final_image_width) * l2 / n)
    by (apply Z.div_le_mono; nia).
  lia.
Qed.

Lemma scaled_feature_width_mono feature_width_ image_width w1 w2 :
  0 < image_width -> 0 <= w2 <= w1 -> w1 <= image_width ->
  3 <= scaled_feature_width feature_width_ image_width w2
  /\ scaled_feature_width feature_width_ image_width w2
     <= scaled_feature_width feature_width_ image_width w1
  /\ scaled_feature_width feature_width_ image_width w1 <= Z.max 3 feature_width_.
Proof.
  intros Hiw Hw Hw1. unfold scaled_feature_width.
  destruct (Z_le_gt_dec 0 feature_width_) as [Hpos|Hneg].
  - rewrite !Z.quot_div_nonneg by nia.
    assert (feature_width_ * w2 / image_width <= feature_width_ * w1 / image_width)
      by (apply Z.div_le_mono; nia).
    assert (feature_width_ * w1 / image_width <= feature_width_)
      by (apply Z.div_le_upper_bound; nia).
    lia.
  - assert (H1 : (feature_width_ * w1) ÷ image_width <= 0 ÷ image_width)
      by (apply Z.quot_le_mono; nia).
    assert (H2 : (feature_width_ * w2) ÷ image_width <= 0 ÷ image_width)
      by (apply Z.quot_le_mono; nia).
    rewrite Z.quot_0_l in H1, H2 by lia. lia.
Qed.

(** X18.  When the final width is at most the width of the image, and
    the products [(image_width - final_image_width)*(no_of_layers - 1)]
    and [feature_width*image_width] are in the range of [int], the
    layers that [conv_init] builds narrow down from the image: layer 0 is
    as wide as the image, a later layer is at most as wide as an earlier
    one and its features are at most as wide, every width stays above the
    final width when that is less than the width of the image, and no
    feature is wider than the greater of 3 and [feature_width]. *)
Theorem conv_init_widths (M : allocator) (k : nat)
    (no_of_layers_ image_width image_height image_depth : Z)
    (no_of_features_ feature_width_ final_image_width final_image_height : Z)
    (match_threshold_ : list float32) (conv conv' : deeplearn_conv) (k' : nat) :
  0 < final_image_width <= image_width ->
  in_int image_width ->
  in_int ((image_width - final_image_width) * (no_of_layers_ - 1)) ->
  in_int (feature_width_ * image_width) ->
  0 < no_of_layers_ <= Z.of_nat (length (conv_layers conv)) ->
  no_of_layers_ <= Z.of_nat (length match_threshold_) ->
  conv_init M k no_of_layers_ image_width image_height image_depth
    no_of_features_ feature_width_ final_image_width final_image_height
    match_threshold_ conv = Some (0, conv', k') ->
  forall l1 l2, 0 <= l1 <= l2 -> l2 < no_of_layers_ ->
    exists lay1 lay2,
      get_layer conv' l1 = Some lay1 /\ get_layer conv' l2 = Some lay2 /\
      final_image_width <= width lay2 <= width lay1 /\
      width lay1 <= image_width /\
      (l1 = 0 -> width lay1 = image_width) /\
      (final_image_width < image_width -> final_image_width < width lay2) /\
      3 <= feature_width lay2 <= feature_width lay1 /\
      feature_width lay1 <= Z.max 3 feature_width_.
Proof.
  intros Hf Ri Rw Rfw Hn Hthr E l1 l2 Hl Hl2.
  assert (Hiw : image_width <> 0) by lia.
  destruct (conv_init_constructed _ _ _ _ _ _ _ _ _ _ _ _ _ _
              Hiw Hn Hthr E) as (_ & _ & Hset & _).
  eexists _, _. split; [apply Hset; lia|]. split; [apply Hset; lia|].
  unfold built_layer. cbn [width feature_width].
  assert (Rf : in_int final_image_width)
    by (unfold in_int, int_min, int_max in *; lia).
  assert (Ew : forall l, 0 <= l < no_of_layers_ ->
            int_width image_width final_image_width no_of_layers_ l
            = interpolated_width image_width final_image_width no_of_layers_ l).
  { intros l Hl'. apply int_width_exact; [exact Ri | exact Rf | exact Hl' |].
    unfold in_int, int_min, int_max in *. nia. }
  assert (Efw : forall l, 0 <= l < no_of_layers_ ->
            int_feature_width feature_width_ image_width
              (interpolated_width image_width final_image_width no_of_layers_ l)
            = scaled_feature_width feature_width_ image_width
                (interpolated_width image_width final_image_width
                   no_of_layers_ l)).
  { intros l Hl'. apply int_feature_width_exact; [lia|].
    destruct (interpolated_width_bounds image_width final_image_width
                no_of_layers_ l Hf Hl') as (B & _).
    unfold in_int, int_min, int_max in *. nia. }
  rewrite !Ew, !Efw by lia.
  destruct (interpolated_width_bounds image_width final_image_width
              no_of_layers_ l1 Hf ltac:(lia)) as (B1 & _).
  destruct (interpolated_width_bounds image_width final_image_width
              no_of_layers_ l2 Hf ltac:(lia)) as (B2 & S2).
  pose proof (interpolated_width_decreasing image_width final_image_width
                no_of_layers_ l1 l2 ltac:(lia) Hl ltac:(lia)) as D.
  destruct (scaled_feature_width_mono feature_width_ image_width
              (interpolated_width image_width final_image_width no_of_layers_ l1)
              (interpolated_width image_width final_image_width no_of_layers_ l2)
              ltac:(lia) ltac:(lia) ltac:(lia)) as (F1 & F2 & F3).
  split; [lia|]. split; [lia|]. split.
  - intros ->. unfold interpolated_width. rewrite Z.mul_0_r.
    change (0 ÷ no_of_layers_) with 0. lia.
  - split; [exact S2|]. split; [lia | exact F3].
Qed.

Lemma conv_init_widths_witness :
  exists lay1 lay2,
    get_layer tapering 0 = Some lay1 /\
    get_layer tapering 2 = Some lay2 /\
    8 <= width lay2 <= width lay1 /\
    width lay1 <= 32 /\
    (0 = 0 -> width lay1 = 32) /\
    (8 < 32 -> 8 < width lay2) /\
    3 <= feature_width lay2 <= feature_width lay1 /\
    feature_width lay1 <= Z.max 3 16.
Proof.
  apply (conv_init_widths all_fit 0 3 32 24 1 2 16 8 8
           [f32_0_5; f32_0_5; f32_0_5]
           (set_conv_layers blank_conv [blank_layer; blank_layer; blank_layer])
           tapering 8 ltac:(lia)
           ltac:(unfold in_int, int_min, int_max; lia)
           ltac:(unfold in_int, int_min, int_max; lia)
           ltac:(unfold in_int, int_min, int_max; lia)
           ltac:(simpl; lia) ltac:(simpl; lia)
           ltac:(vm_compute; reflexivity) 0 2); lia.
Defined.

(** ** Construction: failures *)

Lemma countup_return_preserves {St R : Type} (P : St -> Prop) (Q : R -> Prop)
    (body : Z -> St -> option (flow St R)) n :
  (forall i s r, P s -> body i s = Some r ->
     match r with Next s' => P s' | Return x => Q x end) ->
  forall i s r, P s -> countup_return i n body s = Some r ->
    match r with Next s' => P s' | Return x => Q x end.
Proof.
  intros H. induction n as [|n IH]; intros i s r Hs E; simpl in E.
  - inversion E; subst r. exact Hs.
  - destruct (body i s) as [[s'|x]|] eqn:Eb; [|inversion E; subst r|discriminate].
    + apply (IH (i + 1) s' r); [|exact E]. apply (H i s (Next s') Hs Eb).
    + apply (H i s (Return x) Hs Eb).
Qed.

Lemma put_layer_layers conv l lay conv' :
  put_layer conv l lay = Some conv' ->
  conv' = set_conv_layers conv (conv_layers conv').
Proof.
  unfold put_layer. destruct (wr (conv_layers conv) l lay) as [ls|];
    [|discriminate].
  cbn [mbind option_bind]. intros E. inversion E. reflexivity.
Qed.

Lemma set_conv_layers_twice conv ls ls' :
  set_conv_layers (set_conv_layers conv ls) ls' = set_conv_layers conv ls'.
Proof. reflexivity. Qed.

(** A round of the loop of [conv_init] changes the layers and nothing
    else, and leaves the loop with 1 or 2 only. *)
Lemma conv_init_layer_frame M n iw ih id nf fw fiw fih c0 l c j r :
  c = set_conv_layers c0 (conv_layers c) ->
  conv_init_layer M n iw ih id nf fw fiw fih l (c, j) = Some r ->
  match r with
  | Next (c', _) => c' = set_conv_layers c0 (conv_layers c')
  | Return (rc, c', _) =>
      (rc = 1 \/ rc = 2) /\ c' = set_conv_layers c0 (conv_layers c')
  end.
Proof.
  intros Hc E. unfold conv_init_layer in E.
  destruct (get_layer c l) as [old|]; [|discriminate].
  cbn [mbind option_bind] in E.
  destruct (if l =? 0 then Some id else no_of_features <$> get_layer c (l - 1))
    as [d|]; [|discriminate].
  cbn [mbind option_bind] in E.
  destruct (int_div _ iw) as [f|]; [|discriminate].
  cbn [mbind option_bind] in E.
  destruct (put_layer c l _) as [c1|] eqn:E1; [|discriminate].
  cbn [mbind option_bind] in E.
  apply put_layer_layers in E1.
  assert (H1 : c1 = set_conv_layers c0 (conv_layers c1)).
  { rewrite E1 at 1. rewrite Hc. reflexivity. }
  destruct (bool_decide _).
  - inversion E; subst r. split; [left; reflexivity | exact H1].
  - destruct (put_layer c1 l _) as [c2|] eqn:E2; [|discriminate].
    cbn [mbind option_bind] in E.
    apply put_layer_layers in E2.
    assert (H2 : c2 = set_conv_layers c0 (conv_layers c2)).
    { rewrite E2 at 1. rewrite H1. reflexivity. }
    destruct (bool_decide _); inversion E; subst r;
      [split; [right; reflexivity | exact H2] | exact H2].
Qed.

(** X19.  When [conv_init] fails, it returns at once, with the network
    half built: the cursor and the counters have been reset; with 1 or 2
    the outputs and the thresholds, pointers and sizes, have not been
    assigned and are what they were before the call; with 3 the pointer
    to the outputs is null and the thresholds have not been assigned;
    with 4 the outputs are allocated and the pointer to the thresholds is
    null. *)
Theorem conv_init_failure (M : allocator) (k : nat)
    (no_of_layers_ image_width image_height image_depth : Z)
    (no_of_features_ feature_width_ final_image_width final_image_height : Z)
    (match_threshold_ : list float32) (conv conv' : deeplearn_conv)
    (rc : Z) (k' : nat) :
  conv_init M k no_of_layers_ image_width image_height image_depth
    no_of_features_ feature_width_ final_image_width final_image_height
    match_threshold_ conv = Some (rc, conv', k') ->
  rc <> 0 ->
  no_of_layers conv' = no_of_layers_ /\ current_layer conv' = 0 /\
  itterations conv' = 0 /\ training_ctr conv' = 0 /\
  (((rc = 1 \/ rc = 2) /\
    outputs conv' = outputs conv /\
    outputs_width conv' = outputs_width conv /\
    no_of_outputs conv' = no_of_outputs conv /\
    match_threshold conv' = match_threshold conv) \/
   (rc = 3 /\ outputs conv' = None /\
    outputs_width conv' = final_image_width /\
    match_threshold conv' = match_threshold conv) \/
   (rc = 4 /\ (exists b, outputs conv' = Some b) /\
    outputs_width conv' = final_image_width /\
    match_threshold conv' = None)).
Proof.
  intros E Hrc. unfold conv_init in E.
  set (c0 := mk_conv no_of_layers_ 0 f32_0_1 0 0 (conv_layers conv)
               (outputs_width conv) (no_of_outputs conv) (outputs conv)
               (match_threshold conv) (history conv) (history_index conv)
               (history_step conv)) in E.
  set (body := conv_init_layer M no_of_layers_ image_width image_height
                 image_depth no_of_features_ feature_width_ final_image_width
                 final_image_height) in E.
  destruct (countup_return 0 (Z.to_nat no_of_layers_) body (c0, k))
    as [r|] eqn:Er; [|discriminate].
  cbn [mbind option_bind] in E.
  assert (Hpres :
    match r with
    | Next s' => fst s' = set_conv_layers c0 (conv_layers (fst s'))
    | Return x =>
        (fst (fst x) = 1 \/ fst (fst x) = 2) /\
        snd (fst x) = set_conv_layers c0 (conv_layers (snd (fst x)))
    end).
  { apply (countup_return_preserves
             (fun s : deeplearn_conv * nat =>
                fst s = set_conv_layers c0 (conv_layers (fst s)))
             (fun x : Z * deeplearn_conv * nat =>
                (fst (fst x) = 1 \/ fst (fst x) = 2) /\
                snd (fst x) = set_conv_layers c0 (conv_layers (snd (fst x))))
             body (Z.to_nat no_of_layers_)) with (i := 0) (s := (c0, k));
      [|reflexivity | exact Er].
    intros i [c j] r' Hs Eb. cbn [fst] in Hs.
    pose proof (conv_init_layer_frame M no_of_layers_ image_width image_height
                  image_depth no_of_features_ feature_width_ final_image_width
                  final_image_height c0 i c j r' Hs Eb) as Hf.
    destruct r' as [[c' j']|[[rc' c'] j']]; exact Hf. }
  destruct r as [[c1 k1]|[[rc1 c1] k1]].
  - cbn [fst snd] in Hpres.
    destruct (get_layer c1 (no_of_layers_ - 1)) as [lst|]; [|discriminate].
    cbn [mbind option_bind] in E. cbv zeta in E.
    destruct (FLOATALLOC M k1 _) as [b|] eqn:Eo.
    + rewrite bool_decide_eq_false_2 in E by discriminate.
      assert (En1 : no_of_layers c1 = no_of_layers_)
        by (rewrite Hpres; reflexivity).
      cbn [no_of_layers] in E.
      destruct (FLOATALLOC M (S k1) _) as [dst|].
      * destruct (memcpy dst match_threshold_ _) as [t|]; [|discriminate].
        cbn [mbind option_bind] in E. inversion E. congruence.
      * inversion E; subst rc conv' k'.
        cbn. rewrite Hpres. cbn.
        repeat split. right. right. repeat split. eauto.
    + rewrite bool_decide_eq_true_2 in E by reflexivity.
      inversion E; subst rc conv' k'. cbn. rewrite Hpres. cbn.
      repeat split. right. left. repeat split.
  - cbn [fst snd] in Hpres. destruct Hpres as (Hcode & Hc1).
    inversion E; subst rc conv' k'. rewrite Hc1. cbn.
    repeat split. left. repeat split. exact Hcode.
Qed.

Lemma conv_init_failure_witness :
  exists conv',
    conv_init (fails_at 4) 0 2 8 8 1 2 4 4 4 [f32_0_5; f32_0_5] blank_conv
      = Some (3, conv', 5%nat) /\
    no_of_layers conv' = 2 /\ current_layer conv' = 0 /\
    itterations conv' = 0 /\ training_ctr conv' = 0 /\
    (((3 = 1 \/ 3 = 2) /\
      outputs conv' = outputs blank_conv /\
      outputs_width conv' = outputs_width blank_conv /\
      no_of_outputs conv' = no_of_outputs blank_conv /\
      match_threshold conv' = match_threshold blank_conv) \/
     (3 = 3 /\ outputs conv' = None /\
      outputs_width conv' = 4 /\
      match_threshold conv' = match_threshold blank_conv) \/
     (3 = 4 /\ (exists b, outputs conv' = Some b) /\
      outputs_width conv' = 4 /\
      match_threshold conv' = None)).
Proof.
  eexists. split; [vm_compute; reflexivity|].
  apply (conv_init_failure (fails_at 4) 0 2 8 8 1 2 4 4 4 [f32_0_5; f32_0_5]
           blank_conv _ 3 5); [vm_compute; reflexivity | lia].
Defined.

(** ** Teardown *)




(** ** Single precision: the order *)








(** ** Plotting the history *)

Module PlotProps.

Import Stdlib.Strings.String.
Import Plot.

Lemma sprintf_256_fits text :
  Z.of_nat (String.length text) < 256 -> sprintf_256 text = Some text.
Proof.
  intros H. unfold sprintf_256.
  destruct (Z.ltb_spec (Z.of_nat (String.length text)) 256); [reflexivity | lia].
Qed.

Lemma string_length_append (a b : string) :
  String.length (a ++ b)%string = (String.length a + String.length b)%nat.
Proof. induction a as [|c a IH]; simpl; [reflexivity | rewrite IH; reflexivity]. Qed.

(** The loop over the history writes a line for each value and keeps the
    greatest of them. *)
Lemma plot_history_loop conv data_filename n :
  forall index tr max_value,
    0 <= index ->
    (Z.to_nat index + n <= Datatypes.length (history conv))%nat ->
    countup_loop index n (plot_history_line conv data_filename)
      (tr, max_value)
    = Some (tr ++ data_file_lines data_filename (history_step conv) index
                    (take n (drop (Z.to_nat index) (history conv))),
            greatest (take n (drop (Z.to_nat index) (history conv)))
              max_value).
Proof.
  induction n as [|n IH]; intros index tr max_value Hi Hn.
  - simpl. rewrite app_nil_r. reflexivity.
  - cbn [countup_loop]. unfold plot_history_line at 1.
    destruct (lookup_lt_is_Some_2 (history conv) (Z.to_nat index) ltac:(lia))
      as [value Ev].
    rewrite rd_lookup by lia. rewrite Ev. cbn [mbind option_bind].
    rewrite IH by lia.
    replace (Z.to_nat (index + 1)) with (S (Z.to_nat index)) by lia.
    rewrite (drop_S _ _ _ Ev). cbn [take data_file_lines greatest fold_left].
    rewrite <- app_assoc. reflexivity.
Qed.

(** It reads past the end of the history when [history_index] is more
    than the history holds. *)
Lemma plot_history_loop_overrun conv data_filename n :
  forall index tr max_value,
    0 <= index ->
    (Z.to_nat index <= Datatypes.length (history conv))%nat ->
    (Datatypes.length (history conv) < Z.to_nat index + n)%nat ->
    countup_loop index n (plot_history_line conv data_filename)
      (tr, max_value) = None.
Proof.
  induction n as [|n IH]; intros index tr max_value Hi Hs Hn; [lia|].
  cbn [countup_loop]. unfold plot_history_line at 1.
  rewrite rd_lookup by lia.
  destruct (history conv !! Z.to_nat index) as [value|] eqn:Ev;
    [|reflexivity].
  cbn [mbind option_bind]. apply lookup_lt_Some in Ev.
  apply IH; lia.
Qed.

Lemma commands_app tr tr' : commands (tr ++ tr') = commands tr ++ commands tr'.
Proof. apply omap_app. Qed.

Lemma commands_data_file_lines data_filename step values :
  forall index, commands (data_file_lines data_filename step index values) = [].
Proof.
  induction values as [|v values IH]; intros index; [reflexivity|].
  cbn [data_file_lines]. unfold commands. cbn [omap].
  apply IH.
Qed.

Lemma data_filename_fits temp_directory :
  Z.of_nat (String.length temp_directory) <= 233 ->
  sprintf_256 (temp_directory ++ "libdeep_conv_data.dat")%string
    = Some (temp_directory ++ "libdeep_conv_data.dat")%string /\
  sprintf_256 (temp_directory ++ "libdeep_conv_data.plot")%string
    = Some (temp_directory ++ "libdeep_conv_data.plot")%string.
Proof.
  intros H. split; apply sprintf_256_fits; rewrite string_length_append;
    cbn [String.length]; lia.
Qed.

(** X21.  When the data file or the plot file cannot be opened,
    [conv_plot_history] returns -1 and runs no command, neither gnuplot
    nor the removal of the temporary files: a data file that has been
    written stays behind. *)
Theorem conv_plot_history_cannot_open (C : libc) (temp_directory : string)
    (conv : deeplearn_conv) (filename title : string)
    (img_width img_height : Z) (tr : list event) :
  Z.of_nat (String.length temp_directory) <= 233 ->
  (Z.to_nat (history_index conv) <= Datatypes.length (history conv))%nat ->
  (forall tr', fopen_opens C tr'
                 (temp_directory ++ "libdeep_conv_data.dat")%string "w" = false)
  \/ (forall tr', fopen_opens C tr'
                    (temp_directory ++ "libdeep_conv_data.plot")%string "w"
                  = false) ->
  exists tr',
    conv_plot_history C temp_directory conv filename title img_width
      img_height tr = Some (-1, tr') /\
    commands tr' = commands tr.
Proof.
  intros Hlen Hh Hfail. unfold conv_plot_history.
  destruct (data_filename_fits temp_directory Hlen) as (-> & ->).
  cbn [mbind option_bind].
  set (data_filename := (temp_directory ++ "libdeep_conv_data.dat")%string) in *.
  set (plot_filename := (temp_directory ++ "libdeep_conv_data.plot")%string) in *.
  destruct (fopen_opens C tr data_filename "w") eqn:Eopen; cbn [negb].
  - destruct Hfail as [Hdata|Hplot]; [rewrite Hdata in Eopen; discriminate|].
    unfold COUNTUP. rewrite plot_history_loop by (simpl; lia).
    cbn [mbind option_bind]. rewrite Hplot. cbn [negb].
    eexists. split; [reflexivity|].
    rewrite !commands_app, commands_data_file_lines. cbn.
    rewrite !app_nil_r. reflexivity.
  - eexists. split; [reflexivity|].
    rewrite commands_app. cbn. rewrite app_nil_r. reflexivity.
Qed.

Lemma conv_plot_history_cannot_open_witness :
  exists tr',
    conv_plot_history (libc_of ["/tmp/libdeep_conv_data.plot"%string] (fun _ => 0))
      "/tmp/" plotted "history.png" "Training" 640 480 []
    = Some (-1, tr') /\
    commands tr' = commands [].
Proof.
  apply (conv_plot_history_cannot_open
           (libc_of ["/tmp/libdeep_conv_data.plot"%string] (fun _ => 0))
           "/tmp/" plotted "history.png" "Training" 640 480 []);
    [simpl; lia | simpl; lia | right; intros tr'; reflexivity].
Defined.



(** X23.  [conv_plot_history] is undefined when [history_index] is more
    than the history holds, once the data file is open, since it reads
    past the end of the history; and when the temporary directory has a
    name of more than 233 characters, since the name of the plot file
    does not fit its array of 256. *)
Theorem conv_plot_history_undefined (C : libc) (temp_directory : string)
    (conv : deeplearn_conv) (filename title : string)
    (img_width img_height : Z) (tr : list event) :
  233 < Z.of_nat (String.length temp_directory) \/
  ((Datatypes.length (history conv) < Z.to_nat (history_index conv))%nat /\
   fopen_opens C tr (temp_directory ++ "libdeep_conv_data.dat")%string "w"
     = true) ->
  conv_plot_history C temp_directory conv filename title img_width
    img_height tr = None.
Proof.
  intros [Hlong|(Hover & Hopen)]; unfold conv_plot_history.
  - destruct (sprintf_256 (temp_directory ++ "libdeep_conv_data.dat")%string);
      [|reflexivity].
    cbn [mbind option_bind]. unfold sprintf_256.
    rewrite string_length_append. cbn [String.length].
    destruct (Z.ltb_spec
                (Z.of_nat (String.length temp_directory + 22)) 256);
      [lia | reflexivity].
  - destruct (Z_le_gt_dec (Z.of_nat (String.length temp_directory)) 233)
      as [Hfit|Hlong].
    + destruct (data_filename_fits temp_directory Hfit) as (-> & ->).
      cbn [mbind option_bind]. rewrite Hopen. cbn [negb].
      unfold COUNTUP. rewrite plot_history_loop_overrun; [reflexivity | | |];
        simpl; lia.
    + destruct (sprintf_256 (temp_directory ++ "libdeep_conv_data.dat")%string);
        [|reflexivity].
      cbn [mbind option_bind]. unfold sprintf_256.
      rewrite string_length_append. cbn [String.length].
      destruct (Z.ltb_spec
                  (Z.of_nat (String.length temp_directory + 22)) 256);
        [lia | reflexivity].
Qed.

Lemma conv_plot_history_undefined_witness :
  conv_plot_history (libc_of [] (fun _ => 0)) "/tmp/"
    (mk_conv 2 0 F32.zero 0 0 [] 0 0 None None [f32_0_5] 2 1)
    "history.png" "Training" 640 480 [] = None.
Proof.
  apply (conv_plot_history_undefined (libc_of [] (fun _ => 0)) "/tmp/"
           (mk_conv 2 0 F32.zero 0 0 [] 0 0 None None [f32_0_5] 2 1)
           "history.png" "Training" 640 480 []).
  right. split; [simpl; lia | reflexivity].
Defined.

End PlotProps.
